(** * FUSE-ODS2: a shallow embedding of [src/__main__.py]

    The Python program mounts a Files-11 ODS-2 disk image read-only.  This
    development embeds its decoders ([FileID], [DirectoryEntry],
    [DirectoryRecord], [File]) and the volume object ([ODS2]) and proves or
    refutes the properties claimed for them.

    Conventions.
    - Python [int] is [Z]; [bytes] is [list byte]; [str] is [string]
      (code points above 255 are not represented).
    - [None] is [option]'s [None]; a raised exception is [Raise e].
    - [print] appends a structured line to the output log.
    - [File] objects live in a heap and are referred to by location, because
      the volume keeps several references to them and mutates one.
    - The formats ['BBH'] and ['h'] use the host's byte order; the model takes
      a little-endian host. *)

From Stdlib Require Import ZArith List Lia Bool String Ascii.
From Stdlib Require Import Strings.Byte.
Import ListNotations.
Local Open Scope Z_scope.

(** ** Results, exceptions and the state monad *)

Inductive exn : Set :=
| StructError
| IndexError
| TypeError
| AttributeError
| UnicodeDecodeError
| OSError.

(** [Stuck] is not a Python outcome: it marks a loop of the model that was
    given too few iterations, or a location that was never allocated. *)
Inductive result (A : Type) : Type :=
| Ok (a : A)
| Raise (e : exn)
| Stuck.

Arguments Ok {A} a.
Arguments Raise {A} e.
Arguments Stuck {A}.

Definition rbind {A B : Type} (c : result A) (k : A -> result B) : result B :=
  match c with
  | Ok a => k a
  | Raise e => Raise e
  | Stuck => Stuck
  end.

Notation "x <~ c ;; k" := (rbind c (fun x => k))
  (at level 61, c at next level, right associativity).

(** Stateful code: the state survives a raised exception, as mutations do in
    Python. *)
Definition M (S A : Type) : Type := S -> result A * S.

Definition ret {S A : Type} (a : A) : M S A := fun s => (Ok a, s).

Definition bind {S A B : Type} (c : M S A) (k : A -> M S B) : M S B :=
  fun s =>
    match c s with
    | (Ok a, s') => k a s'
    | (Raise e, s') => (Raise e, s')
    | (Stuck, s') => (Stuck, s')
    end.

Notation "x <- c ;; k" := (bind c (fun x => k))
  (at level 61, c at next level, right associativity).

Definition lift {S A : Type} (r : result A) : M S A := fun s => (r, s).

Definition gets {S A : Type} (f : S -> A) : M S A := fun s => (Ok (f s), s).

Definition modify {S : Type} (f : S -> S) : M S unit := fun s => (Ok tt, f s).

(** Run a computation on a component [T] of the state [S]. *)
Definition zoom {S T A : Type} (get : S -> T) (set : T -> S -> S)
  (c : M T A) : M S A :=
  fun s => let (r, t) := c (get s) in (r, set t s).

(** ** Python sequences *)

Definition bytes : Type := list byte.

Definition u8 (b : byte) : Z := Z.of_N (Byte.to_N b).

Definition len {A : Type} (l : list A) : Z := Z.of_nat (List.length l).

(** [range(a, b)] *)
Definition range (a b : Z) : list Z :=
  List.map (fun k => a + Z.of_nat k) (seq 0 (Z.to_nat (b - a))).

(** [v in range(a, b)] for an integer [v] *)
Definition in_range (v a b : Z) : bool := (a <=? v) && (v <? b).

(** The position an index denotes: a negative index counts from the end,
    and an index outside the list denotes none. *)
Definition position {A : Type} (l : list A) (i : Z) : option nat :=
  let j := if i <? 0 then i + len l else i in
  if (j <? 0) || (len l <=? j) then None else Some (Z.to_nat j).

(** [l[i]] *)
Definition getitem {A : Type} (l : list A) (i : Z) : result A :=
  match position l i with
  | Some p =>
      match nth_error l p with
      | Some a => Ok a
      | None => Raise IndexError
      end
  | None => Raise IndexError
  end.

Fixpoint list_set {A : Type} (l : list A) (n : nat) (v : A) : list A :=
  match l, n with
  | [], _ => []
  | _ :: t, O => v :: t
  | h :: t, S n' => h :: list_set t n' v
  end.

(** [l[i] = v] *)
Definition setitem {A : Type} (l : list A) (i : Z) (v : A) : result (list A) :=
  match position l i with
  | Some p => Ok (list_set l p v)
  | None => Raise IndexError
  end.

(** A slice bound, clamped as Python does. *)
Definition clamp {A : Type} (l : list A) (i : Z) : nat :=
  Z.to_nat (if i <? 0 then Z.max 0 (i + len l) else Z.min i (len l)).

(** [l[a:b]] *)
Definition slice {A : Type} (l : list A) (a b : Z) : list A :=
  firstn (clamp l b - clamp l a) (skipn (clamp l a) l).

(** [l[a:b] = s] *)
Definition setslice {A : Type} (l : list A) (a b : Z) (s : list A) : list A :=
  let lo := clamp l a in
  let hi := Nat.max lo (clamp l b) in
  firstn lo l ++ s ++ skipn hi l.

(** ** [struct] *)

(** Little-endian unsigned value of a byte string. *)
Fixpoint le_uint (bs : bytes) : Z :=
  match bs with
  | [] => 0
  | b :: t => u8 b + 256 * le_uint t
  end.

(** Two's-complement reading of a 16-bit value (format ['h']). *)
Definition to_int16 (u : Z) : Z := if u <? 32768 then u else u - 65536.

(** [struct.unpack_from(fmt, buf, offset)] first selects the [size] bytes the
    format covers, or raises [struct.error]. *)
Definition unpack_from (size : Z) (buf : bytes) (offset : Z) : result bytes :=
  let window (o : Z) :=
    if len buf - o <? size then Raise StructError
    else Ok (firstn (Z.to_nat size) (skipn (Z.to_nat o) buf)) in
  if offset <? 0 then
    if 0 <? offset + size then Raise StructError
    else if offset + len buf <? 0 then Raise StructError
    else window (offset + len buf)
  else window offset.

(** The field of [n] bytes at position [pos] of an unpacked window. *)
Definition fieldb (w : bytes) (pos n : nat) : bytes := firstn n (skipn pos w).

Definition field (w : bytes) (pos n : nat) : Z := le_uint (fieldb w pos n).

(** ** [str] *)

Definition is_ascii (b : byte) : bool := u8 b <? 128.

(** [bs.decode("ascii")] *)
Definition decode_ascii (bs : bytes) : result string :=
  if forallb is_ascii bs
  then Ok (string_of_list_ascii (List.map ascii_of_byte bs))
  else Raise UnicodeDecodeError.

Definition chars (s : string) : list ascii := list_ascii_of_string s.

Definition startswith (c : ascii) (s : string) : bool :=
  match chars s with
  | h :: _ => Ascii.eqb h c
  | [] => false
  end.

Definition endswith (c : ascii) (s : string) : bool :=
  match rev (chars s) with
  | h :: _ => Ascii.eqb h c
  | [] => false
  end.

(** [s[1:]] *)
Definition drop_first (s : string) : string :=
  string_of_list_ascii (tl (chars s)).

(** [s[:-1]] *)
Definition drop_last (s : string) : string :=
  string_of_list_ascii (removelast (chars s)).

(** [s.split(sep)] for a one-character separator *)
Fixpoint split_chars (sep : ascii) (cur : list ascii) (l : list ascii)
  : list string :=
  match l with
  | [] => [string_of_list_ascii (rev cur)]
  | c :: t =>
      if Ascii.eqb c sep
      then string_of_list_ascii (rev cur) :: split_chars sep [] t
      else split_chars sep (c :: cur) t
  end.

Definition split (sep : ascii) (s : string) : list string :=
  split_chars sep [] (chars s).

(** Characters [str.strip()] removes, among the ASCII ones. *)
Definition isspace (c : ascii) : bool :=
  let n := Z.of_N (N_of_ascii c) in
  ((9 <=? n) && (n <=? 13)) || ((28 <=? n) && (n <=? 32)).

Fixpoint lstrip_chars (l : list ascii) : list ascii :=
  match l with
  | c :: t => if isspace c then lstrip_chars t else l
  | [] => []
  end.

(** [s.strip()] *)
Definition strip (s : string) : string :=
  string_of_list_ascii
    (rev (lstrip_chars (rev (lstrip_chars (chars s))))).

(** [s.rsplit(sep, 1)[0]] *)
Fixpoint rsplit1_rev (sep : ascii) (r : list ascii) : option (list ascii) :=
  match r with
  | [] => None
  | c :: t => if Ascii.eqb c sep then Some t else rsplit1_rev sep t
  end.

Definition rsplit1_head (sep : ascii) (s : string) : string :=
  match rsplit1_rev sep (rev (chars s)) with
  | Some t => string_of_list_ascii (rev t)
  | None => s
  end.

(** ** Program output *)

Inductive output : Type :=
| OutDiskBlocks (n : Z)
| OutStructureName (s : string)
| OutVolumeName (s : string)
| OutOwnerName (s : string)
| OutFormat (s : string)
| OutReadFiles (count : Z)
| OutFormat0Unsupported
| OutUnalignedOffset.

Definition print (o : output) : M (list output) unit :=
  fun out => (Ok tt, out ++ [o]).

Definition BLOCK_SIZE : Z := 512.

(** [VMStoUNIX] returns the float [(timestamp - 35067168003000000) / 1e7];
    the model keeps the exact integer numerator of that quotient.  Time
    attributes are the int [0] until the identification area is read. *)
Inductive pytime : Type :=
| TimeInt (n : Z)
| TimeTicks (numerator : Z).

Definition VMStoUNIX (timestamp : Z) : pytime :=
  TimeTicks (timestamp - 35067168003000000).

(** ** class FileID *)

Module FileID.

Record t : Type := mk {
  file_number : Z;
  sequence_number : Z;
  relative_volume_number : Z
}.

(** [struct.calcsize('<HHBB')] *)
Definition SIZE : Z := 6.

Definition __init__ (disk : bytes) : result t :=
  w <~ unpack_from SIZE disk 0 ;;
  let W_NUM := field w 0 2 in
  let W_SEQ := field w 2 2 in
  let B_RVN := field w 4 1 in
  let B_NMX := field w 5 1 in
  Ok {| file_number := Z.lor (Z.shiftl B_NMX 16) W_NUM;
        sequence_number := W_SEQ;
        relative_volume_number := B_RVN |}.

End FileID.

(** ** class DirectoryEntry *)

Module DirectoryEntry.

Record t : Type := mk { fid : FileID.t }.

(** [struct.calcsize('<H6s')] *)
Definition SIZE : Z := 8.

Definition __init__ (disk : bytes) (offset : Z) : result t :=
  w <~ unpack_from SIZE disk offset ;;
  let W_FID := fieldb w 2 6 in
  fid <~ FileID.__init__ W_FID ;;
  Ok {| fid := fid |}.

End DirectoryEntry.

(** ** class DirectoryRecord *)

Module DirectoryRecord.

Record t : Type := mk {
  size : Z;
  name : string;
  entries : list DirectoryEntry.t
}.

(** [struct.calcsize('<HHBB')], the fixed part of a record *)
Definition HEADER_SIZE : Z := 6.

(** [int((self.size - B_NAMECOUNT) / DirectoryEntry.SIZE)]: the operands are
    small, the float quotient by 8 is exact and [int] truncates it. *)
Definition entries_count (size B_NAMECOUNT : Z) : Z :=
  Z.quot (size - B_NAMECOUNT) DirectoryEntry.SIZE.

(** The loop [for i in range(entries_count)]: [n] iterations, none when
    [entries_count] is negative. *)
Fixpoint read_entries (disk : bytes) (n : nat) (offset : Z)
  (entries : list DirectoryEntry.t) : result (list DirectoryEntry.t) :=
  match n with
  | O => Ok entries
  | S n' =>
      e <~ DirectoryEntry.__init__ disk offset ;;
      read_entries disk n' (offset + DirectoryEntry.SIZE) (entries ++ [e])
  end.

Definition __init__ (disk : bytes) (offset : Z) : result t :=
  w <~ unpack_from HEADER_SIZE disk offset ;;
  let W_SIZE := field w 0 2 in
  let B_NAMECOUNT := field w 5 1 in
  let offset := offset + HEADER_SIZE in
  let size := W_SIZE + 2 in
  let T_NAME := slice disk offset (offset + B_NAMECOUNT) in
  let offset := offset + B_NAMECOUNT in
  name <~ decode_ascii T_NAME ;;
  let name := if endswith "." name then drop_last name else name in
  let offset := if Z.land offset 1 =? 1 then offset + 1 else offset in
  let entries_count := entries_count size B_NAMECOUNT in
  entries <~ read_entries disk (Z.to_nat entries_count) offset [] ;;
  Ok {| size := size; name := name; entries := entries |}.

End DirectoryRecord.

(** ** class File *)

Module File.

(** One element of [self.map], the dict [{'lbn': .., 'block_count': ..}]. *)
Record extent : Type := mkExtent {
  lbn : Z;
  block_count : Z
}.

(** [name] is [None] while the attribute does not exist: only [read_ident]
    creates it. *)
Record t : Type := mk {
  fid : FileID.t;
  ext_fid : FileID.t;
  is_directory : bool;
  create_time : pytime;
  revision_time : pytime;
  name : option string;
  map : list extent;
  total_block_count : Z;
  size : Z;
  records : list DirectoryRecord.t
}.

Definition set_ident (self : t) (c r : pytime) (n : string) : t :=
  mk (fid self) (ext_fid self) (is_directory self) c r (Some n)
     (map self) (total_block_count self) (size self) (records self).

Definition set_map (self : t) (m : list extent) : t :=
  mk (fid self) (ext_fid self) (is_directory self) (create_time self)
     (revision_time self) (name self) m (total_block_count self)
     (size self) (records self).

Definition set_total_block_count (self : t) (n : Z) : t :=
  mk (fid self) (ext_fid self) (is_directory self) (create_time self)
     (revision_time self) (name self) (map self) n (size self)
     (records self).

Definition set_size (self : t) (n : Z) : t :=
  mk (fid self) (ext_fid self) (is_directory self) (create_time self)
     (revision_time self) (name self) (map self) (total_block_count self)
     n (records self).

Definition set_records (self : t) (rs : list DirectoryRecord.t) : t :=
  mk (fid self) (ext_fid self) (is_directory self) (create_time self)
     (revision_time self) (name self) (map self) (total_block_count self)
     (size self) rs.

Definition read_ident (self : t) (disk : bytes) (offset : Z) : result t :=
  w <~ unpack_from 120 disk offset ;;
  let T_FILENAME := fieldb w 0 20 in
  let Q_CREATE := field w 22 8 in
  let Q_REVDATE := field w 30 8 in
  let T_FILENAMEEXT := fieldb w 54 66 in
  s <~ decode_ascii (T_FILENAME ++ T_FILENAMEEXT) ;;
  let name := strip s in
  let name := rsplit1_head ";" name in
  let name := if endswith "." name then drop_last name else name in
  Ok (set_ident self (VMStoUNIX Q_CREATE) (VMStoUNIX Q_REVDATE) name).

(** The body of the [if V_FORMAT == ..] chain of [read_map]: the new offset,
    [block_count] and [lbn]. *)
Definition read_pointer (disk : bytes) (offset V_FORMAT : Z)
  : M (list output) (Z * Z * Z) :=
  if V_FORMAT =? 0 then
    w <- lift (unpack_from 2 disk offset) ;;
    _ <- print OutFormat0Unsupported ;;
    ret (offset + 2, 0, 0)
  else if V_FORMAT =? 1 then
    w <- lift (unpack_from 4 disk offset) ;;
    let B_COUNT1 := field w 0 1 in
    let V_HIGHLBN := field w 1 1 in
    let W_LOWLBN := field w 2 2 in
    let V_HIGHLBN := Z.land V_HIGHLBN 63 in
    ret (offset + 4, B_COUNT1, Z.lor (Z.shiftl V_HIGHLBN 16) W_LOWLBN)
  else if V_FORMAT =? 2 then
    w <- lift (unpack_from 4 disk offset) ;;
    let V_COUNT2 := field w 0 2 in
    let W_LBN2 := field w 2 2 in
    let V_COUNT2 := Z.land V_COUNT2 16383 in
    ret (offset + 6, V_COUNT2, W_LBN2)
  else if V_FORMAT =? 3 then
    (* 'BBH', native: two bytes and a 16-bit word *)
    w <- lift (unpack_from 4 disk offset) ;;
    let V_COUNT2 := field w 0 1 in
    let W_LOWCOUNT := field w 1 1 in
    let L_LBN3 := field w 2 2 in
    let V_COUNT2 := Z.land V_COUNT2 16383 in
    ret (offset + 8, Z.lor (Z.shiftl V_COUNT2 16) W_LOWCOUNT, L_LBN3)
  else ret (offset, 0, 0).

(** [(disk[offset + 1] & 0xC0) >> 6] *)
Definition V_FORMAT_at (disk : bytes) (offset : Z) : result Z :=
  b <~ getitem disk (offset + 1) ;;
  Ok (Z.shiftr (Z.land (u8 b) 192) 6).

(** One iteration of the [while] loop of [read_map]. *)
Definition read_map_step (self : t) (disk : bytes) (offset : Z)
  : M (list output) (t * Z) :=
  V_FORMAT <- lift (V_FORMAT_at disk offset) ;;
  p <- read_pointer disk offset V_FORMAT ;;
  let '(offset, block_count, lbn) := p in
  let self := set_map self (map self ++ [mkExtent lbn block_count]) in
  let self :=
    set_total_block_count self (total_block_count self + block_count) in
  ret (self, offset).

Fixpoint read_map_loop (fuel : nat) (self : t) (disk : bytes)
  (offset end_offset : Z) : M (list output) t :=
  if offset <? end_offset then
    match fuel with
    | O => lift Stuck
    | S fuel' =>
        r <- read_map_step self disk offset ;;
        read_map_loop fuel' (fst r) disk (snd r) end_offset
    end
  else ret self.

(** Every pointer advances [offset] by at least 2, so [B_MAP_INUSE]
    iterations reach [end_offset]. *)
Definition read_map (self : t) (disk : bytes) (offset B_MAP_INUSE : Z)
  : M (list output) t :=
  let end_offset := offset + B_MAP_INUSE * 2 in
  self <- read_map_loop (Z.to_nat B_MAP_INUSE) self disk offset end_offset ;;
  ret (set_size self (total_block_count self * BLOCK_SIZE)).

(** The [for ptr in self.map] loop of [get_lbn_for_vbn]; falling off the end
    returns [None]. *)
Fixpoint lookup (m : list extent) (vbn base_block_count : Z) : option Z :=
  match m with
  | [] => None
  | ptr :: rest =>
      if in_range vbn base_block_count (base_block_count + block_count ptr)
      then Some (lbn ptr + (vbn - base_block_count))
      else lookup rest vbn (base_block_count + block_count ptr)
  end.

Definition get_lbn_for_vbn (self : t) (vbn : Z) : option Z :=
  let vbn := vbn - 1 in
  lookup (map self) vbn 0.

(** The loop [for i in range(62)] over one directory block. *)
Fixpoint read_block_records (n : nat) (disk : bytes) (offset : Z)
  (records : list DirectoryRecord.t) : result (list DirectoryRecord.t) :=
  match n with
  | O => Ok records
  | S n' =>
      w <~ unpack_from 2 disk offset ;;
      let record_size := to_int16 (field w 0 2) in
      if record_size <? 0 then Ok records
      else
        record <~ DirectoryRecord.__init__ disk offset ;;
        read_block_records n' disk (offset + DirectoryRecord.size record)
          (records ++ [record])
  end.

(** The loop [for vbn in ..] of [read_directory_records]; [None * BLOCK_SIZE]
    is a [TypeError]. *)
Fixpoint read_blocks (self : t) (disk : bytes) (vbns : list Z)
  (records : list DirectoryRecord.t) : result (list DirectoryRecord.t) :=
  match vbns with
  | [] => Ok records
  | vbn :: rest =>
      match get_lbn_for_vbn self vbn with
      | None => Raise TypeError
      | Some lbn =>
          let offset := lbn * BLOCK_SIZE in
          records <~ read_block_records 62 disk offset records ;;
          read_blocks self disk rest records
      end
  end.

(** The VBNs [read_directory_records] iterates over. *)
Definition directory_vbns (self : t) : list Z :=
  range 1 (total_block_count self).

Definition read_directory_records (self : t) (disk : bytes) : result t :=
  records <~ read_blocks self disk (directory_vbns self) (records self) ;;
  Ok (set_records self records).

(** The constructor.  The attributes [map], [total_block_count], [size] and
    [records] get their initial values when the record is built; the source
    assigns them between the calls below, which do not read them earlier. *)
Definition __init__ (disk : bytes) (offset : Z) : M (list output) t :=
  w <- lift (unpack_from 59 disk offset) ;;
  let B_IDOFFSET := field w 0 1 in
  let B_MPOFFSET := field w 1 1 in
  let W_FID := fieldb w 8 6 in
  let W_EXT_FID := fieldb w 14 6 in
  let L_FILECHAR := field w 52 4 in
  let B_MAP_INUSE := field w 58 1 in
  fid <- lift (FileID.__init__ W_FID) ;;
  ext_fid <- lift (FileID.__init__ W_EXT_FID) ;;
  let self :=
    {| fid := fid; ext_fid := ext_fid;
       is_directory := (Z.land L_FILECHAR 8192 =? 8192);
       create_time := TimeInt 0; revision_time := TimeInt 0;
       name := None;
       map := []; total_block_count := 0; size := BLOCK_SIZE;
       records := [] |} in
  self <- (if negb (B_IDOFFSET =? 255)
           then lift (read_ident self disk (offset + B_IDOFFSET * 2))
           else ret self) ;;
  self <- (if negb (B_MPOFFSET =? 255)
           then read_map self disk (offset + B_MPOFFSET * 2) B_MAP_INUSE
           else ret self) ;;
  if is_directory self
  then lift (read_directory_records self disk)
  else ret self.

Definition get_record_by_name (self : t) (name : string)
  : option DirectoryRecord.t :=
  find (fun r => String.eqb (DirectoryRecord.name r) name) (records self).

End File.

(** ** class ODS2 *)

Module ODS2.

(** A reference to a [File] object. *)
Definition loc : Type := nat.

(** The attributes of the volume object.  They hold default values until
    [__init__] and [read_home_block] assign them; the source reads none of
    them before its assignment. *)
Record t : Type := mk {
  disk : bytes;
  mountpoint : string;
  structure_name : string;
  volume_name : string;
  owner_name : string;
  format : string;
  reserved_file_count : Z;
  bitmap_blocks : Z;
  index_file : loc;
  mfd : option loc;
  files : list (option loc)
}.

(** The volume object, the [File] objects and what was printed. *)
Record world : Type := mkWorld {
  self : t;
  heap : list File.t;
  stdout : list output
}.

Definition empty : t := mk [] "" "" "" "" "" 0 0 O None [].

Definition initial : world := mkWorld empty [] [].

Definition set_self (f : t -> t) : M world unit :=
  modify (fun w => mkWorld (f (self w)) (heap w) (stdout w)).

Definition set_disk (s : t) (d : bytes) : t :=
  mk d (mountpoint s) (structure_name s) (volume_name s) (owner_name s)
     (format s) (reserved_file_count s) (bitmap_blocks s) (index_file s)
     (mfd s) (files s).

Definition set_mountpoint (s : t) (m : string) : t :=
  mk (disk s) m (structure_name s) (volume_name s) (owner_name s)
     (format s) (reserved_file_count s) (bitmap_blocks s) (index_file s)
     (mfd s) (files s).

Definition set_structure_name (s : t) (n : string) : t :=
  mk (disk s) (mountpoint s) n (volume_name s) (owner_name s) (format s)
     (reserved_file_count s) (bitmap_blocks s) (index_file s) (mfd s)
     (files s).

Definition set_volume_name (s : t) (n : string) : t :=
  mk (disk s) (mountpoint s) (structure_name s) n (owner_name s) (format s)
     (reserved_file_count s) (bitmap_blocks s) (index_file s) (mfd s)
     (files s).

Definition set_owner_name (s : t) (n : string) : t :=
  mk (disk s) (mountpoint s) (structure_name s) (volume_name s) n (format s)
     (reserved_file_count s) (bitmap_blocks s) (index_file s) (mfd s)
     (files s).

Definition set_format (s : t) (n : string) : t :=
  mk (disk s) (mountpoint s) (structure_name s) (volume_name s)
     (owner_name s) n (reserved_file_count s) (bitmap_blocks s)
     (index_file s) (mfd s) (files s).

Definition set_reserved_file_count (s : t) (r : Z) : t :=
  mk (disk s) (mountpoint s) (structure_name s) (volume_name s)
     (owner_name s) (format s) r (bitmap_blocks s) (index_file s) (mfd s)
     (files s).

Definition set_bitmap_blocks (s : t) (b : Z) : t :=
  mk (disk s) (mountpoint s) (structure_name s) (volume_name s)
     (owner_name s) (format s) (reserved_file_count s) b (index_file s)
     (mfd s) (files s).

Definition set_index_file (s : t) (l : loc) : t :=
  mk (disk s) (mountpoint s) (structure_name s) (volume_name s)
     (owner_name s) (format s) (reserved_file_count s) (bitmap_blocks s)
     l (mfd s) (files s).

Definition set_mfd (s : t) (m : option loc) : t :=
  mk (disk s) (mountpoint s) (structure_name s) (volume_name s)
     (owner_name s) (format s) (reserved_file_count s) (bitmap_blocks s)
     (index_file s) m (files s).

Definition set_files (s : t) (fs : list (option loc)) : t :=
  mk (disk s) (mountpoint s) (structure_name s) (volume_name s)
     (owner_name s) (format s) (reserved_file_count s) (bitmap_blocks s)
     (index_file s) (mfd s) fs.

(** [print(..)] *)
Definition say (o : output) : M world unit :=
  zoom stdout (fun out w => mkWorld (self w) (heap w) out) (print o).

(** Reading through a reference. *)
Definition deref (l : loc) : M world File.t :=
  fun w =>
    match nth_error (heap w) l with
    | Some f => (Ok f, w)
    | None => (Stuck, w)
    end.

(** Mutating the object behind a reference. *)
Definition update (l : loc) (f : File.t -> File.t) : M world unit :=
  fun w =>
    match nth_error (heap w) l with
    | Some o => (Ok tt, mkWorld (self w) (list_set (heap w) l (f o)) (stdout w))
    | None => (Stuck, w)
    end.

(** [File(disk, offset)]: decode, then store a new object. *)
Definition new_File (disk : bytes) (offset : Z) : M world loc :=
  f <- zoom stdout (fun out w => mkWorld (self w) (heap w) out)
         (File.__init__ disk offset) ;;
  fun w =>
    (Ok (List.length (heap w)), mkWorld (self w) (heap w ++ [f]) (stdout w)).

(** The loop [for vbn in range(1, self.index_file.total_block_count)] of
    [read_home_block]; the result is [count]. *)
Fixpoint scan (vbns : list Z) (count : Z) : M world Z :=
  match vbns with
  | [] => ret count
  | vbn :: rest =>
      s <- gets self ;;
      index_file <- deref (index_file s) ;;
      match File.get_lbn_for_vbn index_file (bitmap_blocks s + vbn) with
      | None => lift (Raise TypeError)
      | Some lbn =>
          let offset := lbn * BLOCK_SIZE in
          b <- lift (getitem (disk s) offset) ;;
          if u8 b =? 0 then ret count
          else
            file <- new_File (disk s) offset ;;
            o <- deref file ;;
            match File.name o with
            | None => lift (Raise AttributeError)
            | Some name =>
                _ <- (if String.eqb name "000000.DIR"
                      then set_self (fun s => set_mfd s (Some file))
                      else ret tt) ;;
                let index := FileID.file_number (File.fid o) - 1 in
                stored <- new_File (disk s) offset ;;
                fs <- gets (fun w => files (self w)) ;;
                fs <- lift (setitem fs index (Some stored)) ;;
                _ <- set_self (fun s => set_files s fs) ;;
                scan rest (count + 1)
            end
      end
  end.

(** [self.index_file.map[:3]] and [[3:]]: the first three extents are
    subtracted from [total_block_count] and dropped. *)
Definition skip_clusters (f : File.t) : File.t :=
  let total :=
    fold_left (fun n m => n - File.block_count m)
      (slice (File.map f) 0 3) (File.total_block_count f) in
  File.set_map (File.set_total_block_count f total)
    (slice (File.map f) 3 (len (File.map f))).

Definition read_home_block : M world unit :=
  disk <- gets (fun w => disk (self w)) ;;
  w <- lift (unpack_from 512 disk BLOCK_SIZE) ;;
  let L_IBMAPLBN := field w 24 4 in
  let W_IBMAPSIZE := field w 32 2 in
  let W_RESFILES := field w 34 2 in
  let T_STRUCNAME := fieldb w 460 12 in
  let T_VOLNAME := fieldb w 472 12 in
  let T_OWNERNAME := fieldb w 484 12 in
  let T_FORMAT := fieldb w 496 12 in
  structure_name <- lift (decode_ascii T_STRUCNAME) ;;
  _ <- set_self (fun s => set_structure_name s structure_name) ;;
  volume_name <- lift (decode_ascii T_VOLNAME) ;;
  _ <- set_self (fun s => set_volume_name s volume_name) ;;
  owner_name <- lift (decode_ascii T_OWNERNAME) ;;
  _ <- set_self (fun s => set_owner_name s owner_name) ;;
  format <- lift (decode_ascii T_FORMAT) ;;
  _ <- set_self (fun s => set_format s format) ;;
  _ <- set_self (fun s => set_reserved_file_count s W_RESFILES) ;;
  _ <- set_self (fun s => set_bitmap_blocks s W_IBMAPSIZE) ;;
  _ <- say (OutStructureName structure_name) ;;
  _ <- say (OutVolumeName volume_name) ;;
  _ <- say (OutOwnerName owner_name) ;;
  _ <- say (OutFormat format) ;;
  let index_offset := (L_IBMAPLBN + W_IBMAPSIZE) * BLOCK_SIZE in
  l <- new_File disk index_offset ;;
  _ <- set_self (fun s => set_index_file s l) ;;
  _ <- update l skip_clusters ;;
  index_file <- deref l ;;
  let total := File.total_block_count index_file in
  _ <- set_self (fun s => set_mfd s None) ;;
  _ <- set_self (fun s => set_files s (repeat None (Z.to_nat total))) ;;
  count <- scan (range 1 total) 0 ;;
  _ <- say (OutReadFiles count) ;;
  m <- gets (fun w => mfd (self w)) ;;
  match m with
  | None => lift (Raise AttributeError)
  | Some l => update l (fun f => File.set_size f 666)
  end.

(** [__init__]: the image file's contents are given as [image]. *)
Definition __init__ (image : bytes) (mountpoint : string) : M world unit :=
  _ <- set_self (fun s => set_disk s image) ;;
  _ <- set_self (fun s => set_mountpoint s mountpoint) ;;
  _ <- say (OutDiskBlocks (Z.quot (len image) BLOCK_SIZE)) ;;
  read_home_block.

(** The loop [for p in parts] of [get_file_by_path].  A method call or an
    attribute access on [None] is an [AttributeError]. *)
Fixpoint walk (parts : list string) (file : option loc)
  : M world (option loc) :=
  match parts with
  | [] => ret file
  | p :: rest =>
      match file with
      | None => lift (Raise AttributeError)
      | Some l =>
          f <- deref l ;;
          match File.get_record_by_name f p with
          | None => lift (Raise AttributeError)
          | Some rec =>
              e <- lift (getitem (DirectoryRecord.entries rec) 0) ;;
              let index :=
                FileID.file_number (DirectoryEntry.fid e) - 1 in
              fs <- gets (fun w => files (self w)) ;;
              file <- lift (getitem fs index) ;;
              walk rest file
          end
      end
  end.

(** The components [get_file_by_path] walks through. *)
Definition path_parts (path : string) : list string :=
  let path := if startswith "/" path then drop_first path else path in
  let path := if endswith "/" path then drop_last path else path in
  if 0 <? Z.of_nat (String.length path) then split "/" path else [].

Definition get_file_by_path (path : string) : M world (option loc) :=
  m <- gets (fun w => mfd (self w)) ;;
  walk (path_parts path) m.

Definition S_IFREG : Z := 32768.
Definition S_IFDIR : Z := 16384.

(** The dict [getattr] returns. *)
Record stat : Type := mkStat {
  st_size : Z;
  st_ctime : pytime;
  st_atime : pytime;
  st_mtime : pytime;
  st_mode : Z;
  st_nlink : Z;
  st_uid : Z;
  st_gid : Z
}.

(** [getattr(path, fh)]; [disk_st] is the outcome of
    [os.lstat(sys.argv[1])] as [(st_uid, st_gid)], [fh] is unused. *)
Definition getattr (disk_st : result (Z * Z)) (path : string)
  : M world stat :=
  disk_st <- lift disk_st ;;
  file <- get_file_by_path path ;;
  match file with
  | None => lift (Raise AttributeError)
  | Some l =>
      f <- deref l ;;
      ret {| st_size := File.size f;
             st_ctime := File.create_time f;
             st_atime := File.revision_time f;
             st_mtime := File.revision_time f;
             st_mode := if File.is_directory f
                        then Z.lor S_IFDIR 365
                        else Z.lor S_IFREG 292;
             st_nlink := 0;
             st_uid := fst disk_st;
             st_gid := snd disk_st |}
  end.

(** The loop [for r in file.records] of [readdir]. *)
Fixpoint collect (reserved_file_count : Z) (rs : list DirectoryRecord.t)
  (dirents : list string) : result (list string) :=
  match rs with
  | [] => Ok dirents
  | r :: rest =>
      e <~ getitem (DirectoryRecord.entries r) 0 ;;
      let file_number := FileID.file_number (DirectoryEntry.fid e) in
      if file_number <=? reserved_file_count
      then collect reserved_file_count rest dirents
      else collect reserved_file_count rest
             (dirents ++ [DirectoryRecord.name r])
  end.

(** [readdir(path, fh)]: the names the generator yields.  The whole list is
    built before the first [yield], so an exception comes before any name. *)
Definition readdir (path : string) : M world (list string) :=
  let dirents := ["."; ".."]%string in
  file <- get_file_by_path path ;;
  match file with
  | None => lift (Raise AttributeError)
  | Some l =>
      f <- deref l ;;
      s <- gets self ;;
      lift (collect (reserved_file_count s) (File.records f) dirents)
  end.

Definition readlink (path : string) : M world string :=
  if String.eqb path "/000000.DIR"
  then gets (fun w => mountpoint (self w))
  else ret ""%string.

(** The [while offset < end_offset] loop of [read].  [int(offset /
    BLOCK_SIZE)] truncates a float quotient, exact for the aligned offsets
    below 2^62 that reach the loop. *)
Fixpoint read_loop (fuel : nat) (disk : bytes) (file : File.t)
  (end_offset : Z) (data : bytes) (data_offset offset : Z) : result bytes :=
  if offset <? end_offset then
    match fuel with
    | O => Stuck
    | S fuel' =>
        let vbn := Z.quot offset BLOCK_SIZE + 1 in
        match File.get_lbn_for_vbn file vbn with
        | None => Raise TypeError
        | Some lbn =>
            let disk_offset := lbn * BLOCK_SIZE in
            let data :=
              setslice data data_offset (data_offset + BLOCK_SIZE)
                (slice disk disk_offset (disk_offset + BLOCK_SIZE)) in
            read_loop fuel' disk file end_offset data
              (data_offset + BLOCK_SIZE) (offset + BLOCK_SIZE)
        end
    end
  else Ok data.

(** Iterations that bring [offset] up to [end_offset]. *)
Definition read_fuel (offset end_offset : Z) : nat :=
  Z.to_nat ((end_offset - offset + (BLOCK_SIZE - 1)) / BLOCK_SIZE).

(** [read(path, length, offset, fh)]; [fh] is unused. *)
Definition read (path : string) (length offset : Z) : M world bytes :=
  if negb (offset mod BLOCK_SIZE =? 0) then
    _ <- say OutUnalignedOffset ;;
    ret []
  else
    file <- get_file_by_path path ;;
    match file with
    | None => ret []
    | Some l =>
        f <- deref l ;;
        disk <- gets (fun w => disk (self w)) ;;
        let end_offset := offset + length in
        let end_offset :=
          if File.size f <? end_offset then File.size f else end_offset in
        lift (read_loop (read_fuel offset end_offset) disk f end_offset
                [] 0 offset)
    end.

End ODS2.

(** * Vocabulary of the properties *)

Definition sum_counts (m : list File.extent) : Z :=
  fold_right (fun e n => File.block_count e + n) 0 m.

(** The accumulated base of the extent at position [i]. *)
Definition base_of (m : list File.extent) (i : nat) : Z :=
  sum_counts (firstn i m).

(** The 0-based block [v] lies in the extent at position [i]. *)
Definition in_extent (m : list File.extent) (i : nat) (e : File.extent)
  (v : Z) : Prop :=
  nth_error m i = Some e /\
  base_of m i <= v < base_of m i + File.block_count e.

(** A map as the decoder leaves it. *)
Definition well_formed (f : File.t) : Prop :=
  Forall (fun e => 0 <= File.block_count e) (File.map f) /\
  File.total_block_count f = sum_counts (File.map f).

(** The format-3 pointer as the specification lays it out, [u16
    W_COUNT2_AND_FMT, u16 W_LOWCOUNT, u32 L_LBN3]: its [block_count] and
    [lbn]. *)
Definition spec_format3 (disk : bytes) (offset : nat) : Z * Z :=
  let w := fieldb disk offset 8 in
  let W_COUNT2 := field w 0 2 in
  let W_LOWCOUNT := field w 2 2 in
  let L_LBN3 := field w 4 4 in
  (Z.lor (Z.shiftl (Z.land W_COUNT2 16383) 16) W_LOWCOUNT, L_LBN3).

(** The number of entries the specification gives a record. *)
Definition spec_entries_count (W_SIZE B_NAMECOUNT : Z) : Z :=
  (W_SIZE + 2 - DirectoryRecord.HEADER_SIZE - B_NAMECOUNT) / 8.

(** The file number of a record's first entry. *)
Definition first_file_number (r : DirectoryRecord.t) : option Z :=
  match DirectoryRecord.entries r with
  | e :: _ => Some (FileID.file_number (DirectoryEntry.fid e))
  | [] => None
  end.

(** The records [readdir] lists: first file number above the reserved
    ones. *)
Definition listed (reserved_file_count : Z) (r : DirectoryRecord.t) : bool :=
  match first_file_number r with
  | Some n => reserved_file_count <? n
  | None => false
  end.

(** The offset of a record's first entry: past the header and the name,
    rounded up to an even offset. *)
Definition entries_offset (offset B_NAMECOUNT : Z) : Z :=
  let o := offset + DirectoryRecord.HEADER_SIZE + B_NAMECOUNT in
  if Z.land o 1 =? 1 then o + 1 else o.

(** VBN [v] of [f] is mapped to a block that lies wholly in the image. *)
Definition block_in_image (disk : bytes) (f : File.t) (v : Z) : Prop :=
  exists lbn,
    File.get_lbn_for_vbn f v = Some lbn /\
    0 <= lbn /\ (lbn + 1) * BLOCK_SIZE <= len disk.

(** Every populated slot [i] of the file table refers to a header object
    that is not the MFD object, whose size is a whole number of blocks and
    whose file number minus 1 denotes slot [i]. *)
Definition table_ok (w : ODS2.world) : Prop :=
  forall i l,
    nth_error (ODS2.files (ODS2.self w)) i = Some (Some l) ->
    ODS2.mfd (ODS2.self w) <> Some l /\
    exists f,
      nth_error (ODS2.heap w) l = Some f /\
      File.size f mod BLOCK_SIZE = 0 /\
      position (ODS2.files (ODS2.self w))
        (FileID.file_number (File.fid f) - 1) = Some i.

(** The MFD reference, once set, refers to a header named [000000.DIR]
    whose file number minus 1 denotes a populated slot. *)
Definition mfd_ok (w : ODS2.world) : Prop :=
  forall m,
    ODS2.mfd (ODS2.self w) = Some m ->
    exists fm,
      nth_error (ODS2.heap w) m = Some fm /\
      File.name fm = Some "000000.DIR"%string /\
      exists p l,
        position (ODS2.files (ODS2.self w))
          (FileID.file_number (File.fid fm) - 1) = Some p /\
        nth_error (ODS2.files (ODS2.self w)) p = Some (Some l).

(** The volume state: the volume object and every [File] object. *)
Definition volume (w : ODS2.world) : ODS2.t * list File.t :=
  (ODS2.self w, ODS2.heap w).

(** A call of the adaptor. *)
Inductive op : Type :=
| Getattr (disk_st : result (Z * Z)) (path : string)
| Readdir (path : string)
| Readlink (path : string)
| Read (path : string) (length offset : Z).

(** The world a call leaves behind, whether it returns or raises. *)
Definition run_op (o : op) (w : ODS2.world) : ODS2.world :=
  match o with
  | Getattr disk_st path => snd (ODS2.getattr disk_st path w)
  | Readdir path => snd (ODS2.readdir path w)
  | Readlink path => snd (ODS2.readlink path w)
  | Read path length offset => snd (ODS2.read path length offset w)
  end.

Definition run_ops (ops : list op) (w : ODS2.world) : ODS2.world :=
  fold_left (fun w o => run_op o w) ops w.

(** The [File] objects the program holds: a decoded header, the index file
    once its first three extents are dropped, and the MFD once its size is
    overwritten. *)
Inductive decoded : File.t -> Prop :=
| decoded_init disk offset out f out' :
    File.__init__ disk offset out = (Ok f, out') -> decoded f
| decoded_skip f : decoded f -> decoded (ODS2.skip_clusters f)
| decoded_size f n : decoded f -> decoded (File.set_size f n).

(** ** Example images *)

Module Example.

Definition byte_of (n : Z) : byte :=
  match Byte.of_N (Z.to_N (n mod 256)) with
  | Some b => b
  | None => x00
  end.

Definition zeros (n : nat) : bytes := repeat x00 n.

Definition le16 (n : Z) : bytes := [byte_of n; byte_of (n / 256)].

Definition le32 (n : Z) : bytes := le16 n ++ le16 (n / 65536).

Definition text (s : string) : bytes := List.map byte_of_ascii (chars s).

(** Pad or cut to [n] bytes. *)
Definition fit (n : nat) (fill : byte) (bs : bytes) : bytes :=
  firstn n (bs ++ repeat fill n).

Definition fid_bytes (num : Z) : bytes :=
  le16 num ++ le16 1 ++ [x00; byte_of (num / 65536)].

(** A format-1 retrieval pointer. *)
Definition pointer1 (count lbn : Z) : bytes :=
  [byte_of count; byte_of (64 + lbn / 65536)] ++ le16 lbn.

(** A header block: prefix, identification area at byte 60, map area at
    byte 180. *)
Definition header (num filechar : Z) (name : string) (pointers : bytes)
  : bytes :=
  fit 512 x00
    ([byte_of 30; byte_of 90; x00; x00] ++ le16 0 ++ le16 2 ++
     fid_bytes num ++ fid_bytes 0 ++ zeros 32 ++ le32 filechar ++
     [x00; x00] ++ [byte_of (len pointers / 2)] ++ [x00] ++
     fit 20 " " (text name) ++ zeros 34 ++ fit 66 " " [] ++
     pointers).

(** A header without identification and map areas. *)
Definition bare_header (num : Z) : bytes :=
  fit 512 x00
    ([xff; xff; x00; x00] ++ le16 0 ++ le16 2 ++
     fid_bytes num ++ fid_bytes 0).

(** A directory record with one entry. *)
Definition dir_record (name : string) (num : Z) : bytes :=
  let n := text name in
  let pad := if Nat.odd (List.length n) then [x00] else [] in
  let body :=
    le16 0 ++ [x00; byte_of (len n)] ++ n ++ pad ++ le16 1 ++ fid_bytes num in
  le16 (len body) ++ body.

Definition home_block (ibmaplbn ibmapsize resfiles : Z) : bytes :=
  fit 512 x00
    (zeros 24 ++ le32 ibmaplbn ++ le32 0 ++ le16 ibmapsize ++ le16 resfiles).

(** The header of a plain file with the map
    [[(lbn=100, count=3), (lbn=200, count=2)]]. *)
Definition two_extents : bytes :=
  header 7 0 "DATA.BIN;1" (pointer1 3 100 ++ pointer1 2 200).

Definition two_extents_file : File.t :=
  {| File.fid := FileID.mk 7 1 0;
     File.ext_fid := FileID.mk 0 1 0;
     File.is_directory := false;
     File.create_time := VMStoUNIX 0;
     File.revision_time := VMStoUNIX 0;
     File.name := Some "DATA.BIN"%string;
     File.map := [File.mkExtent 100 3; File.mkExtent 200 2];
     File.total_block_count := 5;
     File.size := 2560;
     File.records := [] |}.

(** A header with an identification area and no map area. *)
Definition mapless_header (num : Z) (name : string) : bytes :=
  fit 512 x00
    ([byte_of 30; xff; x00; x00] ++ le16 0 ++ le16 2 ++
     fid_bytes num ++ fid_bytes 0 ++ zeros 32 ++ le32 0 ++
     [x00; x00] ++ [x00] ++ [x00] ++
     fit 20 " " (text name) ++ zeros 34 ++ fit 66 " " []).

(** A volume of nine blocks: boot block, home block, bitmap, the index file
    header, the headers of [000000.DIR] (file 1), [FOO.TXT] (file 2) and
    [EMPTY.DAT] (file 3, no map area), the directory's block and the block
    of [FOO.TXT]. *)
Definition image : bytes :=
  zeros 512 ++
  home_block 2 1 1 ++
  zeros 512 ++
  header 9 0 "INDEXF.SYS;1"
    (pointer1 1 0 ++ pointer1 1 1 ++ pointer1 1 2 ++ pointer1 4 3) ++
  header 1 8192 "000000.DIR;1" (pointer1 2 7) ++
  header 2 0 "FOO.TXT;1" (pointer1 1 8) ++
  mapless_header 3 "EMPTY.DAT;1" ++
  fit 512 x00
    (dir_record "000000.DIR" 1 ++ dir_record "FOO.TXT" 2 ++
     dir_record "EMPTY.DAT" 3 ++ [xff; xff]) ++
  fit 512 "A" [].

(** A directory of one block: its header, then the block with one record. *)
Definition one_block_directory : bytes :=
  header 5 8192 "ONE.DIR;1" (pointer1 1 1) ++
  fit 512 x00 (dir_record "A.TXT" 6 ++ [xff; xff]).

(** The record of [FOO.TXT]: [W_SIZE = 20], a name of 7 bytes, a pad byte
    and one entry. *)
Definition foo_record : bytes := dir_record "FOO.TXT" 2.

(** A format-3 retrieval pointer: [W_COUNT2_AND_FMT = 0xC001],
    [W_LOWCOUNT = 0x0202], [L_LBN3 = 3]. *)
Definition pointer3 : bytes := [x01; xc0; x02; x02; x03; x00; x00; x00].

(** A record with [W_SIZE = 14] and [B_NAMECOUNT = 0], followed by sixteen
    more bytes. *)
Definition slack_record : bytes :=
  le16 14 ++ le16 0 ++ [x00; x00] ++ le16 1 ++ fid_bytes 6 ++
  le16 1 ++ fid_bytes 7.

(** The outcome of mounting the volume and the world it leaves. *)
Abbreviation mounted := (ODS2.__init__ image "/mnt" ODS2.initial).

End Example.

(** * Properties *)

(** ** Monad inversion *)

Lemma rbind_Ok {A B : Type} (c : result A) (k : A -> result B) (b : B) :
  rbind c k = Ok b -> exists a, c = Ok a /\ k a = Ok b.
Proof.
  destruct c as [a | e |]; simpl; intros H; try discriminate.
  exists a; split; [reflexivity | exact H].
Qed.

Lemma bind_Ok {S A B : Type} (c : M S A) (k : A -> M S B) s b s' :
  bind c k s = (Ok b, s') ->
  exists a s0, c s = (Ok a, s0) /\ k a s0 = (Ok b, s').
Proof.
  unfold bind. destruct (c s) as [[a | e |] s0]; intros H; try discriminate.
  exists a, s0; split; [reflexivity | exact H].
Qed.

Lemma lift_Ok {S A : Type} (r : result A) (s s' : S) a :
  lift r s = (Ok a, s') -> r = Ok a /\ s' = s.
Proof. unfold lift; intros H; inversion H; subst; auto. Qed.

Lemma ret_Ok {S A : Type} (a b : A) (s s' : S) :
  ret a s = (Ok b, s') -> b = a /\ s' = s.
Proof. unfold ret; intros H; inversion H; subst; auto. Qed.

(** Break a successful run into the successful runs of its parts. *)
Ltac inv_ok :=
  repeat match goal with
  | H : bind _ _ _ = (Ok _, _) |- _ =>
      let a := fresh "a" in let s := fresh "s" in
      let H1 := fresh "Hrun" in let H2 := fresh "Hk" in
      apply bind_Ok in H; destruct H as (a & s & H1 & H2)
  | H : rbind _ _ = Ok _ |- _ =>
      let a := fresh "a" in
      let H1 := fresh "Hrun" in let H2 := fresh "Hk" in
      apply rbind_Ok in H; destruct H as (a & H1 & H2)
  | H : lift _ _ = (Ok _, _) |- _ =>
      apply lift_Ok in H; destruct H; subst
  | H : ret _ _ = (Ok _, _) |- _ =>
      apply ret_Ok in H; destruct H; subst
  | H : (_, _) = (_, _) |- _ => injection H; clear H; intros; subst
  | H : Ok _ = Ok _ |- _ => injection H; clear H; intros; subst
  end.

(** ** Bytes and fields *)

Lemma u8_range (b : byte) : 0 <= u8 b < 256.
Proof.
  unfold u8. pose proof (Byte.to_N_bounded b). lia.
Qed.

Lemma le_uint_nonneg (bs : bytes) : 0 <= le_uint bs.
Proof.
  induction bs as [| b t IH]; cbn [le_uint]; [lia |].
  pose proof (u8_range b). lia.
Qed.

Lemma le_uint_bound (bs : bytes) : le_uint bs < 256 ^ len bs.
Proof.
  unfold len. induction bs as [| b t IH]; [simpl; lia |].
  cbn [le_uint List.length]. rewrite Nat2Z.inj_succ, Z.pow_succ_r by lia.
  pose proof (u8_range b). lia.
Qed.

Lemma field_nonneg (w : bytes) (pos n : nat) : 0 <= field w pos n.
Proof. apply le_uint_nonneg. Qed.

Lemma field_bound (w : bytes) (pos n : nat) :
  field w pos n < 256 ^ Z.of_nat n.
Proof.
  unfold field, fieldb.
  eapply Z.lt_le_trans; [apply le_uint_bound |].
  apply Z.pow_le_mono_r; [lia |]. unfold len.
  rewrite length_firstn. lia.
Qed.

(** ** The extent map *)

Lemma sum_counts_app (a b : list File.extent) :
  sum_counts (a ++ b) = sum_counts a + sum_counts b.
Proof. induction a as [| e a IH]; simpl; lia. Qed.

Lemma sum_counts_nonneg (m : list File.extent) :
  Forall (fun e => 0 <= File.block_count e) m -> 0 <= sum_counts m.
Proof. induction 1; simpl; lia. Qed.

Lemma lookup_inside (m : list File.extent) :
  Forall (fun e => 0 <= File.block_count e) m ->
  forall v base,
    base <= v < base + sum_counts m ->
    exists i e,
      nth_error m i = Some e /\
      base + base_of m i <= v < base + base_of m i + File.block_count e /\
      File.lookup m v base =
        Some (File.lbn e + (v - (base + base_of m i))).
Proof.
  induction 1 as [| e m He Hm IH]; intros v base Hv; simpl in *; [lia |].
  unfold in_range.
  destruct (Z.leb_spec base v); [| lia].
  destruct (Z.ltb_spec v (base + File.block_count e)); simpl.
  - exists O, e. unfold base_of; simpl.
    repeat split; try lia. do 2 f_equal. lia.
  - destruct (IH v (base + File.block_count e)) as (i & e' & Hn & Hr & Hl);
      [lia |].
    exists (S i), e'. unfold base_of in *; simpl.
    repeat split; try lia; auto. rewrite Hl. do 2 f_equal. lia.
Qed.

Lemma lookup_outside (m : list File.extent) :
  forall v base,
    (forall i e, nth_error m i = Some e ->
       ~ (base + base_of m i <= v
            < base + base_of m i + File.block_count e)) ->
    File.lookup m v base = None.
Proof.
  induction m as [| e m IH]; intros v base Hout; simpl; [reflexivity |].
  unfold in_range.
  pose proof (Hout O e eq_refl) as H0. unfold base_of in H0; simpl in H0.
  destruct (Z.leb_spec base v); destruct (Z.ltb_spec v (base + File.block_count e));
    simpl; try lia.
  - apply IH. intros i e' Hn Hr.
    apply (Hout (S i) e' Hn). unfold base_of in *; simpl. lia.
  - apply IH. intros i e' Hn Hr.
    apply (Hout (S i) e' Hn). unfold base_of in *; simpl. lia.
  - apply IH. intros i e' Hn Hr.
    apply (Hout (S i) e' Hn). unfold base_of in *; simpl. lia.
Qed.

Lemma base_of_range (m : list File.extent) (i : nat) (e : File.extent) :
  Forall (fun e => 0 <= File.block_count e) m ->
  nth_error m i = Some e ->
  0 <= base_of m i /\ base_of m i + File.block_count e <= sum_counts m.
Proof.
  intros Hm. revert i. induction Hm as [| x m Hx Hm IH]; intros i Hn.
  - destruct i; discriminate.
  - destruct i as [| i]; unfold base_of in *; simpl in *.
    + inversion Hn; subst. pose proof (sum_counts_nonneg m Hm). lia.
    + destruct (IH i Hn). lia.
Qed.

(** ** What the map decoder establishes *)

Lemma V_FORMAT_at_range (disk : bytes) (offset V : Z) :
  File.V_FORMAT_at disk offset = Ok V -> 0 <= V <= 3.
Proof.
  unfold File.V_FORMAT_at. intros H. inv_ok.
  destruct a; vm_compute; split; discriminate.
Qed.

Lemma unpack_from_not_stuck (size : Z) (buf : bytes) (offset : Z) :
  unpack_from size buf offset <> Stuck.
Proof.
  unfold unpack_from.
  repeat match goal with |- context [if ?c then _ else _] => destruct c end;
    discriminate.
Qed.

Lemma getitem_not_stuck {A : Type} (l : list A) (i : Z) :
  getitem l i <> Stuck.
Proof.
  unfold getitem.
  destruct (position l i) as [p |]; [| discriminate].
  destruct (nth_error l p); discriminate.
Qed.

Local Opaque Z.shiftl Z.shiftr Z.land Z.lor.

Lemma read_pointer_ok disk offset V out o' c l out' :
  File.read_pointer disk offset V out = (Ok (o', c, l), out') ->
  0 <= c /\ (0 <= V <= 3 -> offset + 2 <= o').
Proof.
  unfold File.read_pointer.
  destruct (Z.eqb_spec V 0); [| destruct (Z.eqb_spec V 1);
    [| destruct (Z.eqb_spec V 2); [| destruct (Z.eqb_spec V 3)]]];
    intros H; inv_ok.
  - split; lia.
  - split; [apply field_nonneg | lia].
  - split; [apply Z.land_nonneg; lia | lia].
  - split; [| lia].
    apply Z.lor_nonneg. split; [| apply field_nonneg].
    apply Z.shiftl_nonneg. apply Z.land_nonneg. lia.
  - split; lia.
Qed.

Lemma read_pointer_not_stuck disk offset V out :
  fst (File.read_pointer disk offset V out) <> Stuck.
Proof.
  unfold File.read_pointer.
  repeat match goal with |- context [if ?c then _ else _] => destruct c end;
    unfold bind, lift, ret, print; simpl;
    try (pose proof (unpack_from_not_stuck 2 disk offset);
         destruct (unpack_from 2 disk offset); simpl; congruence);
    try (pose proof (unpack_from_not_stuck 4 disk offset);
         destruct (unpack_from 4 disk offset); simpl; congruence);
    discriminate.
Qed.

Lemma read_map_step_ok self disk offset out self' o' out' :
  File.read_map_step self disk offset out = (Ok (self', o'), out') ->
  offset + 2 <= o' /\ (well_formed self -> well_formed self').
Proof.
  unfold File.read_map_step. intros H. inv_ok.
  destruct a0 as [[o c] l]. inv_ok.
  apply V_FORMAT_at_range in H.
  apply read_pointer_ok in Hrun0. destruct Hrun0 as [Hc Ho].
  split; [auto |]. intros [Hm Ht]. split; simpl.
  - apply Forall_app; split; [exact Hm |]. constructor; [exact Hc | constructor].
  - rewrite sum_counts_app, Ht. simpl. lia.
Qed.

Lemma read_map_step_not_stuck self disk offset out :
  fst (File.read_map_step self disk offset out) <> Stuck.
Proof.
  unfold File.read_map_step, bind, lift.
  unfold File.V_FORMAT_at.
  pose proof (getitem_not_stuck disk (offset + 1)).
  destruct (getitem disk (offset + 1)); simpl; try congruence.
  match goal with |- context [File.read_pointer ?d ?o ?v ?s] =>
    pose proof (read_pointer_not_stuck d o v s);
    destruct (File.read_pointer d o v s) as [[[[o' c] l] | e |] out']
  end; simpl in *; congruence.
Qed.

Lemma read_map_loop_ok fuel : forall self disk offset end_offset out f out',
  File.read_map_loop fuel self disk offset end_offset out = (Ok f, out') ->
  well_formed self -> well_formed f.
Proof.
  induction fuel as [| fuel IH]; intros self disk offset end_offset out f out';
    simpl; destruct (offset <? end_offset); intros H Hwf;
    try (apply ret_Ok in H; destruct H; subst; exact Hwf).
  - discriminate.
  - inv_ok. destruct a as [self' o']; simpl in *.
    apply read_map_step_ok in Hrun. destruct Hrun as [_ Hstep].
    eapply IH; eauto.
Qed.

(** Enough fuel: the loop of [read_map] always comes to an end. *)
Lemma read_map_loop_not_stuck fuel : forall self disk offset end_offset out,
  end_offset - offset <= 2 * Z.of_nat fuel ->
  fst (File.read_map_loop fuel self disk offset end_offset out) <> Stuck.
Proof.
  induction fuel as [| fuel IH]; intros self disk offset end_offset out Hf;
    cbn [File.read_map_loop]; destruct (Z.ltb_spec offset end_offset);
    try (unfold ret; cbn [fst]; discriminate); [lia |].
  unfold bind.
  pose proof (read_map_step_not_stuck self disk offset out) as Hs.
  destruct (File.read_map_step self disk offset out) as [[[self' o'] | e |] out']
    eqn:E; cbn [fst snd] in *; try congruence.
  apply read_map_step_ok in E. destruct E as [Ho _].
  apply IH. lia.
Qed.

Lemma read_map_not_stuck self disk offset B out :
  fst (File.read_map self disk offset B out) <> Stuck.
Proof.
  unfold File.read_map, bind.
  pose proof (read_map_loop_not_stuck (Z.to_nat B) self disk offset
                (offset + B * 2) out) as H.
  destruct (File.read_map_loop (Z.to_nat B) self disk offset
              (offset + B * 2) out) as [[f | e |] out'];
    cbn [fst] in *; try discriminate.
  apply H. lia.
Qed.

Lemma read_map_ok self disk offset B out f out' :
  File.read_map self disk offset B out = (Ok f, out') ->
  well_formed self ->
  well_formed f /\
  File.size f = File.total_block_count f * BLOCK_SIZE.
Proof.
  unfold File.read_map. intros H Hwf. inv_ok.
  apply read_map_loop_ok in Hrun; [| exact Hwf].
  split; [exact Hrun | reflexivity].
Qed.

Lemma read_ident_map self disk offset f :
  File.read_ident self disk offset = Ok f ->
  File.map f = File.map self /\
  File.total_block_count f = File.total_block_count self /\
  File.size f = File.size self /\
  File.records f = File.records self.
Proof.
  unfold File.read_ident. intros H. inv_ok.
  simpl. auto.
Qed.

Lemma read_directory_records_map self disk f :
  File.read_directory_records self disk = Ok f ->
  File.map f = File.map self /\
  File.total_block_count f = File.total_block_count self /\
  File.size f = File.size self.
Proof.
  unfold File.read_directory_records. intros H. inv_ok.
  simpl. auto.
Qed.

(** A decoded header has a well-formed map, and its size is a whole number
    of blocks. *)
Lemma init_well_formed disk offset out f out' :
  File.__init__ disk offset out = (Ok f, out') ->
  well_formed f /\
  (File.size f = File.total_block_count f * BLOCK_SIZE \/
   File.size f = BLOCK_SIZE /\ File.map f = []).
Proof.
  unfold File.__init__. intros H. inv_ok.
  set (self0 := File.mk _ _ _ _ _ _ _ _ _ _) in *.
  assert (W0 : well_formed self0) by (split; [constructor | reflexivity]).
  assert (W1 : well_formed a2 /\ File.size a2 = BLOCK_SIZE /\ File.map a2 = []).
  { destruct (negb (field a 0 1 =? 255)); inv_ok; [| auto].
    match goal with E : File.read_ident _ _ _ = Ok _ |- _ =>
      apply read_ident_map in E; destruct E as (Hm & Ht & Hs & _) end.
    unfold well_formed. rewrite Hm, Ht, Hs. auto. }
  destruct W1 as (W1 & S1 & M1).
  assert (W2 : well_formed a3 /\
               (File.size a3 = File.total_block_count a3 * BLOCK_SIZE \/
                File.size a3 = BLOCK_SIZE /\ File.map a3 = [])).
  { destruct (negb (field a 1 1 =? 255)); inv_ok; [| auto].
    match goal with E : File.read_map _ _ _ _ _ = _ |- _ =>
      apply read_map_ok in E; [| exact W1] end.
    tauto. }
  destruct W2 as (W2 & S2).
  destruct (File.is_directory a3); inv_ok; [| auto].
  match goal with E : File.read_directory_records _ _ = Ok _ |- _ =>
    apply read_directory_records_map in E; destruct E as (Hm & Ht & Hs) end.
  unfold well_formed. rewrite Hm, Ht, Hs. auto.
Qed.

Lemma len_nonneg {A : Type} (l : list A) : 0 <= len l.
Proof. unfold len. lia. Qed.

Lemma slice_from_0 {A : Type} (l : list A) (n : Z) :
  0 <= n -> slice l 0 n = firstn (Z.to_nat n) l.
Proof.
  intros Hn. unfold slice, clamp. pose proof (len_nonneg l) as Hl.
  destruct (Z.ltb_spec 0 0); [lia |]. destruct (Z.ltb_spec n 0); [lia |].
  rewrite (Z.min_l 0) by lia. cbn [Z.to_nat skipn]. rewrite Nat.sub_0_r.
  destruct (Z.le_ge_cases n (len l)).
  - rewrite Z.min_l by lia. reflexivity.
  - rewrite Z.min_r by lia.
    rewrite !firstn_all2; [reflexivity | unfold len in *; lia ..].
Qed.

Lemma slice_to_end {A : Type} (l : list A) (n : Z) :
  0 <= n -> slice l n (len l) = skipn (Z.to_nat n) l.
Proof.
  intros Hn. unfold slice, clamp. pose proof (len_nonneg l) as Hl.
  destruct (Z.ltb_spec n 0); [lia |]. destruct (Z.ltb_spec (len l) 0); [lia |].
  rewrite (Z.min_l (len l)) by lia.
  destruct (Z.le_ge_cases n (len l)).
  - rewrite Z.min_l by lia. apply firstn_all2.
    rewrite length_skipn. unfold len in *. lia.
  - rewrite Z.min_r by lia. rewrite firstn_all2.
    + rewrite !skipn_all2; [reflexivity | unfold len in *; lia ..].
    + rewrite length_skipn. unfold len in *. lia.
Qed.

Lemma fold_left_counts (l : list File.extent) (t : Z) :
  fold_left (fun n m => n - File.block_count m) l t = t - sum_counts l.
Proof.
  revert t. induction l as [| e l IH]; intros t; simpl; [lia |].
  rewrite IH. lia.
Qed.

Lemma skip_clusters_well_formed (f : File.t) :
  well_formed f -> well_formed (ODS2.skip_clusters f).
Proof.
  unfold well_formed, ODS2.skip_clusters. destruct f as [? ? ? ? ? ? m t ? ?].
  cbn [File.map File.total_block_count File.set_map
       File.set_total_block_count].
  intros [Hm Ht]. subst t.
  rewrite slice_from_0, slice_to_end, fold_left_counts by lia.
  set (k := Z.to_nat 3).
  rewrite <- (firstn_skipn k m) in Hm. apply Forall_app in Hm.
  split; [tauto |].
  rewrite <- (firstn_skipn k m) at 1. rewrite sum_counts_app. lia.
Qed.

Lemma decoded_well_formed (f : File.t) : decoded f -> well_formed f.
Proof.
  induction 1 as [disk offset out f out' H | f _ IH | f n _ IH].
  - apply init_well_formed in H. tauto.
  - apply skip_clusters_well_formed, IH.
  - exact IH.
Qed.

(** ** C1: VBN to LBN *)

(** C1.  For a file with a decoded extent map and a VBN [v] in
    [1 .. total_block_count], the lookup is defined and returns
    [lbn + (v - 1 - b)] for the extent [(lbn, c)] of base [b] with
    [v - 1] in [b, b + c); a [v] outside every extent, in particular
    [v <= 0] or [v > total_block_count], yields [None]. *)
Theorem get_lbn_for_vbn_spec (f : File.t) (v : Z) :
  decoded f ->
  (1 <= v <= File.total_block_count f ->
   exists i e,
     in_extent (File.map f) i e (v - 1) /\
     File.get_lbn_for_vbn f v =
       Some (File.lbn e + (v - 1 - base_of (File.map f) i))) /\
  ((forall i e, ~ in_extent (File.map f) i e (v - 1)) ->
   File.get_lbn_for_vbn f v = None) /\
  (v <= 0 \/ File.total_block_count f < v ->
   File.get_lbn_for_vbn f v = None).
Proof.
  intros Hd. apply decoded_well_formed in Hd. destruct Hd as [Hm Ht].
  unfold File.get_lbn_for_vbn, in_extent.
  assert (Hout : (forall i e, ~ (nth_error (File.map f) i = Some e /\
            base_of (File.map f) i <= v - 1
              < base_of (File.map f) i + File.block_count e)) ->
          File.lookup (File.map f) (v - 1) 0 = None).
  { intros H. apply lookup_outside. intros i e Hn Hr.
    apply (H i e). split; [exact Hn | lia]. }
  split; [| split].
  - intros Hv.
    destruct (lookup_inside (File.map f) Hm (v - 1) 0) as (i & e & Hn & Hr & Hl);
      [lia |].
    exists i, e. split; [split; [exact Hn | lia] |].
    rewrite Hl. do 2 f_equal.
  - exact Hout.
  - intros Hv. apply Hout. intros i e [Hn Hr].
    destruct (base_of_range _ _ _ Hm Hn). lia.
Qed.

Lemma get_lbn_for_vbn_spec_witness :
  decoded Example.two_extents_file /\
  ((1 <= 4 <= File.total_block_count Example.two_extents_file ->
    exists i e,
      in_extent (File.map Example.two_extents_file) i e (4 - 1) /\
      File.get_lbn_for_vbn Example.two_extents_file 4 =
        Some (File.lbn e +
              (4 - 1 - base_of (File.map Example.two_extents_file) i))) /\
   ((forall i e, ~ in_extent (File.map Example.two_extents_file) i e (4 - 1)) ->
    File.get_lbn_for_vbn Example.two_extents_file 4 = None) /\
   (4 <= 0 \/ File.total_block_count Example.two_extents_file < 4 ->
    File.get_lbn_for_vbn Example.two_extents_file 4 = None)).
Proof.
  assert (D : decoded Example.two_extents_file).
  { apply (decoded_init Example.two_extents 0 [] _ []). vm_compute. reflexivity. }
  split; [exact D | exact (get_lbn_for_vbn_spec Example.two_extents_file 4 D)].
Defined.

Local Transparent Z.shiftl Z.shiftr Z.land Z.lor.

(** ** C2: format-3 retrieval pointers *)

(** What the code does with a format-3 pointer, whatever the bytes: it
    advances by 8 but reads two single bytes and one 16-bit word. *)
Lemma read_pointer_format3 disk offset w out :
  unpack_from 4 disk offset = Ok w ->
  File.read_pointer disk offset 3 out =
    (Ok (offset + 8,
         Z.lor (Z.shiftl (Z.land (field w 0 1) 16383) 16) (field w 1 1),
         field w 2 2), out).
Proof.
  intros H. unfold File.read_pointer. cbn [Z.eqb Pos.eqb].
  unfold bind, lift. rewrite H. reflexivity.
Qed.

(** C2 (the code departs from it).  On the format-3 pointer
    [01 C0 02 02 03 00 00 00] the code advances 8 bytes but yields
    [block_count = (0x01 << 16) | 0xC0 = 65728] and [lbn = 0x0202 = 514];
    the layout [u16, u16, u32] of the claim gives
    [block_count = ((0xC001 & 0x3FFF) << 16) | 0x0202 = 66050] and
    [lbn = 3]. *)
Theorem read_pointer_format3_failing_input :
  File.V_FORMAT_at Example.pointer3 0 = Ok 3 /\
  File.read_pointer Example.pointer3 0 3 [] = (Ok (8, 65728, 514), []) /\
  spec_format3 Example.pointer3 0 = (66050, 3).
Proof. vm_compute. repeat split; reflexivity. Qed.

(** ** C9: the adaptor operations do not mutate the volume *)

(** A computation that leaves the whole world as it found it. *)
Definition pure {A : Type} (c : M ODS2.world A) : Prop :=
  forall w, snd (c w) = w.

(** A computation that may print but leaves the volume state alone. *)
Definition preserves {A : Type} (c : M ODS2.world A) : Prop :=
  forall w, volume (snd (c w)) = volume w.

Lemma pure_ret {A : Type} (a : A) : pure (ret a).
Proof. intros w; reflexivity. Qed.

Lemma pure_lift {A : Type} (r : result A) : pure (lift r).
Proof. intros w; reflexivity. Qed.

Lemma pure_gets {A : Type} (f : ODS2.world -> A) : pure (gets f).
Proof. intros w; reflexivity. Qed.

Lemma pure_deref (l : ODS2.loc) : pure (ODS2.deref l).
Proof.
  intros w. unfold ODS2.deref. destruct (nth_error (ODS2.heap w) l); reflexivity.
Qed.

Lemma pure_bind {A B : Type} (c : M ODS2.world A) (k : A -> M ODS2.world B) :
  pure c -> (forall a, pure (k a)) -> pure (bind c k).
Proof.
  intros Hc Hk w. unfold bind. specialize (Hc w).
  destruct (c w) as [[a | e |] w']; simpl in *; subst; auto.
  apply Hk.
Qed.

Lemma pure_preserves {A : Type} (c : M ODS2.world A) : pure c -> preserves c.
Proof. intros H w. rewrite H. reflexivity. Qed.

Lemma preserves_say (o : output) : preserves (ODS2.say o).
Proof. intros w. reflexivity. Qed.

Lemma preserves_bind {A B : Type}
  (c : M ODS2.world A) (k : A -> M ODS2.world B) :
  preserves c -> (forall a, preserves (k a)) -> preserves (bind c k).
Proof.
  intros Hc Hk w. unfold bind. specialize (Hc w).
  destruct (c w) as [[a | e |] w']; simpl in *; auto.
  rewrite Hk. exact Hc.
Qed.

Create HintDb frame.
#[local] Hint Resolve pure_ret pure_lift pure_gets pure_deref : frame.

Ltac frame :=
  repeat first
    [ solve [auto with frame]
    | apply pure_bind; [| intros ?]
    | match goal with
      | |- pure (match ?x with _ => _ end) => destruct x
      | |- pure (if ?x then _ else _) => destruct x
      end ].

Lemma pure_walk (parts : list string) :
  forall file, pure (ODS2.walk parts file).
Proof.
  induction parts as [| p rest IH]; intros file; cbn [ODS2.walk]; frame.
Qed.

Lemma pure_get_file_by_path (path : string) :
  pure (ODS2.get_file_by_path path).
Proof. unfold ODS2.get_file_by_path. frame; apply pure_walk. Qed.

#[local] Hint Resolve pure_walk pure_get_file_by_path : frame.

Lemma pure_getattr disk_st path : pure (ODS2.getattr disk_st path).
Proof. unfold ODS2.getattr. frame. Qed.

Lemma pure_readdir path : pure (ODS2.readdir path).
Proof. unfold ODS2.readdir. frame. Qed.

Lemma pure_readlink path : pure (ODS2.readlink path).
Proof. unfold ODS2.readlink. frame. Qed.

Lemma preserves_read path length offset :
  preserves (ODS2.read path length offset).
Proof.
  unfold ODS2.read. destruct (negb (offset mod BLOCK_SIZE =? 0)).
  - apply preserves_bind; [apply preserves_say |].
    intros ?. apply pure_preserves. frame.
  - apply pure_preserves. frame.
Qed.

Lemma run_op_volume (o : op) (w : ODS2.world) : volume (run_op o w) = volume w.
Proof.
  destruct o; cbn [run_op].
  - rewrite pure_getattr. reflexivity.
  - rewrite pure_readdir. reflexivity.
  - rewrite pure_readlink. reflexivity.
  - apply preserves_read.
Qed.

(** C9.  Whatever sequence of [getattr], [readdir], [readlink] and [read]
    calls is made, and whether each returns or raises, the volume object
    (image buffer, file table, MFD reference, reserved-file count, ...) and
    every [File] object (headers, sizes, directory records) stay as they
    were; this holds from any state, in particular once bootstrap is done. *)
Theorem adaptor_operations_frame (ops : list op) (w : ODS2.world) :
  ODS2.self (run_ops ops w) = ODS2.self w /\
  ODS2.heap (run_ops ops w) = ODS2.heap w.
Proof.
  assert (H : volume (run_ops ops w) = volume w).
  { unfold run_ops. revert w.
    induction ops as [| o ops IH]; intros w; cbn [fold_left]; [reflexivity |].
    rewrite IH. apply run_op_volume. }
  unfold volume in H. injection H; auto.
Qed.

(** ** C7: path resolution *)

(** A component without a matching record: [get_record_by_name] returns
    [None] and the next attribute access raises. *)
Lemma walk_missing p rest l f w :
  nth_error (ODS2.heap w) l = Some f ->
  File.get_record_by_name f p = None ->
  ODS2.walk (p :: rest) (Some l) w = (Raise AttributeError, w).
Proof.
  intros Hl Hn. cbn [ODS2.walk]. unfold bind, ODS2.deref.
  rewrite Hl, Hn. reflexivity.
Qed.

(** C7 (the code departs from it).  On the example volume the path
    [/NOSUCH.TXT] has the single component [NOSUCH.TXT], the MFD has no such
    record, and resolution raises [AttributeError] instead of returning a
    "not found" result; [getattr] lets the exception through. *)
Theorem get_file_by_path_failing_input :
  fst Example.mounted = Ok tt /\
  ODS2.path_parts "/NOSUCH.TXT" = ["NOSUCH.TXT"%string] /\
  fst (ODS2.get_file_by_path "/NOSUCH.TXT" (snd Example.mounted)) =
    Raise AttributeError /\
  fst (ODS2.getattr (Ok (0, 0)) "/NOSUCH.TXT" (snd Example.mounted)) =
    Raise AttributeError.
Proof. vm_compute. repeat split; reflexivity. Qed.

(** ** C8: unaligned reads and directory listings *)

Lemma getitem_first {A : Type} (a : A) (l : list A) :
  getitem (a :: l) 0 = Ok a.
Proof.
  unfold getitem, position. cbn [Z.ltb Z.compare]. unfold len.
  cbn [List.length].
  destruct (Z.leb_spec (Z.of_nat (S (List.length l))) 0); [lia |].
  reflexivity.
Qed.

Lemma collect_spec rc (rs : list DirectoryRecord.t) :
  Forall (fun r => DirectoryRecord.entries r <> []) rs ->
  forall dirents,
    ODS2.collect rc rs dirents =
      Ok (dirents ++
          List.map DirectoryRecord.name (filter (listed rc) rs)).
Proof.
  induction 1 as [| r rs Hr _ IH]; intros dirents; cbn [ODS2.collect filter].
  - cbn [List.map]. rewrite app_nil_r. reflexivity.
  - unfold listed at 1, first_file_number.
    destruct (DirectoryRecord.entries r) as [| e es]; [congruence |].
    rewrite getitem_first. cbn [rbind].
    destruct (Z.leb_spec (FileID.file_number (DirectoryEntry.fid e)) rc);
      destruct (Z.ltb_spec rc (FileID.file_number (DirectoryEntry.fid e)));
      try lia; rewrite IH.
    + reflexivity.
    + cbn [List.map]. rewrite <- app_assoc. reflexivity.
Qed.

(** C8, as the code has it.  A read at an offset that is not a multiple of
    512 prints the diagnostic and returns empty bytes, whatever the path
    and the length.  [readdir] on a path that resolves to a file whose
    records all have a first entry yields [.], [..] and then, in record
    order, exactly the names of the records whose first entry's file number
    exceeds the reserved-file count.  A record without entries is left out
    of the statement: see [zero_block_directory_image] below. *)
Theorem read_unaligned_and_readdir :
  (forall path length offset w,
     offset mod BLOCK_SIZE <> 0 ->
     ODS2.read path length offset w =
       (Ok [],
        ODS2.mkWorld (ODS2.self w) (ODS2.heap w)
          (ODS2.stdout w ++ [OutUnalignedOffset]))) /\
  (forall path w l f,
     fst (ODS2.get_file_by_path path w) = Ok (Some l) ->
     nth_error (ODS2.heap w) l = Some f ->
     Forall (fun r => DirectoryRecord.entries r <> []) (File.records f) ->
     ODS2.readdir path w =
       (Ok ("." :: ".." ::
            List.map DirectoryRecord.name
              (filter (listed (ODS2.reserved_file_count (ODS2.self w)))
                 (File.records f)))%string,
        w)).
Proof.
  split.
  - intros path length offset w H. unfold ODS2.read.
    destruct (Z.eqb_spec (offset mod BLOCK_SIZE) 0); [contradiction |].
    reflexivity.
  - intros path w l f Hp Hl Hr. unfold ODS2.readdir, bind.
    pose proof (pure_get_file_by_path path w) as Hw.
    destruct (ODS2.get_file_by_path path w) as [r w']. simpl in Hp, Hw.
    subst. unfold ODS2.deref. rewrite Hl. unfold gets, lift.
    rewrite (collect_spec _ _ Hr). reflexivity.
Qed.

Lemma read_unaligned_and_readdir_witness :
  (100 mod BLOCK_SIZE <> 0 /\
   fst (ODS2.read "/FOO.TXT" 512 100 (snd Example.mounted)) = Ok []) /\
  (fst (ODS2.get_file_by_path "/" (snd Example.mounted)) = Ok (Some 1%nat) /\
   fst (ODS2.readdir "/" (snd Example.mounted)) =
     Ok ["."; ".."; "FOO.TXT"; "EMPTY.DAT"]%string).
Proof.
  split.
  - assert (H : 100 mod BLOCK_SIZE <> 0) by (vm_compute; discriminate).
    split; [exact H |].
    rewrite (proj1 read_unaligned_and_readdir "/FOO.TXT"%string 512 100
               (snd Example.mounted) H).
    reflexivity.
  - assert (H : fst (ODS2.get_file_by_path "/" (snd Example.mounted)) =
                  Ok (Some 1%nat)) by (vm_compute; reflexivity).
    split; [exact H |].
    assert (F : exists f, nth_error (ODS2.heap (snd Example.mounted)) 1 = Some f /\
                  Forall (fun r => DirectoryRecord.entries r <> [])
                    (File.records f)).
    { eexists. split; [vm_compute; reflexivity |].
      cbn [File.records]. repeat constructor; discriminate. }
    destruct F as (f & Hf & Hr).
    rewrite (proj2 read_unaligned_and_readdir "/"%string
               (snd Example.mounted) 1%nat f H Hf Hr).
    cbn [fst]. f_equal.
    assert (E : Some f = nth_error (ODS2.heap (snd Example.mounted)) 1)
      by (symmetry; exact Hf).
    vm_compute in E. injection E as ->. vm_compute. reflexivity.
Defined.

(** ** C10: a header without a map area *)

(** When [B_MPOFFSET] (the second byte of the header) is [0xFF], the map
    decoder is skipped: the decoded header has an empty map,
    [total_block_count = 0] and [size = 512]. *)
Lemma mapless_decode disk offset w out f out' :
  unpack_from 59 disk offset = Ok w ->
  field w 1 1 = 255 ->
  File.__init__ disk offset out = (Ok f, out') ->
  File.map f = [] /\
  File.total_block_count f = 0 /\
  File.size f = 512.
Proof.
  intros Hw Hmp H. unfold File.__init__ in H.
  unfold bind at 1 in H. unfold lift at 1 in H. rewrite Hw in H.
  rewrite Hmp in H. cbn [Z.eqb Pos.eqb negb] in H. inv_ok.
  assert (E : File.map a1 = [] /\ File.total_block_count a1 = 0 /\
              File.size a1 = 512).
  { destruct (negb (field w 0 1 =? 255)); inv_ok; [| auto].
    match goal with E : File.read_ident _ _ _ = Ok _ |- _ =>
      apply read_ident_map in E; destruct E as (Hm & Ht & Hs & _) end.
    rewrite Hm, Ht, Hs. auto. }
  destruct (File.is_directory a1); inv_ok; [| exact E].
  match goal with E : File.read_directory_records _ _ = Ok _ |- _ =>
    apply read_directory_records_map in E; destruct E as (Hm & Ht & Hs) end.
  rewrite Hm, Ht, Hs. exact E.
Qed.

(** What [getattr] reports of the object a path resolves to. *)
Lemma getattr_size path w l f disk_st :
  fst (ODS2.get_file_by_path path w) = Ok (Some l) ->
  nth_error (ODS2.heap w) l = Some f ->
  exists st,
    ODS2.getattr (Ok disk_st) path w = (Ok st, w) /\
    ODS2.st_size st = File.size f.
Proof.
  intros Hp Hl. unfold ODS2.getattr, bind, lift.
  pose proof (pure_get_file_by_path path w) as Hpure.
  destruct (ODS2.get_file_by_path path w) as [r w']. simpl in Hp, Hpure.
  subst. unfold ODS2.deref. rewrite Hl. unfold ret.
  eexists. split; reflexivity.
Qed.

(** ** C5: the blocks of a directory *)

Lemma In_range (v a b : Z) : In v (range a b) <-> a <= v < b.
Proof.
  unfold range. rewrite in_map_iff. split.
  - intros (k & <- & Hk). apply in_seq in Hk. lia.
  - intros H. exists (Z.to_nat (v - a)). split; [lia |].
    apply in_seq. lia.
Qed.

(** The loop of [read_directory_records] visits the VBNs
    [1 .. total_block_count - 1]: never the last block. *)
Lemma directory_vbns_spec (f : File.t) (v : Z) :
  In v (File.directory_vbns f) <-> 1 <= v < File.total_block_count f.
Proof. apply In_range. Qed.

(** Within a block the scan stops at the first record whose [W_SIZE] is
    negative as a signed 16-bit value. *)
Lemma read_block_records_stop n disk offset w records :
  unpack_from 2 disk offset = Ok w ->
  to_int16 (field w 0 2) < 0 ->
  File.read_block_records (S n) disk offset records = Ok records.
Proof.
  intros Hw Hneg. cbn [File.read_block_records]. rewrite Hw. cbn [rbind].
  destruct (Z.ltb_spec (to_int16 (field w 0 2)) 0); [reflexivity | lia].
Qed.

(** C5 (the code departs from it).  A directory of one block: the header
    decodes with [total_block_count = 1], VBN 1 maps to LBN 1 and that block
    holds the record [A.TXT], yet the loop runs over no VBN at all and the
    directory ends up with no records.  In general the last VBN,
    [total_block_count], is never visited. *)
Theorem read_directory_records_failing_input :
  (forall f, ~ In (File.total_block_count f) (File.directory_vbns f)) /\
  exists f r,
    File.__init__ Example.one_block_directory 0 [] = (Ok f, []) /\
    File.is_directory f = true /\
    File.total_block_count f = 1 /\
    File.get_lbn_for_vbn f 1 = Some 1 /\
    File.read_block_records 62 Example.one_block_directory 512 [] = Ok [r] /\
    DirectoryRecord.name r = "A.TXT"%string /\
    File.directory_vbns f = [] /\
    File.records f = [].
Proof.
  split.
  - intros f H. apply directory_vbns_spec in H. lia.
  - eexists. eexists.
    split; [vm_compute; reflexivity |].
    repeat split; vm_compute; reflexivity.
Qed.

(** ** C6: the entries of a directory record *)

Lemma read_entries_spec disk n : forall offset acc l,
  DirectoryRecord.read_entries disk n offset acc = Ok l ->
  exists es,
    l = acc ++ es /\
    List.length es = n /\
    forall i e,
      nth_error es i = Some e ->
      DirectoryEntry.__init__ disk (offset + DirectoryEntry.SIZE * Z.of_nat i)
        = Ok e.
Proof.
  induction n as [| n IH]; intros offset acc l H;
    cbn [DirectoryRecord.read_entries] in H.
  - exists []. injection H as <-. rewrite app_nil_r. repeat split.
    intros [| i] e Hn; discriminate.
  - apply rbind_Ok in H. destruct H as (e0 & He0 & H).
    apply IH in H. destruct H as (es & -> & Hlen & Hnth).
    exists (e0 :: es). rewrite <- app_assoc. cbn [app List.length].
    repeat split; [congruence |].
    intros [| i] e Hi; cbn [nth_error] in Hi.
    + injection Hi as <-. rewrite Z.mul_0_r, Z.add_0_r. exact He0.
    + replace (offset + DirectoryEntry.SIZE * Z.of_nat (S i))
        with (offset + DirectoryEntry.SIZE + DirectoryEntry.SIZE * Z.of_nat i)
        by lia.
      apply Hnth. exact Hi.
Qed.

(** C6, counterexample.  A record with [W_SIZE = 14] and [B_NAMECOUNT = 0]
    decodes with two entries; [(14 + 2 - 6 - 0) / 8] is 1. *)
Lemma record_entries_counterexample :
  exists w r,
    unpack_from 6 Example.slack_record 0 = Ok w /\
    DirectoryRecord.__init__ Example.slack_record 0 = Ok r /\
    field w 0 2 = 14 /\
    field w 5 1 = 0 /\
    len (DirectoryRecord.entries r) = 2 /\
    spec_entries_count (field w 0 2) (field w 5 1) = 1.
Proof.
  eexists. eexists.
  split; [vm_compute; reflexivity |].
  split; [vm_compute; reflexivity |].
  repeat split; vm_compute; reflexivity.
Qed.

(** C6, as the code has it.  A record with fields [W_SIZE] and
    [B_NAMECOUNT] has size [W_SIZE + 2] and exactly
    [trunc ((W_SIZE + 2 - B_NAMECOUNT) / 8)] entries (none when that is
    negative): the fixed header is not subtracted.  The entries are decoded
    from consecutive 8-byte fields starting at the even offset after the
    name.  When the record is laid out without slack,
    [W_SIZE + 2 = 6 + B_NAMECOUNT + pad + 8 k] with [pad] 0 or 1, both this
    count and [(W_SIZE + 2 - 6 - B_NAMECOUNT) / 8] equal [k]. *)
Theorem record_entries_count disk offset w r :
  unpack_from 6 disk offset = Ok w ->
  DirectoryRecord.__init__ disk offset = Ok r ->
  let W_SIZE := field w 0 2 in
  let B_NAMECOUNT := field w 5 1 in
  DirectoryRecord.size r = W_SIZE + 2 /\
  len (DirectoryRecord.entries r) =
    Z.max 0 (Z.quot (W_SIZE + 2 - B_NAMECOUNT) 8) /\
  (forall i e,
     nth_error (DirectoryRecord.entries r) i = Some e ->
     DirectoryEntry.__init__ disk
       (entries_offset offset B_NAMECOUNT + 8 * Z.of_nat i) = Ok e) /\
  (forall k pad,
     0 <= k -> 0 <= pad <= 1 ->
     W_SIZE + 2 = 6 + B_NAMECOUNT + pad + 8 * k ->
     len (DirectoryRecord.entries r) = k /\
     spec_entries_count W_SIZE B_NAMECOUNT = k).
Proof.
  intros Hw H W_SIZE B_NAMECOUNT. unfold DirectoryRecord.__init__ in H.
  change DirectoryRecord.HEADER_SIZE with 6 in H.
  rewrite Hw in H. cbn [rbind] in H.
  fold W_SIZE B_NAMECOUNT in H.
  apply rbind_Ok in H. destruct H as (name & _ & H).
  apply rbind_Ok in H. destruct H as (es & Hes & H).
  injection H as <-. cbn [DirectoryRecord.size DirectoryRecord.entries].
  apply read_entries_spec in Hes. destruct Hes as (es' & -> & Hlen & Hnth).
  cbn [app] in *.
  assert (L : len es' =
              Z.max 0 (Z.quot (W_SIZE + 2 - B_NAMECOUNT) 8)).
  { unfold len. rewrite Hlen. unfold DirectoryRecord.entries_count.
    change DirectoryEntry.SIZE with 8. lia. }
  split; [reflexivity |]. split; [exact L |]. split.
  - intros i e Hi. apply Hnth in Hi. exact Hi.
  - intros k pad Hk Hpad Hsz. rewrite L. unfold spec_entries_count.
    change DirectoryRecord.HEADER_SIZE with 6.
    replace (W_SIZE + 2 - B_NAMECOUNT) with (6 + pad + 8 * k) by lia.
    replace (W_SIZE + 2 - 6 - B_NAMECOUNT) with (pad + 8 * k) by lia.
    rewrite Z.quot_div_nonneg by lia.
    assert ((6 + pad + 8 * k) / 8 = k)
      by (symmetry; apply (Z.div_unique _ 8 k (6 + pad)); lia).
    assert ((pad + 8 * k) / 8 = k)
      by (symmetry; apply (Z.div_unique _ 8 k pad); lia).
    lia.
Qed.

Lemma record_entries_count_witness :
  exists w r,
    unpack_from 6 Example.foo_record 0 = Ok w /\
    DirectoryRecord.__init__ Example.foo_record 0 = Ok r /\
    field w 0 2 = 20 /\
    field w 5 1 = 7 /\
    DirectoryRecord.size r = 22 /\
    len (DirectoryRecord.entries r) = 1 /\
    spec_entries_count (field w 0 2) (field w 5 1) = 1.
Proof.
  eexists. eexists.
  assert (H1 : unpack_from 6 Example.foo_record 0 =
               Ok (firstn 6 Example.foo_record))
    by (vm_compute; reflexivity).
  assert (H2 : DirectoryRecord.__init__ Example.foo_record 0 =
               Ok (DirectoryRecord.mk 22 "FOO.TXT"
                     [DirectoryEntry.mk (FileID.mk 2 1 0)]))
    by (vm_compute; reflexivity).
  assert (H3 : field (firstn 6 Example.foo_record) 0 2 = 20)
    by (vm_compute; reflexivity).
  assert (H4 : field (firstn 6 Example.foo_record) 5 1 = 7)
    by (vm_compute; reflexivity).
  split; [exact H1 |]. split; [exact H2 |].
  split; [exact H3 |]. split; [exact H4 |].
  destruct (record_entries_count _ _ _ _ H1 H2) as (Hs & _ & _ & Hk).
  split; [rewrite Hs, H3; reflexivity |].
  apply (Hk 1 1); [lia | lia |]. rewrite H3, H4. reflexivity.
Defined.

(** ** C3: the length of a read *)

Lemma clamp_inside {A : Type} (l : list A) (i : Z) :
  0 <= i <= len l -> clamp l i = Z.to_nat i.
Proof.
  intros H. unfold clamp. destruct (Z.ltb_spec i 0); [lia |].
  rewrite Z.min_l by lia. reflexivity.
Qed.

Lemma clamp_beyond {A : Type} (l : list A) (i : Z) :
  len l <= i -> clamp l i = List.length l.
Proof.
  intros H. unfold clamp. pose proof (len_nonneg l).
  destruct (Z.ltb_spec i 0); [lia |].
  rewrite Z.min_r by lia. unfold len. lia.
Qed.

(** A slice that lies inside the list has the length asked for. *)
Lemma slice_length {A : Type} (l : list A) (a n : Z) :
  0 <= a -> 0 <= n -> a + n <= len l -> len (slice l a (a + n)) = n.
Proof.
  intros Ha Hn Hl. unfold slice.
  rewrite !clamp_inside by lia. unfold len in *.
  rewrite length_firstn, length_skipn. lia.
Qed.

(** Assigning to a slice that starts at the end of the list appends. *)
Lemma setslice_at_end {A : Type} (l s : list A) (a b : Z) :
  len l <= a -> a <= b -> setslice l a b s = l ++ s.
Proof.
  intros Ha Hb. unfold setslice.
  rewrite !clamp_beyond by lia. rewrite Nat.max_id.
  rewrite firstn_all, skipn_all. rewrite app_nil_r. reflexivity.
Qed.

Lemma len_app {A : Type} (a b : list A) : len (a ++ b) = len a + len b.
Proof. unfold len. rewrite length_app. lia. Qed.

Lemma read_loop_length disk f end_offset : forall fuel data data_offset offset,
  len data = data_offset ->
  0 <= offset ->
  offset mod BLOCK_SIZE = 0 ->
  (forall v, offset <= (v - 1) * BLOCK_SIZE < end_offset ->
             block_in_image disk f v) ->
  (end_offset - offset + (BLOCK_SIZE - 1)) / BLOCK_SIZE <= Z.of_nat fuel ->
  exists out,
    ODS2.read_loop fuel disk f end_offset data data_offset offset = Ok out /\
    len out =
      len data +
      BLOCK_SIZE *
        Z.max 0 ((end_offset - offset + (BLOCK_SIZE - 1)) / BLOCK_SIZE).
Proof.
  unfold BLOCK_SIZE.
  induction fuel as [| fuel IH]; intros data data_offset offset Hd Ho Hal Hmap Hf;
    cbn [ODS2.read_loop]; destruct (Z.ltb_spec offset end_offset).
  - exfalso.
    assert (1 <= (end_offset - offset + (512 - 1)) / 512)
      by (apply Z.div_le_lower_bound; lia).
    lia.
  - exists data. split; [reflexivity |].
    assert ((end_offset - offset + (512 - 1)) / 512 <= 0).
    { apply Z.lt_succ_r. apply Z.div_lt_upper_bound; lia. }
    lia.
  - unfold BLOCK_SIZE.
    assert (Hq : Z.quot offset 512 = offset / 512)
      by (apply Z.quot_div_nonneg; lia).
    assert (Hoff : offset = 512 * (offset / 512))
      by (apply Z_div_exact_full_2; [lia | exact Hal]).
    rewrite Hq.
    destruct (Hmap (offset / 512 + 1)) as (lbn & Hl & Hl0 & Hl1);
      [unfold BLOCK_SIZE; lia |].
    rewrite Hl. unfold BLOCK_SIZE in Hl1.
    rewrite setslice_at_end by lia.
    assert (Hs : len (slice disk (lbn * 512) (lbn * 512 + 512)) = 512)
      by (apply slice_length; lia).
    assert (Hdiv : (end_offset - (offset + 512) + (512 - 1)) / 512 =
                   (end_offset - offset + (512 - 1)) / 512 - 1).
    { replace (end_offset - (offset + 512) + (512 - 1))
        with (end_offset - offset + (512 - 1) + (-1) * 512) by lia.
      rewrite Z.div_add by lia. lia. }
    destruct (IH (data ++ slice disk (lbn * 512) (lbn * 512 + 512))
                (data_offset + 512) (offset + 512)) as (out & Hout & Hlen).
    + rewrite len_app. lia.
    + lia.
    + rewrite <- Zplus_mod_idemp_l, Hal. reflexivity.
    + intros v Hv. apply Hmap. unfold BLOCK_SIZE in *. lia.
    + lia.
    + exists out. split; [exact Hout |].
      rewrite Hlen, len_app, Hs, Hdiv.
      assert (1 <= (end_offset - offset + (512 - 1)) / 512)
        by (apply Z.div_le_lower_bound; lia).
      lia.
  - exists data. split; [reflexivity |].
    assert ((end_offset - offset + (512 - 1)) / 512 <= 0).
    { apply Z.lt_succ_r. apply Z.div_lt_upper_bound; lia. }
    lia.
Qed.

(** Enough fuel: the loop of [read] always comes to an end. *)
Lemma read_loop_not_stuck disk f end_offset :
  forall fuel data data_offset offset,
    (end_offset - offset + (BLOCK_SIZE - 1)) / BLOCK_SIZE <= Z.of_nat fuel ->
    ODS2.read_loop fuel disk f end_offset data data_offset offset <> Stuck.
Proof.
  unfold BLOCK_SIZE.
  induction fuel as [| fuel IH]; intros data data_offset offset Hf;
    cbn [ODS2.read_loop]; destruct (Z.ltb_spec offset end_offset);
    try discriminate.
  - exfalso.
    assert (1 <= (end_offset - offset + (512 - 1)) / 512)
      by (apply Z.div_le_lower_bound; lia).
    lia.
  - destruct (File.get_lbn_for_vbn f _); [| discriminate].
    apply IH. unfold BLOCK_SIZE.
    replace (end_offset - (offset + 512) + (512 - 1))
      with (end_offset - offset + (512 - 1) + (-1) * 512) by lia.
    rewrite Z.div_add by lia. lia.
Qed.

(** C3, counterexample.  On the example volume [FOO.TXT] has size 512;
    reading 100 bytes at offset 0 gives [end = 100], yet the whole block of
    512 bytes comes back. *)
Lemma read_length_counterexample :
  exists l f data,
    fst (ODS2.get_file_by_path "/FOO.TXT" (snd Example.mounted)) =
      Ok (Some l) /\
    nth_error (ODS2.heap (snd Example.mounted)) l = Some f /\
    File.size f = 512 /\
    fst (ODS2.read "/FOO.TXT" 100 0 (snd Example.mounted)) = Ok data /\
    len data = 512 /\
    Z.min (0 + 100) (File.size f) - 0 = 100.
Proof.
  eexists. eexists. eexists.
  split; [vm_compute; reflexivity |].
  split; [vm_compute; reflexivity |].
  split; [vm_compute; reflexivity |].
  split; [vm_compute; reflexivity |].
  split; vm_compute; reflexivity.
Qed.

(** A block without a mapping: [EMPTY.DAT] has size 512 and an empty map,
    and reading it raises [TypeError]. *)
Lemma read_unmapped_example :
  fst (ODS2.read "/EMPTY.DAT" 512 0 (snd Example.mounted)) = Raise TypeError.
Proof. vm_compute. reflexivity. Qed.

(** C3, as the code has it.  For a file [f], a 512-aligned offset [o] with
    [0 <= o <= f.size] and a length [n >= 0], let [end = min(o + n, f.size)].
    When every block that starts in [o, end) is mapped to a block of the
    image, [read] returns whole blocks: [512 * ceil((end - o) / 512)] bytes.
    That is exactly [end - o] when [end - o] is a multiple of 512, and the
    empty string when [o = f.size]. *)
Theorem read_length path length offset w l f :
  fst (ODS2.get_file_by_path path w) = Ok (Some l) ->
  nth_error (ODS2.heap w) l = Some f ->
  offset mod BLOCK_SIZE = 0 ->
  0 <= offset <= File.size f ->
  0 <= length ->
  let end_offset := Z.min (offset + length) (File.size f) in
  (forall v, offset <= (v - 1) * BLOCK_SIZE < end_offset ->
             block_in_image (ODS2.disk (ODS2.self w)) f v) ->
  exists data,
    ODS2.read path length offset w = (Ok data, w) /\
    len data =
      BLOCK_SIZE * ((end_offset - offset + (BLOCK_SIZE - 1)) / BLOCK_SIZE) /\
    ((end_offset - offset) mod BLOCK_SIZE = 0 ->
     len data = end_offset - offset) /\
    (offset = File.size f -> data = []).
Proof.
  intros Hp Hl Hal Ho Hn end_offset Hmap.
  unfold ODS2.read. rewrite Hal. cbn [Z.eqb negb].
  unfold bind.
  pose proof (pure_get_file_by_path path w) as Hpure.
  destruct (ODS2.get_file_by_path path w) as [r w']. simpl in Hp, Hpure.
  subst. unfold ODS2.deref. rewrite Hl. unfold gets, lift.
  assert (He : (if File.size f <? offset + length
                then File.size f else offset + length) = end_offset).
  { unfold end_offset.
    destruct (Z.ltb_spec (File.size f) (offset + length)); lia. }
  rewrite He.
  destruct (read_loop_length (ODS2.disk (ODS2.self w)) f end_offset
              (ODS2.read_fuel offset end_offset) [] 0 offset)
    as (data & Hd & Hlen); try lia; try assumption; try reflexivity.
  { unfold ODS2.read_fuel.
    assert (0 <= (end_offset - offset + (BLOCK_SIZE - 1)) / BLOCK_SIZE)
      by (apply Z.div_pos; unfold BLOCK_SIZE, end_offset; lia).
    lia. }
  exists data. rewrite Hd. split; [reflexivity |].
  assert (Hnn : 0 <= (end_offset - offset + (BLOCK_SIZE - 1)) / BLOCK_SIZE)
    by (apply Z.div_pos; unfold BLOCK_SIZE, end_offset; lia).
  change (len []) with 0 in Hlen.
  rewrite Z.max_r in Hlen by lia.
  split; [lia |]. split.
  - intros Hm. rewrite Hlen. unfold BLOCK_SIZE in *.
    assert (Hx : end_offset - offset = 512 * ((end_offset - offset) / 512))
      by (apply Z_div_exact_full_2; [lia | exact Hm]).
    rewrite Hx at 1.
    replace (512 * ((end_offset - offset) / 512) + (512 - 1))
      with (511 + ((end_offset - offset) / 512) * 512) by lia.
    rewrite Z.div_add by lia. change (511 / 512) with 0. lia.
  - intros Hs.
    assert (end_offset - offset = 0) by (unfold end_offset; lia).
    assert (len data = 0).
    { rewrite Hlen. replace (end_offset - offset + (BLOCK_SIZE - 1))
        with 511 by (unfold BLOCK_SIZE; lia).
      reflexivity. }
    destruct data; [reflexivity | unfold len in *; simpl in *; lia].
Qed.

Lemma read_length_witness :
  exists f,
    fst (ODS2.get_file_by_path "/FOO.TXT" (snd Example.mounted)) =
      Ok (Some 4%nat) /\
    nth_error (ODS2.heap (snd Example.mounted)) 4 = Some f /\
    File.size f = 512 /\
    exists data,
      ODS2.read "/FOO.TXT" 1000 0 (snd Example.mounted) =
        (Ok data, snd Example.mounted) /\
      len data = 512.
Proof.
  eexists.
  assert (H1 : fst (ODS2.get_file_by_path "/FOO.TXT" (snd Example.mounted)) =
               Ok (Some 4%nat)) by (vm_compute; reflexivity).
  assert (H2 : nth_error (ODS2.heap (snd Example.mounted)) 4 =
               Some (File.mk (FileID.mk 2 1 0) (FileID.mk 0 1 0) false
                       (VMStoUNIX 0) (VMStoUNIX 0) (Some "FOO.TXT"%string)
                       [File.mkExtent 8 1] 1 512 []))
    by (vm_compute; reflexivity).
  assert (H3 : 0 mod BLOCK_SIZE = 0) by reflexivity.
  assert (H4 : 0 <= 0 <= 512) by lia.
  assert (H5 : 0 <= 1000) by lia.
  split; [exact H1 |]. split; [exact H2 |]. split; [reflexivity |].
  destruct (read_length "/FOO.TXT" 1000 0 (snd Example.mounted) 4%nat _
              H1 H2 H3 H4 H5) as (data & Hd & Hlen & _).
  { cbn [File.size]. intros v Hv.
    assert (v = 1) by (unfold BLOCK_SIZE in *; lia). subst v.
    exists 8. split; [reflexivity |]. split; [lia |].
    vm_compute. discriminate. }
  exists data. split; [exact Hd |]. rewrite Hlen. reflexivity.
Defined.

(** ** C4: the file table after bootstrap *)

(** A decoder reads the output log only to append to it: its result and
    what it prints do not depend on what was printed before. *)
Definition uniform {A : Type} (c : M (list output) A) : Prop :=
  exists r d, forall out, c out = (r, out ++ d).

Lemma uniform_ret {A : Type} (a : A) : uniform (ret a).
Proof. exists (Ok a), []. intros out. rewrite app_nil_r. reflexivity. Qed.

Lemma uniform_lift {A : Type} (r : result A) : uniform (lift r).
Proof. exists r, []. intros out. rewrite app_nil_r. reflexivity. Qed.

Lemma uniform_print (o : output) : uniform (print o).
Proof. exists (Ok tt), [o]. reflexivity. Qed.

Lemma uniform_bind {A B : Type}
  (c : M (list output) A) (k : A -> M (list output) B) :
  uniform c -> (forall a, uniform (k a)) -> uniform (bind c k).
Proof.
  intros (r & d & Hc) Hk. destruct r as [a | e |].
  - destruct (Hk a) as (r' & d' & Hka).
    exists r', (d ++ d'). intros out. unfold bind.
    rewrite Hc, Hka, app_assoc. reflexivity.
  - exists (Raise e), d. intros out. unfold bind. rewrite Hc. reflexivity.
  - exists Stuck, d. intros out. unfold bind. rewrite Hc. reflexivity.
Qed.

Create HintDb uniform.
#[local] Hint Resolve uniform_ret uniform_lift uniform_print : uniform.

Ltac uniform :=
  repeat first
    [ solve [auto with uniform]
    | apply uniform_bind; [| intros ?]
    | match goal with
      | |- uniform (match ?x with _ => _ end) => destruct x
      | |- uniform (if ?x then _ else _) => destruct x
      | |- uniform (let '(_, _) := ?x in _) => destruct x
      end ].

Lemma uniform_read_pointer disk offset V :
  uniform (File.read_pointer disk offset V).
Proof. unfold File.read_pointer. uniform. Qed.

Lemma uniform_read_map_step self disk offset :
  uniform (File.read_map_step self disk offset).
Proof.
  unfold File.read_map_step.
  apply uniform_bind; [apply uniform_lift | intros V].
  apply uniform_bind; [apply uniform_read_pointer | intros [[o c] l]].
  apply uniform_ret.
Qed.

Lemma uniform_read_map_loop fuel : forall self disk offset end_offset,
  uniform (File.read_map_loop fuel self disk offset end_offset).
Proof.
  induction fuel as [| fuel IH]; intros self disk offset end_offset;
    cbn [File.read_map_loop]; destruct (offset <? end_offset);
    auto with uniform.
  apply uniform_bind; [apply uniform_read_map_step | intros r; apply IH].
Qed.

Lemma uniform_read_map self disk offset B :
  uniform (File.read_map self disk offset B).
Proof.
  unfold File.read_map. apply uniform_bind;
    [apply uniform_read_map_loop | intros ?; apply uniform_ret].
Qed.

#[local] Hint Resolve uniform_read_map : uniform.

Lemma uniform_init disk offset : uniform (File.__init__ disk offset).
Proof. unfold File.__init__. uniform. Qed.

(** Decoding the same block twice gives the same header. *)
Lemma init_deterministic disk offset out1 out2 f1 f2 out1' out2' :
  File.__init__ disk offset out1 = (Ok f1, out1') ->
  File.__init__ disk offset out2 = (Ok f2, out2') ->
  f1 = f2.
Proof.
  destruct (uniform_init disk offset) as (r & d & H).
  rewrite !H. intros H1 H2. congruence.
Qed.

Lemma new_File_Ok disk offset w l w' :
  ODS2.new_File disk offset w = (Ok l, w') ->
  exists f out',
    File.__init__ disk offset (ODS2.stdout w) = (Ok f, out') /\
    l = List.length (ODS2.heap w) /\
    w' = ODS2.mkWorld (ODS2.self w) (ODS2.heap w ++ [f]) out'.
Proof.
  unfold ODS2.new_File, bind, zoom.
  destruct (File.__init__ disk offset (ODS2.stdout w)) as [[f | e |] out'];
    intros H; try discriminate.
  cbn [ODS2.self ODS2.heap ODS2.stdout] in H.
  injection H as <- <-. exists f, out'. auto.
Qed.

Lemma deref_Ok l w f w' :
  ODS2.deref l w = (Ok f, w') ->
  nth_error (ODS2.heap w) l = Some f /\ w' = w.
Proof.
  unfold ODS2.deref. destruct (nth_error (ODS2.heap w) l); intros H;
    inversion H; subst; auto.
Qed.

Lemma update_Ok l g w w' :
  ODS2.update l g w = (Ok tt, w') ->
  exists o,
    nth_error (ODS2.heap w) l = Some o /\
    w' = ODS2.mkWorld (ODS2.self w) (list_set (ODS2.heap w) l (g o))
           (ODS2.stdout w).
Proof.
  unfold ODS2.update. destruct (nth_error (ODS2.heap w) l) as [o |];
    intros H; inversion H; subst. exists o. auto.
Qed.

Lemma length_list_set {A : Type} (l : list A) (n : nat) (v : A) :
  List.length (list_set l n v) = List.length l.
Proof.
  revert n. induction l as [| a l IH]; intros [| n]; simpl; auto.
Qed.

Lemma nth_error_list_set {A : Type} (l : list A) (n k : nat) (v : A) :
  nth_error (list_set l n v) k =
    if Nat.eqb k n
    then (if Nat.ltb n (List.length l) then Some v else None)
    else nth_error l k.
Proof.
  revert n k. induction l as [| a l IH]; intros [| n] [| k]; simpl; auto.
  destruct (Nat.eqb k n); reflexivity.
Qed.

Lemma position_bound {A : Type} (l : list A) (i : Z) (p : nat) :
  position l i = Some p -> (p < List.length l)%nat.
Proof.
  unfold position, len.
  destruct (Z.ltb_spec i 0);
    match goal with |- context [(?a <? 0) || (?b <=? ?a)] =>
      destruct (Z.ltb_spec a 0); destruct (Z.leb_spec b a) end;
    simpl; intros E; inversion E; lia.
Qed.

Lemma position_length {A B : Type} (l : list A) (l' : list B) (i : Z) :
  List.length l = List.length l' -> position l i = position l' i.
Proof. unfold position, len. intros ->. reflexivity. Qed.

Lemma getitem_Ok {A : Type} (l : list A) (i : Z) (a : A) :
  getitem l i = Ok a <->
  exists p, position l i = Some p /\ nth_error l p = Some a.
Proof.
  unfold getitem. split.
  - destruct (position l i) as [p |]; [| discriminate].
    destruct (nth_error l p) eqn:E; intros H; inversion H; subst.
    exists p. auto.
  - intros (p & -> & ->). reflexivity.
Qed.

Lemma nth_error_valid {A : Type} (l : list A) (n : nat) (a : A) :
  nth_error l n = Some a -> (n < List.length l)%nat.
Proof. intros H. apply nth_error_Some. congruence. Qed.

(** One header stored by the scan: [o] was decoded twice, the first object
    may become the MFD, the second goes into the table. *)
Lemma store_step (w : ODS2.world) (o : File.t) (name : string) (p : nat)
  (out : list output) :
  table_ok w -> mfd_ok w ->
  File.name o = Some name ->
  File.size o mod BLOCK_SIZE = 0 ->
  position (ODS2.files (ODS2.self w))
    (FileID.file_number (File.fid o) - 1) = Some p ->
  let file := List.length (ODS2.heap w) in
  let stored := S file in
  let s2 := if String.eqb name "000000.DIR"
            then ODS2.set_mfd (ODS2.self w) (Some file)
            else ODS2.self w in
  let w4 :=
    ODS2.mkWorld
      (ODS2.set_files s2
         (list_set (ODS2.files (ODS2.self w)) p (Some stored)))
      (ODS2.heap w ++ [o; o]) out in
  table_ok w4 /\ mfd_ok w4.
Proof.
  intros Ht Hm Hname Hsize Hpos file stored s2 w4.
  pose proof (position_bound _ _ _ Hpos) as Hp.
  assert (Hfiles : ODS2.files (ODS2.self w4) =
                   list_set (ODS2.files (ODS2.self w)) p (Some stored)).
  { unfold w4, s2. destruct (String.eqb name "000000.DIR"); reflexivity. }
  assert (Hmfd : ODS2.mfd (ODS2.self w4) =
                 if String.eqb name "000000.DIR" then Some file
                 else ODS2.mfd (ODS2.self w)).
  { unfold w4, s2. destruct (String.eqb name "000000.DIR"); reflexivity. }
  assert (Hheap : ODS2.heap w4 = ODS2.heap w ++ [o; o]) by reflexivity.
  assert (Hold : forall l f, nth_error (ODS2.heap w) l = Some f ->
                   nth_error (ODS2.heap w4) l = Some f /\ l <> file /\
                   l <> stored).
  { intros l f Hl. pose proof (nth_error_valid _ _ _ Hl).
    rewrite Hheap, nth_error_app1 by lia. unfold stored, file. auto with zarith. }
  assert (Hfile : nth_error (ODS2.heap w4) file = Some o).
  { rewrite Hheap, nth_error_app2 by (unfold file; lia).
    unfold file. rewrite Nat.sub_diag. reflexivity. }
  assert (Hstored : nth_error (ODS2.heap w4) stored = Some o).
  { rewrite Hheap, nth_error_app2 by (unfold stored, file; lia).
    unfold stored, file.
    replace (S (List.length (ODS2.heap w)) - List.length (ODS2.heap w))%nat
      with 1%nat by lia.
    reflexivity. }
  assert (Hposeq : forall x, position (ODS2.files (ODS2.self w4)) x =
                             position (ODS2.files (ODS2.self w)) x).
  { intros x. apply position_length. rewrite Hfiles.
    apply length_list_set. }
  assert (Hnth : forall i, nth_error (ODS2.files (ODS2.self w4)) i =
                   if Nat.eqb i p then Some (Some stored)
                   else nth_error (ODS2.files (ODS2.self w)) i).
  { intros i. rewrite Hfiles, nth_error_list_set.
    destruct (Nat.ltb_spec p (List.length (ODS2.files (ODS2.self w))));
      [reflexivity | lia]. }
  clearbody w4. split.
  - intros i l Hi. rewrite Hnth in Hi. rewrite Hmfd.
    destruct (Nat.eqb_spec i p) as [-> | Hne].
    + injection Hi as <-. split.
      * destruct (String.eqb name "000000.DIR").
        -- unfold stored. intros E. injection E. lia.
        -- intros E. destruct (Hm _ E) as (fm & Hfm & _).
           apply Hold in Hfm. tauto.
      * exists o. rewrite Hposeq. auto.
    + destruct (Ht i l Hi) as (Hnm & f & Hf & Hsz & Hps).
      destruct (Hold _ _ Hf) as (Hf' & Hnf & Hns). split.
      * destruct (String.eqb name "000000.DIR"); [congruence | exact Hnm].
      * exists f. rewrite Hposeq. auto.
  - intros m Hm'. rewrite Hmfd in Hm'.
    destruct (String.eqb_spec name "000000.DIR") as [-> | Hne].
    + injection Hm' as <-. exists o. split; [exact Hfile |].
      split; [exact Hname |]. exists p, stored.
      rewrite Hposeq, Hnth, Nat.eqb_refl. auto.
    + destruct (Hm _ Hm') as (fm & Hfm & Hn & p0 & l0 & Hp0 & Hl0).
      exists fm. split; [apply Hold in Hfm; tauto |].
      split; [exact Hn |]. rewrite Hposeq.
      destruct (Nat.eqb_spec p0 p) as [-> | Hpp].
      * exists p, stored. rewrite Hnth, Nat.eqb_refl. auto.
      * exists p0, l0. rewrite Hnth.
        destruct (Nat.eqb_spec p0 p); [contradiction | auto].
Qed.

Lemma setitem_Ok {A : Type} (l l' : list A) (i : Z) (v : A) :
  setitem l i v = Ok l' ->
  exists p, position l i = Some p /\ l' = list_set l p v.
Proof.
  unfold setitem. destruct (position l i) as [p |]; intros H;
    inversion H; subst. exists p. auto.
Qed.

Lemma init_size_blocks disk offset out f out' :
  File.__init__ disk offset out = (Ok f, out') ->
  File.size f mod BLOCK_SIZE = 0.
Proof.
  intros H. apply init_well_formed in H. destruct H as [_ [H | [H _]]];
    rewrite H; [apply Z.mod_mul; discriminate | reflexivity].
Qed.

(** The scan keeps the table and the MFD reference in order. *)
Lemma scan_inv vbns : forall count w c w',
  ODS2.scan vbns count w = (Ok c, w') ->
  table_ok w -> mfd_ok w -> table_ok w' /\ mfd_ok w'.
Proof.
  induction vbns as [| vbn rest IH]; intros count w c w' H Ht Hm;
    cbn [ODS2.scan] in H.
  - inv_ok. auto.
  - apply bind_Ok in H. destruct H as (s & w1 & Hs & H).
    unfold gets in Hs. injection Hs as <- <-.
    apply bind_Ok in H. destruct H as (idx & w1 & Hd & H).
    apply deref_Ok in Hd. destruct Hd as [_ ->].
    destruct (File.get_lbn_for_vbn idx _) as [lbn |]; [| discriminate].
    apply bind_Ok in H. destruct H as (b & w1 & Hb & H).
    apply lift_Ok in Hb. destruct Hb as [_ ->].
    destruct (u8 b =? 0).
    { apply ret_Ok in H. destruct H as [_ ->]. auto. }
    apply bind_Ok in H. destruct H as (file & w1 & Hf & H).
    apply new_File_Ok in Hf. destruct Hf as (o & out1 & Ho & -> & ->).
    apply bind_Ok in H. destruct H as (o' & w2 & Hd2 & H).
    apply deref_Ok in Hd2. destruct Hd2 as [Hd2 ->].
    cbn [ODS2.heap] in Hd2.
    rewrite nth_error_app2, Nat.sub_diag in Hd2 by lia.
    injection Hd2 as <-.
    destruct (File.name o) as [name |] eqn:En; [| discriminate].
    apply bind_Ok in H. destruct H as (u & w2 & Hset & H).
    assert (Hw2 : w2 = ODS2.mkWorld
                    (if String.eqb name "000000.DIR"
                     then ODS2.set_mfd (ODS2.self w)
                            (Some (List.length (ODS2.heap w)))
                     else ODS2.self w)
                    (ODS2.heap w ++ [o]) out1).
    { destruct (String.eqb name "000000.DIR").
      - unfold ODS2.set_self, modify in Hset. injection Hset as _ <-.
        reflexivity.
      - apply ret_Ok in Hset. destruct Hset as [_ ->]. reflexivity. }
    subst w2. clear Hset.
    apply bind_Ok in H. destruct H as (stored & w3 & Hf2 & H).
    apply new_File_Ok in Hf2. destruct Hf2 as (o2 & out2 & Ho2 & -> & ->).
    cbn [ODS2.self ODS2.heap ODS2.stdout] in *.
    assert (o2 = o) by (eapply init_deterministic; eauto). subst o2.
    apply bind_Ok in H. destruct H as (fs & w3 & Hfs & H).
    unfold gets in Hfs. injection Hfs as <- <-.
    apply bind_Ok in H. destruct H as (fs' & w3 & Hfs' & H).
    apply lift_Ok in Hfs'. destruct Hfs' as [Hfs' ->].
    apply setitem_Ok in Hfs'. destruct Hfs' as (p & Hp & ->).
    apply bind_Ok in H. destruct H as (u' & w3 & Hset & H).
    unfold ODS2.set_self, modify in Hset. injection Hset as _ <-.
    cbn [ODS2.self ODS2.heap ODS2.stdout] in *.
    assert (Hfiles : ODS2.files
                       (if String.eqb name "000000.DIR"
                        then ODS2.set_mfd (ODS2.self w)
                               (Some (List.length (ODS2.heap w)))
                        else ODS2.self w) = ODS2.files (ODS2.self w))
      by (destruct (String.eqb name "000000.DIR"); reflexivity).
    rewrite Hfiles in *.
    destruct (store_step w o name p out2 Ht Hm En
                (init_size_blocks _ _ _ _ _ Ho) Hp) as [Ht' Hm'].
    rewrite length_app, <- app_assoc in H. cbn [List.length app] in H.
    rewrite Nat.add_1_r in H.
    eapply IH; eauto.
Qed.

Lemma set_self_Ok g w u w' :
  ODS2.set_self g w = (Ok u, w') ->
  w' = ODS2.mkWorld (g (ODS2.self w)) (ODS2.heap w) (ODS2.stdout w).
Proof. unfold ODS2.set_self, modify. intros H. injection H as _ <-. reflexivity. Qed.

Lemma say_Ok o w u w' :
  ODS2.say o w = (Ok u, w') ->
  w' = ODS2.mkWorld (ODS2.self w) (ODS2.heap w) (ODS2.stdout w ++ [o]).
Proof. unfold ODS2.say, zoom, print. intros H. injection H as _ <-. reflexivity. Qed.

Lemma gets_Ok {A : Type} (g : ODS2.world -> A) w a w' :
  gets g w = (Ok a, w') -> a = g w /\ w' = w.
Proof. unfold gets. intros H. injection H as <- <-. auto. Qed.

(** Run a successful stateful computation backwards, one call at a time. *)
Ltac inv_world :=
  repeat match goal with
  | H : bind _ _ _ = (Ok _, _) |- _ =>
      let a := fresh "a" in let s := fresh "w" in
      let H1 := fresh "Hrun" in
      apply bind_Ok in H; destruct H as (a & s & H1 & H)
  | H : ODS2.set_self _ _ = (Ok _, _) |- _ => apply set_self_Ok in H; subst
  | H : ODS2.say _ _ = (Ok _, _) |- _ => apply say_Ok in H; subst
  | H : gets _ _ = (Ok _, _) |- _ => apply gets_Ok in H; destruct H; subst
  | H : lift _ _ = (Ok _, _) |- _ => apply lift_Ok in H; destruct H; subst
  | H : ret _ _ = (Ok _, _) |- _ => apply ret_Ok in H; destruct H; subst
  | H : ODS2.deref _ _ = (Ok _, _) |- _ =>
      apply deref_Ok in H; destruct H; subst
  end.

Lemma read_home_block_inv w w' :
  ODS2.read_home_block w = (Ok tt, w') ->
  exists m fm,
    ODS2.mfd (ODS2.self w') = Some m /\
    nth_error (ODS2.heap w') m = Some fm /\
    File.size fm = 666 /\
    File.name fm = Some "000000.DIR"%string /\
    (exists l,
       getitem (ODS2.files (ODS2.self w'))
         (FileID.file_number (File.fid fm) - 1) = Ok (Some l)) /\
    forall i l,
      nth_error (ODS2.files (ODS2.self w')) i = Some (Some l) ->
      l <> m /\
      exists f,
        nth_error (ODS2.heap w') l = Some f /\
        File.size f mod BLOCK_SIZE = 0 /\
        File.size f <> File.size fm /\
        getitem (ODS2.files (ODS2.self w'))
          (FileID.file_number (File.fid f) - 1) = Ok (Some l).
Proof.
  unfold ODS2.read_home_block. intros H.
  repeat match goal with
  | H : bind (ODS2.scan _ _) _ _ = _ |- _ => fail 1
  | H : bind (ODS2.new_File _ _) _ _ = _ |- _ =>
      let l := fresh "l" in let s := fresh "w" in let H1 := fresh "Hnew" in
      apply bind_Ok in H; destruct H as (l & s & H1 & H)
  | H : bind (ODS2.update _ _) _ _ = _ |- _ =>
      let u := fresh "u" in let s := fresh "w" in let H1 := fresh "Hupd" in
      apply bind_Ok in H; destruct H as (u & s & H1 & H)
  | H : bind _ _ _ = (Ok _, _) |- _ =>
      let a := fresh "a" in let s := fresh "w" in
      let H1 := fresh "Hrun" in
      apply bind_Ok in H; destruct H as (a & s & H1 & H);
      first [ apply set_self_Ok in H1 | apply say_Ok in H1
            | apply gets_Ok in H1; destruct H1
            | apply lift_Ok in H1; destruct H1
            | apply deref_Ok in H1; destruct H1 ]; subst
  end.
  apply bind_Ok in H. destruct H as (count & wS & Hscan & H).
  apply scan_inv in Hscan.
  - destruct Hscan as [Ht Hm]. inv_world.
    cbn [ODS2.self ODS2.heap ODS2.stdout] in H.
    destruct (ODS2.mfd (ODS2.self wS)) as [m |] eqn:Em; [| discriminate].
    apply update_Ok in H. destruct H as (fm & Hfm & ->).
    cbn [ODS2.self ODS2.heap ODS2.stdout] in *.
    pose proof (nth_error_valid _ _ _ Hfm) as Hv.
    destruct (Hm m Em) as (fm' & Hfm' & Hname & p & l0 & Hp & Hl0).
    assert (fm' = fm) by congruence. subst fm'.
    exists m, (File.set_size fm 666).
    split; [exact Em |]. split.
    { rewrite nth_error_list_set, Nat.eqb_refl.
      destruct (Nat.ltb_spec m (List.length (ODS2.heap wS))); [reflexivity | lia]. }
    split; [reflexivity |]. split; [exact Hname |]. split.
    { exists l0. apply getitem_Ok. exists p. auto. }
    intros i k Hi. destruct (Ht i k Hi) as (Hne & f & Hf & Hsz & Hpos).
    rewrite Em in Hne. split; [congruence |].
    exists f. split.
    { rewrite nth_error_list_set.
      destruct (Nat.eqb_spec k m); [congruence | exact Hf]. }
    split; [exact Hsz |]. split.
    { cbn [File.size File.set_size]. intros E. rewrite E in Hsz.
      vm_compute in Hsz. discriminate. }
    apply getitem_Ok. exists i. auto.
  - intros i k Hi. cbn [ODS2.self ODS2.files ODS2.set_files] in Hi.
    apply nth_error_In, repeat_spec in Hi. discriminate.
  - intros m Hm. cbn [ODS2.self ODS2.mfd ODS2.set_files ODS2.set_mfd] in Hm.
    discriminate.
Qed.

(** C4, counterexample.  After the example volume is mounted, the table
    entry at index [MFD.fid.file_number - 1] is another object than the MFD:
    its size is the decoded 1024, the MFD's is the sentinel 666. *)
Lemma bootstrap_mfd_counterexample :
  exists m l fm fl,
    fst Example.mounted = Ok tt /\
    ODS2.mfd (ODS2.self (snd Example.mounted)) = Some m /\
    nth_error (ODS2.heap (snd Example.mounted)) m = Some fm /\
    getitem (ODS2.files (ODS2.self (snd Example.mounted)))
      (FileID.file_number (File.fid fm) - 1) = Ok (Some l) /\
    nth_error (ODS2.heap (snd Example.mounted)) l = Some fl /\
    l <> m /\
    File.size fm = 666 /\
    File.size fl = 1024 /\
    fl <> fm.
Proof.
  eexists. eexists. eexists. eexists.
  split; [vm_compute; reflexivity |].
  split; [vm_compute; reflexivity |].
  split; [vm_compute; reflexivity |].
  split; [vm_compute; reflexivity |].
  split; [vm_compute; reflexivity |].
  split; [discriminate |].
  split; [reflexivity |].
  split; [reflexivity |].
  intros E. apply (f_equal File.size) in E. discriminate.
Qed.

(** C4, as the code has it.  After bootstrap the MFD reference points to a
    header named [000000.DIR] whose size is the sentinel 666.  The table
    entry at index [MFD.fid.file_number - 1] is populated, but no table
    entry is the MFD object: each one is a separately decoded header whose
    size is a whole number of blocks, hence not the MFD's.  Every header in
    the table is found at index [file_number - 1] of the table. *)
Theorem bootstrap_file_table image mountpoint w0 w :
  ODS2.__init__ image mountpoint w0 = (Ok tt, w) ->
  exists m fm,
    ODS2.mfd (ODS2.self w) = Some m /\
    nth_error (ODS2.heap w) m = Some fm /\
    File.size fm = 666 /\
    File.name fm = Some "000000.DIR"%string /\
    (exists l,
       getitem (ODS2.files (ODS2.self w))
         (FileID.file_number (File.fid fm) - 1) = Ok (Some l)) /\
    forall i l,
      nth_error (ODS2.files (ODS2.self w)) i = Some (Some l) ->
      l <> m /\
      exists f,
        nth_error (ODS2.heap w) l = Some f /\
        File.size f mod BLOCK_SIZE = 0 /\
        File.size f <> File.size fm /\
        getitem (ODS2.files (ODS2.self w))
          (FileID.file_number (File.fid f) - 1) = Ok (Some l).
Proof.
  unfold ODS2.__init__. intros H.
  apply bind_Ok in H. destruct H as (u1 & w1 & _ & H).
  apply bind_Ok in H. destruct H as (u2 & w2 & _ & H).
  apply bind_Ok in H. destruct H as (u3 & w3 & _ & H).
  apply read_home_block_inv in H. exact H.
Qed.

Lemma bootstrap_file_table_witness :
  ODS2.__init__ Example.image "/mnt" ODS2.initial =
    (Ok tt, snd Example.mounted) /\
  exists m fm,
    ODS2.mfd (ODS2.self (snd Example.mounted)) = Some m /\
    nth_error (ODS2.heap (snd Example.mounted)) m = Some fm /\
    File.size fm = 666 /\
    File.name fm = Some "000000.DIR"%string /\
    (exists l,
       getitem (ODS2.files (ODS2.self (snd Example.mounted)))
         (FileID.file_number (File.fid fm) - 1) = Ok (Some l)) /\
    forall i l,
      nth_error (ODS2.files (ODS2.self (snd Example.mounted))) i =
        Some (Some l) ->
      l <> m /\
      exists f,
        nth_error (ODS2.heap (snd Example.mounted)) l = Some f /\
        File.size f mod BLOCK_SIZE = 0 /\
        File.size f <> File.size fm /\
        getitem (ODS2.files (ODS2.self (snd Example.mounted)))
          (FileID.file_number (File.fid f) - 1) = Ok (Some l).
Proof.
  assert (F : fst Example.mounted = Ok tt) by (vm_compute; reflexivity).
  assert (H : ODS2.__init__ Example.image "/mnt" ODS2.initial =
              (Ok tt, snd Example.mounted)).
  { destruct Example.mounted as [r w']. cbn [fst snd] in *.
    rewrite F. reflexivity. }
  split; [exact H |].
  exact (bootstrap_file_table _ _ _ _ H).
Defined.

(** * Further properties of the decoders and the reader *)

(** ** Bit fields as arithmetic *)

Lemma testbit_small (w n k : Z) :
  0 <= w < 2 ^ n -> n <= k -> Z.testbit w k = false.
Proof.
  intros Hw Hk. destruct (Z.eq_dec w 0) as [-> | Hne];
    [apply Z.bits_0 |].
  apply Z.bits_above_log2; [lia |].
  apply Z.lt_le_trans with n; [| exact Hk].
  apply Z.log2_lt_pow2; lia.
Qed.

(** [(b << n) | w] is [b * 2^n + w] when [w] fits in [n] bits. *)
Lemma lor_shiftl_add (b w n : Z) :
  0 <= n -> 0 <= w < 2 ^ n ->
  Z.lor (Z.shiftl b n) w = b * 2 ^ n + w.
Proof.
  intros Hn Hw.
  assert (Hland : Z.land (Z.shiftl b n) w = 0).
  { apply Z.bits_inj'. intros k Hk. rewrite Z.land_spec, Z.bits_0.
    destruct (Z.lt_ge_cases k n).
    - rewrite Z.shiftl_spec_low by lia. reflexivity.
    - rewrite (testbit_small w n k) by lia. apply andb_false_r. }
  rewrite <- Z.lxor_lor by exact Hland.
  rewrite <- Z.add_nocarry_lxor by exact Hland.
  rewrite Z.shiftl_mul_pow2 by lia. reflexivity.
Qed.

Lemma land_low_bits (x n : Z) :
  0 <= n -> Z.land x (2 ^ n - 1) = x mod 2 ^ n.
Proof.
  intros Hn. rewrite <- Z.land_ones by lia. f_equal.
  rewrite Z.ones_equiv. lia.
Qed.

Lemma le_uint_2 (a b : byte) : le_uint [a; b] = u8 a + 256 * u8 b.
Proof. cbn [le_uint]. lia. Qed.

Lemma le_uint_1 (a : byte) : le_uint [a] = u8 a.
Proof. cbn [le_uint]. lia. Qed.

(** ** FileID *)

(** X1.  Any six bytes decode: the file number is the 24-bit value made of the
    first two bytes and the sixth, the sequence number the 16-bit value of
    the third and fourth, the volume number the fifth; bytes after the
    sixth are ignored.  Fewer than six bytes raise [struct.error]. *)
Theorem fileid_decode :
  (forall b0 b1 b2 b3 b4 b5 rest,
     FileID.__init__ (b0 :: b1 :: b2 :: b3 :: b4 :: b5 :: rest) =
       Ok {| FileID.file_number := u8 b0 + 256 * u8 b1 + 65536 * u8 b5;
             FileID.sequence_number := u8 b2 + 256 * u8 b3;
             FileID.relative_volume_number := u8 b4 |}) /\
  (forall disk, FileID.__init__ (firstn 5 disk) = Raise StructError).
Proof.
  split.
  - intros b0 b1 b2 b3 b4 b5 rest. unfold FileID.__init__, unpack_from.
    change FileID.SIZE with 6. cbn [Z.ltb Z.compare].
    assert (Hlen : (len (b0 :: b1 :: b2 :: b3 :: b4 :: b5 :: rest) - 0 <? 6)
                   = false).
    { unfold len. cbn [List.length]. apply Z.ltb_ge. lia. }
    rewrite Hlen. change (Z.to_nat 6) with 6%nat.
    change (Z.to_nat 0) with 0%nat. cbn [rbind skipn firstn].
    unfold field, fieldb. cbn [skipn firstn].
    rewrite !le_uint_2, !le_uint_1.
    rewrite (lor_shiftl_add (u8 b5) (u8 b0 + 256 * u8 b1) 16)
      by (pose proof (u8_range b0); pose proof (u8_range b1); lia).
    f_equal. f_equal. lia.
  - intros disk. unfold FileID.__init__, unpack_from.
    change FileID.SIZE with 6. cbn [Z.ltb Z.compare].
    assert (Hlen : (len (firstn 5 disk) - 0 <? 6) = true).
    { unfold len. apply Z.ltb_lt. rewrite length_firstn. lia. }
    rewrite Hlen. reflexivity.
Qed.

(** ** Retrieval pointers of formats 0, 1 and 2 *)

Lemma unpack_from_middle (pre w rest : bytes) :
  unpack_from (len w) (pre ++ w ++ rest) (len pre) = Ok w.
Proof.
  unfold unpack_from. pose proof (len_nonneg pre) as Hp.
  destruct (Z.ltb_spec (len pre) 0); [lia |].
  rewrite !len_app.
  destruct (Z.ltb_spec (len pre + (len w + len rest) - len pre) (len w));
    [pose proof (len_nonneg rest); lia |].
  unfold len. rewrite !Nat2Z.id.
  rewrite skipn_app, skipn_all, Nat.sub_diag. cbn [app skipn].
  rewrite firstn_app, firstn_all, Nat.sub_diag. cbn [firstn].
  rewrite app_nil_r. reflexivity.
Qed.

Lemma getitem_middle {A : Type} (pre : list A) (a : A) (rest : list A) :
  getitem (pre ++ a :: rest) (len pre) = Ok a.
Proof.
  unfold getitem, position. pose proof (len_nonneg pre) as Hp.
  destruct (Z.ltb_spec (len pre) 0); [lia |].
  rewrite len_app. unfold len at 3. cbn [List.length].
  destruct (Z.ltb_spec (len pre) 0); [lia |].
  destruct (Z.leb_spec (len pre + Z.of_nat (S (List.length rest))) (len pre));
    [lia |].
  cbn [orb]. unfold len. rewrite Nat2Z.id.
  rewrite nth_error_app2, Nat.sub_diag by lia. reflexivity.
Qed.

Lemma V_FORMAT_of_byte (b : byte) :
  Z.shiftr (Z.land (u8 b) 192) 6 = u8 b / 64.
Proof. destruct b; reflexivity. Qed.

Lemma V_FORMAT_at_middle (pre : bytes) (b0 b1 : byte) (rest : bytes) :
  File.V_FORMAT_at (pre ++ b0 :: b1 :: rest) (len pre) = Ok (u8 b1 / 64).
Proof.
  unfold File.V_FORMAT_at.
  replace (pre ++ b0 :: b1 :: rest) with ((pre ++ [b0]) ++ b1 :: rest)
    by (rewrite <- app_assoc; reflexivity).
  replace (len pre + 1) with (len (pre ++ [b0]))
    by (rewrite len_app; reflexivity).
  rewrite getitem_middle. cbn [rbind]. rewrite V_FORMAT_of_byte.
  reflexivity.
Qed.

(** The extent a pointer adds to a header. *)
Definition with_extent (self : File.t) (lbn block_count : Z) : File.t :=
  File.set_total_block_count
    (File.set_map self (File.map self ++ [File.mkExtent lbn block_count]))
    (File.total_block_count self + block_count).

(** X2.  One pointer at any offset of the image, by the top two bits of its
    second byte.  Format 1 takes 4 bytes: the count is the first byte, the
    LBN the low six bits of the second byte above the 16-bit word that
    follows.  Format 2 advances 6 bytes but reads only 4: the count is the
    low 14 bits of the first word, the LBN the second word.  Format 0
    advances 2 bytes, adds the extent (0, 0) and prints the diagnostic. *)
Theorem retrieval_pointer_formats (self : File.t) (pre rest : bytes)
  (b0 b1 b2 b3 : byte) (out : list output) :
  let disk := pre ++ b0 :: b1 :: b2 :: b3 :: rest in
  let offset := len pre in
  (u8 b1 / 64 = 1 ->
   File.read_map_step self disk offset out =
     (Ok (with_extent self
            (u8 b1 mod 64 * 65536 + (u8 b2 + 256 * u8 b3)) (u8 b0),
          offset + 4), out)) /\
  (u8 b1 / 64 = 2 ->
   File.read_map_step self disk offset out =
     (Ok (with_extent self
            (u8 b2 + 256 * u8 b3) (u8 b0 + 256 * (u8 b1 mod 64)),
          offset + 6), out)) /\
  (u8 b1 / 64 = 0 ->
   File.read_map_step self disk offset out =
     (Ok (with_extent self 0 0, offset + 2),
      out ++ [OutFormat0Unsupported])).
Proof.
  intros disk offset.
  assert (HV : File.V_FORMAT_at disk offset = Ok (u8 b1 / 64))
    by apply V_FORMAT_at_middle.
  assert (H4 : unpack_from 4 disk offset = Ok [b0; b1; b2; b3])
    by apply (unpack_from_middle pre [b0; b1; b2; b3] rest).
  assert (H2 : unpack_from 2 disk offset = Ok [b0; b1])
    by apply (unpack_from_middle pre [b0; b1] (b2 :: b3 :: rest)).
  pose proof (u8_range b0) as R0. pose proof (u8_range b1) as R1.
  pose proof (u8_range b2) as R2. pose proof (u8_range b3) as R3.
  unfold File.read_map_step, bind, lift. rewrite HV.
  split; [| split]; intros HF; rewrite HF; unfold File.read_pointer;
    cbn [Z.eqb Pos.eqb]; unfold bind, lift, ret, print.
  - rewrite H4. unfold field, fieldb. cbn [skipn firstn].
    rewrite !le_uint_1, le_uint_2.
    change 63 with (2 ^ 6 - 1). rewrite land_low_bits by lia.
    rewrite (lor_shiftl_add (u8 b1 mod 2 ^ 6) (u8 b2 + 256 * u8 b3) 16)
      by lia.
    reflexivity.
  - rewrite H4. unfold field, fieldb. cbn [skipn firstn].
    rewrite !le_uint_2.
    change 16383 with (2 ^ 14 - 1). rewrite land_low_bits by lia.
    assert (E : (u8 b0 + 256 * u8 b1) mod 2 ^ 14 =
                u8 b0 + 256 * (u8 b1 mod 64)).
    { pose proof (Z.mod_pos_bound (u8 b1) 64 ltac:(lia)).
      pose proof (Z.div_mod (u8 b1) 64 ltac:(lia)).
      symmetry. apply (Z.mod_unique _ _ (u8 b1 / 64)); [left; lia | lia]. }
    rewrite E. reflexivity.
  - rewrite H2. reflexivity.
Qed.

Lemma retrieval_pointer_formats_witness :
  (u8 x40 / 64 = 1 /\
   File.read_map_step Example.two_extents_file [x05; x40; x34; x12] 0 [] =
     (Ok (with_extent Example.two_extents_file 4660 5, 4), [])) /\
  (u8 x80 / 64 = 2 /\
   File.read_map_step Example.two_extents_file
     [x00; x80; x78; x56; x00; x00] 0 [] =
     (Ok (with_extent Example.two_extents_file 22136 0, 6), [])) /\
  (u8 x00 / 64 = 0 /\
   File.read_map_step Example.two_extents_file [x07; x00; x00; x00] 0 [] =
     (Ok (with_extent Example.two_extents_file 0 0, 2),
      [OutFormat0Unsupported])).
Proof.
  split; [| split].
  - split; [reflexivity |].
    exact (proj1 (retrieval_pointer_formats Example.two_extents_file
                    [] [] x05 x40 x34 x12 []) eq_refl).
  - split; [reflexivity |].
    exact (proj1 (proj2 (retrieval_pointer_formats Example.two_extents_file
                           [] [x00; x00] x00 x80 x78 x56 [])) eq_refl).
  - split; [reflexivity |].
    exact (proj2 (proj2 (retrieval_pointer_formats Example.two_extents_file
                           [] [] x07 x00 x00 x00 [])) eq_refl).
Defined.

(** ** Bounds on a decoded header *)

Local Opaque Z.shiftl Z.shiftr Z.land Z.lor.

(** An extent as the map decoder can produce it. *)
Definition extent_bounded (e : File.extent) : Prop :=
  0 <= File.block_count e < 2 ^ 24 /\ 0 <= File.lbn e < 2 ^ 22.

Lemma read_pointer_bounds disk offset V out o' c l out' :
  File.read_pointer disk offset V out = (Ok (o', c, l), out') ->
  0 <= c < 2 ^ 24 /\ 0 <= l < 2 ^ 22.
Proof.
  unfold File.read_pointer.
  destruct (Z.eqb_spec V 0); [| destruct (Z.eqb_spec V 1);
    [| destruct (Z.eqb_spec V 2); [| destruct (Z.eqb_spec V 3)]]];
    intros H; inv_ok; try lia.
  - pose proof (field_nonneg a 0 1). pose proof (field_bound a 0 1).
    pose proof (field_nonneg a 2 2). pose proof (field_bound a 2 2).
    change 63 with (2 ^ 6 - 1). rewrite land_low_bits by lia.
    pose proof (Z.mod_pos_bound (field a 1 1) (2 ^ 6) ltac:(lia)).
    rewrite lor_shiftl_add by lia. lia.
  - pose proof (field_nonneg a 2 2). pose proof (field_bound a 2 2).
    change 16383 with (2 ^ 14 - 1). rewrite land_low_bits by lia.
    pose proof (Z.mod_pos_bound (field a 0 2) (2 ^ 14) ltac:(lia)). lia.
  - pose proof (field_nonneg a 0 1). pose proof (field_bound a 0 1).
    pose proof (field_nonneg a 1 1). pose proof (field_bound a 1 1).
    pose proof (field_nonneg a 2 2). pose proof (field_bound a 2 2).
    change 16383 with (2 ^ 14 - 1). rewrite land_low_bits by lia.
    rewrite Z.mod_small by lia.
    rewrite lor_shiftl_add by lia. lia.
Qed.

Local Transparent Z.shiftl Z.shiftr Z.land Z.lor.

Lemma read_map_step_bounds self disk offset out self' o' out' :
  File.read_map_step self disk offset out = (Ok (self', o'), out') ->
  exists e,
    extent_bounded e /\
    File.map self' = File.map self ++ [e] /\
    File.records self' = File.records self /\
    File.is_directory self' = File.is_directory self.
Proof.
  unfold File.read_map_step. intros H. inv_ok.
  destruct a0 as [[o c] l]. inv_ok.
  match goal with E : File.read_pointer _ _ _ _ = _ |- _ =>
    apply read_pointer_bounds in E end.
  exists (File.mkExtent l c). split; [exact Hrun0 |]. cbn. auto.
Qed.

Lemma read_map_loop_bounds fuel :
  forall self disk offset end_offset out f out',
    File.read_map_loop fuel self disk offset end_offset out = (Ok f, out') ->
    Forall extent_bounded (File.map self) ->
    Forall extent_bounded (File.map f) /\
    (List.length (File.map f) <= List.length (File.map self) + fuel)%nat /\
    File.records f = File.records self /\
    File.is_directory f = File.is_directory self.
Proof.
  induction fuel as [| fuel IH]; intros self disk offset end_offset out f out';
    cbn [File.read_map_loop]; destruct (offset <? end_offset); intros H Hb;
    try (apply ret_Ok in H; destruct H; subst; repeat split; auto; lia).
  - discriminate.
  - apply bind_Ok in H. destruct H as ([self' o'] & out1 & Hstep & H).
    cbn [fst snd] in H.
    apply read_map_step_bounds in Hstep.
    destruct Hstep as (e & He & Hmap & Hrec & Hdir).
    apply IH in H.
    + destruct H as (Hf & Hlen & Hr & Hd). rewrite Hmap, length_app in Hlen.
      cbn [List.length] in Hlen.
      split; [exact Hf |]. split; [lia |]. split; congruence.
    + rewrite Hmap. apply Forall_app. split; [exact Hb | auto].
Qed.

Lemma sum_counts_bound (m : list File.extent) :
  Forall extent_bounded m ->
  0 <= sum_counts m <= Z.of_nat (List.length m) * (2 ^ 24 - 1).
Proof.
  induction 1 as [| e m [He _] _ IH]; cbn [sum_counts fold_right List.length];
    [lia |].
  fold (sum_counts m). lia.
Qed.

(** X3.  A decoded header has at most 255 extents, each with a count below 2^24
    and an LBN below 2^22; [total_block_count] is the sum of the counts and
    stays below 255 * 2^24; [size] is [total_block_count * 512], or 512 with
    an empty map when the header has no map area; a header that is not a
    directory has no records. *)
Theorem decoded_header_invariants disk offset out f out' :
  File.__init__ disk offset out = (Ok f, out') ->
  (List.length (File.map f) <= 255)%nat /\
  Forall extent_bounded (File.map f) /\
  File.total_block_count f = sum_counts (File.map f) /\
  0 <= File.total_block_count f < 255 * 2 ^ 24 /\
  (File.size f = File.total_block_count f * BLOCK_SIZE \/
   File.size f = BLOCK_SIZE /\ File.map f = []) /\
  (File.is_directory f = false -> File.records f = []).
Proof.
  intros H. pose proof (init_well_formed _ _ _ _ _ H) as [[_ Hsum] Hsize].
  assert (Hb : (List.length (File.map f) <= 255)%nat /\
               Forall extent_bounded (File.map f) /\
               (File.is_directory f = false -> File.records f = [])).
  { unfold File.__init__ in H. inv_ok.
    set (self0 := File.mk _ _ _ _ _ _ _ _ _ _) in *.
    assert (B1 : File.map a2 = [] /\ File.records a2 = []).
    { destruct (negb (field a 0 1 =? 255)); inv_ok; [| auto].
      match goal with E : File.read_ident _ _ _ = Ok _ |- _ =>
        apply read_ident_map in E; destruct E as (Hm & _ & _ & Hr) end.
      rewrite Hm, Hr. auto. }
    destruct B1 as [M1 R1].
    assert (B2 : (List.length (File.map a3) <= 255)%nat /\
                 Forall extent_bounded (File.map a3) /\
                 File.records a3 = []).
    { destruct (negb (field a 1 1 =? 255)); inv_ok.
      - unfold File.read_map in *. inv_ok.
        assert (HB : Forall extent_bounded (File.map a2))
          by (rewrite M1; constructor).
        match goal with E : File.read_map_loop _ _ _ _ _ _ = _ |- _ =>
          destruct (read_map_loop_bounds _ _ _ _ _ _ _ _ E HB)
            as (Hf & Hlen & Hr & _)
        end.
        cbn [File.map File.records File.set_size].
        rewrite M1 in Hlen. cbn [List.length] in Hlen.
        pose proof (field_bound a 58 1). pose proof (field_nonneg a 58 1).
        repeat split; [lia | exact Hf | congruence].
      - rewrite M1. repeat split; [cbn; lia | constructor | exact R1]. }
    destruct B2 as (L2 & F2 & R2).
    destruct (File.is_directory a3) eqn:Ed; inv_ok.
    - unfold File.read_directory_records in *. inv_ok.
      cbn [File.map File.records File.is_directory File.set_records].
      rewrite Ed. repeat split; auto. discriminate.
    - repeat split; auto. }
  destruct Hb as (Hlen & Hf & Hrec).
  pose proof (sum_counts_bound _ Hf).
  repeat split; auto; try lia.
Qed.

Lemma decoded_header_invariants_witness :
  File.__init__ Example.two_extents 0 [] = (Ok Example.two_extents_file, []) /\
  (List.length (File.map Example.two_extents_file) <= 255)%nat /\
  Forall extent_bounded (File.map Example.two_extents_file) /\
  File.total_block_count Example.two_extents_file =
    sum_counts (File.map Example.two_extents_file) /\
  0 <= File.total_block_count Example.two_extents_file < 255 * 2 ^ 24 /\
  (File.size Example.two_extents_file =
     File.total_block_count Example.two_extents_file * BLOCK_SIZE \/
   File.size Example.two_extents_file = BLOCK_SIZE /\
   File.map Example.two_extents_file = []) /\
  (File.is_directory Example.two_extents_file = false ->
   File.records Example.two_extents_file = []).
Proof.
  assert (H : File.__init__ Example.two_extents 0 [] =
              (Ok Example.two_extents_file, []))
    by (vm_compute; reflexivity).
  split; [exact H |].
  exact (decoded_header_invariants _ _ _ _ _ H).
Defined.

(** ** The index file after its first three extents are dropped *)

Lemma lookup_shift (m : list File.extent) (d : Z) : forall v base,
  File.lookup m (v + d) (base + d) = File.lookup m v base.
Proof.
  induction m as [| e m IH]; intros v base; cbn [File.lookup];
    [reflexivity |].
  unfold in_range.
  replace (base + d <=? v + d) with (base <=? v)
    by (destruct (Z.leb_spec base v); destruct (Z.leb_spec (base + d) (v + d));
        lia || reflexivity).
  replace (v + d <? base + d + File.block_count e)
    with (v <? base + File.block_count e)
    by (destruct (Z.ltb_spec v (base + File.block_count e));
        destruct (Z.ltb_spec (v + d) (base + d + File.block_count e));
        lia || reflexivity).
  destruct ((base <=? v) && (v <? base + File.block_count e)).
  - do 2 f_equal. lia.
  - replace (base + d + File.block_count e)
      with (base + File.block_count e + d) by lia.
    apply IH.
Qed.

Lemma lookup_past_prefix (pre m : list File.extent) :
  Forall (fun e => 0 <= File.block_count e) pre ->
  forall v base,
    base + sum_counts pre <= v ->
    File.lookup (pre ++ m) v base = File.lookup m v (base + sum_counts pre).
Proof.
  induction 1 as [| e pre He Hpre IH]; intros v base Hv;
    cbn [app File.lookup sum_counts fold_right] in *.
  - rewrite Z.add_0_r. reflexivity.
  - fold (sum_counts pre) in *.
    pose proof (sum_counts_nonneg pre Hpre).
    unfold in_range.
    destruct (Z.ltb_spec v (base + File.block_count e)); [lia |].
    rewrite andb_false_r. rewrite IH by lia. f_equal. lia.
Qed.

(** X4.  Dropping the first three extents of a decoded header renumbers its
    blocks: VBN [v >= 1] of the trimmed file is VBN [v + s] of the original,
    where [s] is the block count of the dropped extents, and
    [total_block_count] goes down by [s]. *)
Theorem skip_clusters_lookup disk offset out f out' v :
  File.__init__ disk offset out = (Ok f, out') ->
  1 <= v ->
  let s := sum_counts (firstn 3 (File.map f)) in
  File.get_lbn_for_vbn (ODS2.skip_clusters f) v =
    File.get_lbn_for_vbn f (v + s) /\
  File.total_block_count (ODS2.skip_clusters f) =
    File.total_block_count f - s.
Proof.
  intros H Hv s. apply init_well_formed in H. destruct H as [[Hm _] _].
  unfold File.get_lbn_for_vbn, ODS2.skip_clusters.
  destruct f as [? ? ? ? ? ? m t ? ?].
  cbn [File.map File.total_block_count File.set_map
       File.set_total_block_count] in *.
  rewrite slice_from_0, slice_to_end, fold_left_counts by lia.
  change (Z.to_nat 3) with 3%nat. fold s. split; [| reflexivity].
  rewrite <- (firstn_skipn 3 m) at 2.
  rewrite <- (firstn_skipn 3 m) in Hm. apply Forall_app in Hm.
  rewrite lookup_past_prefix by (tauto || (fold s; lia)).
  fold s. replace (v + s - 1) with (v - 1 + s) by lia.
  symmetry. apply (lookup_shift (skipn 3 m) s (v - 1) 0).
Qed.

Lemma skip_clusters_lookup_witness :
  exists f,
    File.__init__ Example.image 1536 [] = (Ok f, []) /\
    1 <= 2 /\
    File.get_lbn_for_vbn (ODS2.skip_clusters f) 2 = Some 4 /\
    File.get_lbn_for_vbn f (2 + 3) = Some 4 /\
    File.total_block_count (ODS2.skip_clusters f) = 4.
Proof.
  eexists.
  assert (H : File.__init__ Example.image 1536 [] =
              (Ok (File.mk (FileID.mk 9 1 0) (FileID.mk 0 1 0) false
                     (VMStoUNIX 0) (VMStoUNIX 0) (Some "INDEXF.SYS"%string)
                     [File.mkExtent 0 1; File.mkExtent 1 1;
                      File.mkExtent 2 1; File.mkExtent 3 4] 7 3584 []), []))
    by (vm_compute; reflexivity).
  assert (Hv : 1 <= 2) by lia.
  destruct (skip_clusters_lookup _ _ _ _ _ 2 H Hv) as [Hl Ht].
  split; [exact H |]. split; [exact Hv |].
  split; [rewrite Hl; reflexivity |].
  split; [reflexivity |]. rewrite Ht. reflexivity.
Defined.

(** ** The records of a directory *)

Lemma unpack_from_window n buf offset w :
  unpack_from n buf offset = Ok w ->
  w = firstn (Z.to_nat n)
        (skipn (Z.to_nat (if offset <? 0 then offset + len buf else offset))
           buf).
Proof.
  unfold unpack_from. destruct (offset <? 0).
  - destruct (0 <? offset + n); [discriminate |].
    destruct (offset + len buf <? 0); [discriminate |].
    destruct (len buf - (offset + len buf) <? n); [discriminate |].
    intros H. injection H as <-. reflexivity.
  - destruct (len buf - offset <? n); [discriminate |].
    intros H. injection H as <-. reflexivity.
Qed.

(** A header decoded by [File.__init__] is either left without records or
    got them from [read_blocks], started with none. *)
Lemma init_records disk offset out f out' :
  File.__init__ disk offset out = (Ok f, out') ->
  File.records f = [] \/
  exists self,
    File.map self = File.map f /\
    File.total_block_count self = File.total_block_count f /\
    File.read_blocks self disk (File.directory_vbns self) [] =
      Ok (File.records f).
Proof.
  intros H. unfold File.__init__ in H. inv_ok.
  set (self0 := File.mk _ _ _ _ _ _ _ _ _ _) in *.
  assert (R1 : File.records a2 = [] /\ File.map a2 = []).
  { destruct (negb (field a 0 1 =? 255)); inv_ok; [| auto].
    match goal with E : File.read_ident _ _ _ = Ok _ |- _ =>
      apply read_ident_map in E; destruct E as (Hm & _ & _ & Hr) end.
    rewrite Hr, Hm. auto. }
  destruct R1 as [R1 M1].
  assert (R2 : File.records a3 = []).
  { destruct (negb (field a 1 1 =? 255)); inv_ok; [| exact R1].
    unfold File.read_map in *. inv_ok.
    assert (HB : Forall extent_bounded (File.map a2))
      by (rewrite M1; constructor).
    match goal with E : File.read_map_loop _ _ _ _ _ _ = _ |- _ =>
      destruct (read_map_loop_bounds _ _ _ _ _ _ _ _ E HB)
        as (_ & _ & Hr & _)
    end.
    cbn [File.records File.set_size]. congruence. }
  destruct (File.is_directory a3); inv_ok; [| left; exact R2].
  right. unfold File.read_directory_records in *. inv_ok.
  exists a3. cbn [File.map File.total_block_count File.records
                  File.set_records].
  rewrite R2 in *. auto.
Qed.

(** What holds of every record the block scan accepts. *)
Definition record_bounded (r : DirectoryRecord.t) : Prop :=
  2 <= DirectoryRecord.size r <= 32769 /\
  (List.length (DirectoryRecord.entries r) <= 4096)%nat.

Lemma accepted_record_bounded disk offset w r :
  unpack_from 2 disk offset = Ok w ->
  0 <= to_int16 (field w 0 2) ->
  DirectoryRecord.__init__ disk offset = Ok r ->
  record_bounded r.
Proof.
  intros Hw Hpos H. unfold DirectoryRecord.__init__ in H.
  change DirectoryRecord.HEADER_SIZE with 6 in H.
  apply rbind_Ok in H. destruct H as (w6 & Hw6 & H).
  apply rbind_Ok in H. destruct H as (name & _ & H).
  apply rbind_Ok in H. destruct H as (es & Hes & H).
  injection H as <-.
  apply unpack_from_window in Hw, Hw6.
  assert (E : field w6 0 2 = field w 0 2).
  { subst w w6. unfold field, fieldb. cbn [skipn].
    change (Z.to_nat 6) with 6%nat. change (Z.to_nat 2) with 2%nat.
    rewrite !firstn_firstn. reflexivity. }
  pose proof (field_nonneg w 0 2). pose proof (field_bound w 0 2).
  pose proof (field_nonneg w6 5 1).
  assert (field w 0 2 < 32768).
  { unfold to_int16 in Hpos.
    destruct (Z.ltb_spec (field w 0 2) 32768); lia. }
  apply read_entries_spec in Hes. destruct Hes as (es' & -> & Hlen & _).
  unfold record_bounded.
  cbn [DirectoryRecord.size DirectoryRecord.entries app].
  rewrite E, Hlen. split; [lia |].
  unfold DirectoryRecord.entries_count. change DirectoryEntry.SIZE with 8.
  rewrite E.
  destruct (Z.le_gt_cases 0 (field w 0 2 + 2 - field w6 5 1)).
  - rewrite Z.quot_div_nonneg by lia.
    assert ((field w 0 2 + 2 - field w6 5 1) / 8 < 4097)
      by (apply Z.div_lt_upper_bound; lia).
    lia.
  - assert (Z.quot (field w 0 2 + 2 - field w6 5 1) 8 <= 0)
      by (apply Z.quot_le_upper_bound; lia).
    lia.
Qed.

Lemma read_block_records_bound n : forall disk offset records rs,
  File.read_block_records n disk offset records = Ok rs ->
  exists new,
    rs = records ++ new /\
    (List.length new <= n)%nat /\
    Forall record_bounded new.
Proof.
  induction n as [| n IH]; intros disk offset records rs H;
    cbn [File.read_block_records] in H.
  - injection H as <-. exists []. rewrite app_nil_r. auto.
  - apply rbind_Ok in H. destruct H as (w & Hw & H).
    destruct (Z.ltb_spec (to_int16 (field w 0 2)) 0).
    + injection H as <-. exists []. rewrite app_nil_r.
      repeat split; [cbn; lia | constructor].
    + apply rbind_Ok in H. destruct H as (r & Hr & H).
      apply IH in H. destruct H as (new & -> & Hlen & Hall).
      exists (r :: new). rewrite <- app_assoc. repeat split.
      * cbn [List.length]. lia.
      * constructor; [| exact Hall].
        eapply accepted_record_bounded; eauto.
Qed.

Lemma read_blocks_bound self disk : forall vbns records rs,
  File.read_blocks self disk vbns records = Ok rs ->
  exists new,
    rs = records ++ new /\
    (List.length new <= 62 * List.length vbns)%nat /\
    Forall record_bounded new.
Proof.
  induction vbns as [| vbn rest IH]; intros records rs H;
    cbn [File.read_blocks] in H.
  - injection H as <-. exists []. rewrite app_nil_r. auto.
  - destruct (File.get_lbn_for_vbn self vbn) as [lbn |]; [| discriminate].
    apply rbind_Ok in H. destruct H as (rs1 & H1 & H).
    apply read_block_records_bound in H1.
    destruct H1 as (new1 & -> & Hlen1 & Hall1).
    apply IH in H. destruct H as (new2 & -> & Hlen2 & Hall2).
    exists (new1 ++ new2). rewrite <- app_assoc. repeat split.
    + rewrite length_app. cbn [List.length]. lia.
    + apply Forall_app. auto.
Qed.

Lemma length_range (a b : Z) : List.length (range a b) = Z.to_nat (b - a).
Proof. unfold range. rewrite length_map, length_seq. reflexivity. Qed.

(** X5.  A decoded header holds at most 62 records for each of its blocks but
    the last; every record has a size between 2 and 32769 (its [W_SIZE] is
    not negative as a signed 16-bit value) and at most 4096 entries. *)
Theorem directory_records_bound disk offset out f out' :
  File.__init__ disk offset out = (Ok f, out') ->
  (List.length (File.records f) <=
     62 * Z.to_nat (File.total_block_count f - 1))%nat /\
  Forall record_bounded (File.records f).
Proof.
  intros H. apply init_records in H.
  destruct H as [-> | (self & Hm & Ht & H)].
  - split; [cbn; lia | constructor].
  - apply read_blocks_bound in H. destruct H as (new & Hr & Hlen & Hall).
    cbn [app] in Hr. subst new.
    unfold File.directory_vbns in Hlen. rewrite length_range, Ht in Hlen.
    auto.
Qed.

Lemma directory_records_bound_witness :
  exists f,
    File.__init__ Example.image 2048 [] = (Ok f, []) /\
    File.total_block_count f = 2 /\
    List.length (File.records f) = 3%nat /\
    (List.length (File.records f) <=
       62 * Z.to_nat (File.total_block_count f - 1))%nat /\
    Forall record_bounded (File.records f).
Proof.
  eexists.
  assert (H : File.__init__ Example.image 2048 [] =
              (Ok (File.mk (FileID.mk 1 1 0) (FileID.mk 0 1 0) true
                     (VMStoUNIX 0) (VMStoUNIX 0) (Some "000000.DIR"%string)
                     [File.mkExtent 7 2] 2 1024
                     [DirectoryRecord.mk 24 "000000.DIR"
                        [DirectoryEntry.mk (FileID.mk 1 1 0)];
                      DirectoryRecord.mk 22 "FOO.TXT"
                        [DirectoryEntry.mk (FileID.mk 2 1 0)];
                      DirectoryRecord.mk 24 "EMPTY.DAT"
                        [DirectoryEntry.mk (FileID.mk 3 1 0)]]), []))
    by (vm_compute; reflexivity).
  split; [exact H |]. split; [reflexivity |]. split; [reflexivity |].
  exact (directory_records_bound _ _ _ _ _ H).
Defined.

(** ** A directory block of zeros *)

(** The record the decoder makes of six zero bytes. *)
Definition blank_record : DirectoryRecord.t := DirectoryRecord.mk 2 "" [].

Lemma slice_empty {A : Type} (l : list A) (a : Z) : slice l a (a + 0) = [].
Proof. unfold slice. rewrite Z.add_0_r, Nat.sub_diag. reflexivity. Qed.

Lemma zero_record (pre rest : bytes) :
  DirectoryRecord.__init__ (pre ++ repeat x00 6 ++ rest) (len pre) =
    Ok blank_record.
Proof.
  unfold DirectoryRecord.__init__. change DirectoryRecord.HEADER_SIZE with 6.
  pose proof (unpack_from_middle pre (repeat x00 6) rest) as U.
  change (len (repeat x00 6)) with 6 in U. rewrite U. cbn [rbind].
  change (field (repeat x00 6) 0 2) with 0.
  change (field (repeat x00 6) 5 1) with 0.
  rewrite slice_empty. reflexivity.
Qed.

Lemma zero_block_records_n n : forall pre m rest records,
  (2 * n + 4 <= m)%nat ->
  File.read_block_records n (pre ++ repeat x00 m ++ rest) (len pre) records =
    Ok (records ++ repeat blank_record n).
Proof.
  induction n as [| n IH]; intros pre m rest records Hm;
    cbn [File.read_block_records repeat].
  - rewrite app_nil_r. reflexivity.
  - assert (E2 : pre ++ repeat x00 m ++ rest =
                 pre ++ [x00; x00] ++ (repeat x00 (m - 2) ++ rest)).
    { replace m with (2 + (m - 2))%nat at 1 by lia.
      rewrite repeat_app, <- app_assoc. reflexivity. }
    assert (E6 : pre ++ repeat x00 m ++ rest =
                 pre ++ repeat x00 6 ++ (repeat x00 (m - 6) ++ rest)).
    { replace m with (6 + (m - 6))%nat at 1 by lia.
      rewrite repeat_app, <- app_assoc. reflexivity. }
    pose proof (unpack_from_middle pre [x00; x00]
                  (repeat x00 (m - 2) ++ rest)) as U.
    change (len [x00; x00]) with 2 in U.
    rewrite E2 at 1. rewrite U. cbn [rbind]. change (to_int16 (field [x00; x00] 0 2) <? 0) with false.
    cbv iota. rewrite E6 at 1. rewrite zero_record. cbn [rbind].
    change (DirectoryRecord.size blank_record) with 2.
    replace (len pre + 2) with (len (pre ++ [x00; x00]))
      by (rewrite len_app; reflexivity).
    replace (pre ++ repeat x00 m ++ rest)
      with ((pre ++ [x00; x00]) ++ repeat x00 (m - 2) ++ rest)
      by (rewrite E2, <- app_assoc; reflexivity).
    rewrite IH by lia. rewrite <- app_assoc. reflexivity.
Qed.

(** X6.  Wherever the image holds 128 zero bytes, the scan of a directory block
    that starts there yields 62 records, each of size 2 with an empty name
    and no entries: a zero [W_SIZE] is not the end-of-block mark. *)
Theorem zero_block_records (pre rest : bytes) (extra : nat)
  (records : list DirectoryRecord.t) :
  File.read_block_records 62 (pre ++ repeat x00 (128 + extra) ++ rest)
    (len pre) records =
    Ok (records ++ repeat blank_record 62).
Proof. apply zero_block_records_n. lia. Qed.

(** ** Listing a directory that has a record without entries *)

Lemma collect_entryless rc (rs : list DirectoryRecord.t) :
  Exists (fun r => DirectoryRecord.entries r = []) rs ->
  forall dirents, ODS2.collect rc rs dirents = Raise IndexError.
Proof.
  induction rs as [| r rs IH]; intros Hex dirents;
    [inversion Hex |].
  cbn [ODS2.collect].
  destruct (DirectoryRecord.entries r) as [| e es] eqn:Er; [reflexivity |].
  rewrite getitem_first. cbn [rbind].
  assert (Hrs : Exists (fun r => DirectoryRecord.entries r = []) rs)
    by (inversion Hex; subst; [congruence | assumption]).
  destruct (_ <=? _); apply IH; exact Hrs.
Qed.

(** The volume of [Example.image] with an empty header slot after the MFD's
    header and a directory block of zeros. *)
Definition blank_directory_image : bytes :=
  Example.zeros 512 ++
  Example.home_block 2 1 1 ++
  Example.zeros 512 ++
  Example.header 9 0 "INDEXF.SYS;1"
    (Example.pointer1 1 0 ++ Example.pointer1 1 1 ++ Example.pointer1 1 2 ++
     Example.pointer1 4 3) ++
  Example.header 1 8192 "000000.DIR;1" (Example.pointer1 2 7) ++
  Example.zeros 512 ++
  Example.zeros 512 ++
  Example.zeros 512.

(** X7.  When the path resolves to a file one of whose records has no entries,
    [readdir] raises [IndexError] and yields no name at all, not even [.]
    and [..]. *)
Theorem readdir_entryless path w l f :
  fst (ODS2.get_file_by_path path w) = Ok (Some l) ->
  nth_error (ODS2.heap w) l = Some f ->
  Exists (fun r => DirectoryRecord.entries r = []) (File.records f) ->
  ODS2.readdir path w = (Raise IndexError, w).
Proof.
  intros Hp Hl Hex. unfold ODS2.readdir, bind.
  pose proof (pure_get_file_by_path path w) as Hw.
  destruct (ODS2.get_file_by_path path w) as [r w']. simpl in Hp, Hw.
  subst. unfold ODS2.deref. rewrite Hl. unfold gets, lift.
  rewrite (collect_entryless _ _ Hex). reflexivity.
Qed.

Lemma readdir_entryless_witness :
  fst (ODS2.__init__ blank_directory_image "/mnt" ODS2.initial) = Ok tt /\
  fst (ODS2.get_file_by_path "/"
         (snd (ODS2.__init__ blank_directory_image "/mnt" ODS2.initial))) =
    Ok (Some 1%nat) /\
  ODS2.readdir "/"
    (snd (ODS2.__init__ blank_directory_image "/mnt" ODS2.initial)) =
    (Raise IndexError,
     snd (ODS2.__init__ blank_directory_image "/mnt" ODS2.initial)).
Proof.
  split; [vm_compute; reflexivity |].
  assert (H : fst (ODS2.get_file_by_path "/"
                (snd (ODS2.__init__ blank_directory_image "/mnt"
                        ODS2.initial))) = Ok (Some 1%nat))
    by (vm_compute; reflexivity).
  split; [exact H |].
  assert (F : exists f,
            nth_error (ODS2.heap (snd (ODS2.__init__ blank_directory_image
                                         "/mnt" ODS2.initial))) 1 = Some f /\
            Exists (fun r => DirectoryRecord.entries r = [])
              (File.records f)).
  { eexists. split; [vm_compute; reflexivity |].
    cbn [File.records]. apply Exists_cons_hd. reflexivity. }
  destruct F as (f & Hf & Hex).
  exact (readdir_entryless "/"%string _ 1%nat f H Hf Hex).
Defined.

(** ** What a read returns *)

(** The bytes of VBN [v] of [f]: the block the map points to, cut where the
    image ends. *)
Definition block_bytes (disk : bytes) (f : File.t) (v : Z) : bytes :=
  match File.get_lbn_for_vbn f v with
  | Some lbn => slice disk (lbn * BLOCK_SIZE) (lbn * BLOCK_SIZE + BLOCK_SIZE)
  | None => []
  end.

(** [end_offset] as [read] clamps it. *)
Definition clamped_end (f : File.t) (length offset : Z) : Z :=
  if File.size f <? offset + length then File.size f else offset + length.

(** The VBNs [read] goes through. *)
Definition read_vbns (f : File.t) (length offset : Z) : list Z :=
  let first := offset / BLOCK_SIZE + 1 in
  range first
    (first + Z.of_nat (ODS2.read_fuel offset (clamped_end f length offset))).

Lemma slice_block_length {A : Type} (l : list A) (a : Z) :
  len (slice l a (a + 512)) <= 512.
Proof.
  unfold slice, len. rewrite length_firstn.
  assert ((clamp l (a + 512) - clamp l a <= 512)%nat); [| lia].
  unfold clamp. pose proof (len_nonneg l).
  destruct (Z.ltb_spec (a + 512) 0); destruct (Z.ltb_spec a 0); lia.
Qed.

Lemma rbind_ret {A : Type} (c : result A) : rbind c (fun r => Ok r) = c.
Proof. destruct c; reflexivity. Qed.

(** The loop only ever appends to [data]. *)
Lemma read_loop_acc disk f end_offset fuel : forall data data_offset offset,
  len data <= data_offset ->
  ODS2.read_loop fuel disk f end_offset data data_offset offset =
    (r <~ ODS2.read_loop fuel disk f end_offset [] 0 offset ;;
     Ok (data ++ r)).
Proof.
  induction fuel as [| fuel IH]; intros data data_offset offset Hd;
    cbn [ODS2.read_loop]; destruct (offset <? end_offset);
    try reflexivity; try (cbn [rbind]; rewrite app_nil_r; reflexivity).
  destruct (File.get_lbn_for_vbn f _) as [lbn |]; [| reflexivity].
  unfold BLOCK_SIZE.
  pose proof (slice_block_length disk (lbn * 512)) as Hs.
  rewrite (setslice_at_end data) by lia.
  rewrite (setslice_at_end []) by (change (len []) with 0; lia).
  cbn [app].
  rewrite (IH (data ++ _) (data_offset + 512)) by (rewrite len_app; lia).
  rewrite (IH (slice disk _ _) (0 + 512)) by lia.
  destruct (ODS2.read_loop fuel disk f end_offset [] 0 (offset + 512));
    cbn [rbind]; try reflexivity.
  rewrite app_assoc. reflexivity.
Qed.

Lemma read_fuel_done offset end_offset :
  end_offset <= offset -> ODS2.read_fuel offset end_offset = O.
Proof.
  intros H. unfold ODS2.read_fuel, BLOCK_SIZE.
  assert ((end_offset - offset + (512 - 1)) / 512 <= 0)
    by (apply Z.lt_succ_r; apply Z.div_lt_upper_bound; lia).
  lia.
Qed.

Lemma read_fuel_step offset end_offset :
  offset < end_offset ->
  ODS2.read_fuel offset end_offset =
    S (ODS2.read_fuel (offset + BLOCK_SIZE) end_offset).
Proof.
  intros H. unfold ODS2.read_fuel, BLOCK_SIZE.
  replace (end_offset - offset + (512 - 1))
    with (end_offset - (offset + 512) + (512 - 1) + 1 * 512) by lia.
  rewrite Z.div_add by lia.
  assert (0 <= (end_offset - (offset + 512) + (512 - 1)) / 512)
    by (apply Z.div_pos; lia).
  lia.
Qed.

Lemma quot_aligned offset :
  offset mod BLOCK_SIZE = 0 -> Z.quot offset BLOCK_SIZE = offset / BLOCK_SIZE.
Proof.
  unfold BLOCK_SIZE. intros H.
  assert (E : offset = offset / 512 * 512)
    by (pose proof (Z.div_mod offset 512 ltac:(lia)); lia).
  rewrite E at 1. apply Z.quot_mul. lia.
Qed.

Lemma range_cons (a : Z) (n : nat) :
  range a (a + Z.of_nat (S n)) = a :: range (a + 1) (a + 1 + Z.of_nat n).
Proof.
  unfold range.
  replace (Z.to_nat (a + Z.of_nat (S n) - a)) with (S n) by lia.
  replace (Z.to_nat (a + 1 + Z.of_nat n - (a + 1))) with n by lia.
  cbn [seq List.map]. f_equal; [lia |].
  rewrite <- seq_shift, map_map. apply map_ext. intros k. lia.
Qed.

Lemma read_loop_content disk f end_offset : forall n offset,
  offset mod BLOCK_SIZE = 0 ->
  n = ODS2.read_fuel offset end_offset ->
  (forall v,
     In v (range (offset / BLOCK_SIZE + 1)
             (offset / BLOCK_SIZE + 1 + Z.of_nat n)) ->
     File.get_lbn_for_vbn f v <> None) ->
  ODS2.read_loop n disk f end_offset [] 0 offset =
    Ok (List.concat
          (List.map (block_bytes disk f)
             (range (offset / BLOCK_SIZE + 1)
                (offset / BLOCK_SIZE + 1 + Z.of_nat n)))).
Proof.
  induction n as [| n IH]; intros offset Hal Hn Hmap;
    cbn [ODS2.read_loop]; destruct (Z.ltb_spec offset end_offset).
  - rewrite read_fuel_step in Hn by assumption. discriminate.
  - unfold range. rewrite Z.add_0_r, Z.sub_diag. reflexivity.
  - rewrite read_fuel_step in Hn by assumption. injection Hn as Hn.
    rewrite quot_aligned by assumption.
    rewrite range_cons in *.
    assert (Hv : File.get_lbn_for_vbn f (offset / BLOCK_SIZE + 1) <> None)
      by (apply Hmap; left; reflexivity).
    cbn [List.map List.concat]. unfold block_bytes at 1.
    destruct (File.get_lbn_for_vbn f (offset / BLOCK_SIZE + 1)) as [lbn |];
      [| congruence].
    rewrite (setslice_at_end []) by (change (len []) with 0;
                                     unfold BLOCK_SIZE; lia).
    cbn [app].
    rewrite read_loop_acc
      by (unfold BLOCK_SIZE; pose proof (slice_block_length disk (lbn * 512));
          lia).
    assert (Ediv : (offset + BLOCK_SIZE) / BLOCK_SIZE =
                   offset / BLOCK_SIZE + 1).
    { unfold BLOCK_SIZE.
      replace (offset + 512) with (offset + 1 * 512) by lia.
      apply Z.div_add. lia. }
    rewrite (IH (offset + BLOCK_SIZE)).
    + rewrite Ediv. reflexivity.
    + rewrite <- Zplus_mod_idemp_l, Hal. reflexivity.
    + exact Hn.
    + rewrite Ediv. intros v Hv'. apply Hmap. right. exact Hv'.
  - rewrite read_fuel_done in Hn by assumption. discriminate.
Qed.

(** [read] at an aligned offset, by what the path resolves to. *)
Lemma read_aligned path length offset w :
  offset mod BLOCK_SIZE = 0 ->
  fst (ODS2.read path length offset w) =
    match fst (ODS2.get_file_by_path path w) with
    | Ok None => Ok []
    | Ok (Some l) =>
        match nth_error (ODS2.heap w) l with
        | Some f =>
            ODS2.read_loop
              (ODS2.read_fuel offset (clamped_end f length offset))
              (ODS2.disk (ODS2.self w)) f (clamped_end f length offset)
              [] 0 offset
        | None => Stuck
        end
    | Raise e => Raise e
    | Stuck => Stuck
    end.
Proof.
  intros Hal. unfold ODS2.read. rewrite Hal. cbn [Z.eqb negb].
  unfold bind. pose proof (pure_get_file_by_path path w) as Hw.
  destruct (ODS2.get_file_by_path path w) as [[[l |] | e |] w'];
    cbn [fst snd] in *; subst; try reflexivity.
  unfold ODS2.deref. destruct (nth_error (ODS2.heap w) l); reflexivity.
Qed.

(** X8.  A read at an aligned offset of a file whose blocks in reach are all
    mapped returns, in order, the image's bytes of each block from the one
    that holds [offset] to the one that holds the last byte before
    [min(offset + length, size)]. *)
Theorem read_content path length offset w l f :
  fst (ODS2.get_file_by_path path w) = Ok (Some l) ->
  nth_error (ODS2.heap w) l = Some f ->
  offset mod BLOCK_SIZE = 0 ->
  (forall v, In v (read_vbns f length offset) ->
             File.get_lbn_for_vbn f v <> None) ->
  ODS2.read path length offset w =
    (Ok (List.concat (List.map (block_bytes (ODS2.disk (ODS2.self w)) f)
                   (read_vbns f length offset))), w).
Proof.
  intros Hp Hl Hal Hmap.
  pose proof (read_aligned path length offset w Hal) as H.
  rewrite Hp, Hl in H.
  rewrite (read_loop_content _ _ _ _ offset Hal eq_refl Hmap) in H.
  pose proof (preserves_read path length offset w) as Hv.
  assert (Hw : snd (ODS2.read path length offset w) = w).
  { unfold ODS2.read. rewrite Hal. cbn [Z.eqb negb].
    assert (P : pure (file <- ODS2.get_file_by_path path ;;
                      match file with
                      | None => ret []
                      | Some l =>
                          f <- ODS2.deref l ;;
                          disk <- gets (fun w => ODS2.disk (ODS2.self w)) ;;
                          lift (ODS2.read_loop
                                  (ODS2.read_fuel offset
                                     (if File.size f <? offset + length
                                      then File.size f else offset + length))
                                  disk f
                                  (if File.size f <? offset + length
                                   then File.size f else offset + length)
                                  [] 0 offset)
                      end)) by frame.
    apply P. }
  destruct (ODS2.read path length offset w) as [r w'].
  cbn [fst snd] in *. subst. reflexivity.
Qed.

Lemma read_content_witness :
  exists f,
    fst (ODS2.get_file_by_path "/000000.DIR" (snd Example.mounted)) =
      Ok (Some 2%nat) /\
    nth_error (ODS2.heap (snd Example.mounted)) 2 = Some f /\
    512 mod BLOCK_SIZE = 0 /\
    read_vbns f 5000 512 = [2] /\
    ODS2.read "/000000.DIR" 5000 512 (snd Example.mounted) =
      (Ok (repeat "A"%byte 512), snd Example.mounted).
Proof.
  eexists.
  assert (H1 : fst (ODS2.get_file_by_path "/000000.DIR"
                      (snd Example.mounted)) = Ok (Some 2%nat))
    by (vm_compute; reflexivity).
  assert (H2 : nth_error (ODS2.heap (snd Example.mounted)) 2 =
               Some (File.mk (FileID.mk 1 1 0) (FileID.mk 0 1 0) true
                       (VMStoUNIX 0) (VMStoUNIX 0)
                       (Some "000000.DIR"%string)
                       [File.mkExtent 7 2] 2 1024
                       [DirectoryRecord.mk 24 "000000.DIR"
                          [DirectoryEntry.mk (FileID.mk 1 1 0)];
                        DirectoryRecord.mk 22 "FOO.TXT"
                          [DirectoryEntry.mk (FileID.mk 2 1 0)];
                        DirectoryRecord.mk 24 "EMPTY.DAT"
                          [DirectoryEntry.mk (FileID.mk 3 1 0)]]))
    by (vm_compute; reflexivity).
  assert (H3 : 512 mod BLOCK_SIZE = 0) by reflexivity.
  split; [exact H1 |]. split; [exact H2 |]. split; [reflexivity |].
  split; [vm_compute; reflexivity |].
  match type of H2 with _ = Some ?f =>
    assert (Hmap : forall v, In v (read_vbns f 5000 512) ->
                             File.get_lbn_for_vbn f v <> None)
  end.
  { intros v Hv. vm_compute in Hv. destruct Hv as [<- | []].
    vm_compute. discriminate. }
  pose proof (read_content "/000000.DIR" 5000 512 (snd Example.mounted)
                2%nat _ H1 H2 H3 Hmap) as R.
  etransitivity; [exact R |].
  apply (f_equal (fun d : bytes => (Ok d, snd Example.mounted))).
  vm_compute. reflexivity.
Defined.

(** ** Reads that return nothing, and reads in pieces *)

Lemma read_loop_done disk f end_offset fuel data data_offset offset :
  end_offset <= offset ->
  ODS2.read_loop fuel disk f end_offset data data_offset offset = Ok data.
Proof.
  intros H. destruct fuel; cbn [ODS2.read_loop];
    destruct (Z.ltb_spec offset end_offset); reflexivity || lia.
Qed.

(** X9.  A read at an aligned offset returns empty bytes, without looking at the
    extent map, when the length is not positive or the offset is at or past
    the file's size; so it does when the path resolves to an empty slot of
    the file table. *)
Theorem read_nothing path length offset w :
  offset mod BLOCK_SIZE = 0 ->
  (forall l f,
     fst (ODS2.get_file_by_path path w) = Ok (Some l) ->
     nth_error (ODS2.heap w) l = Some f ->
     length <= 0 \/ File.size f <= offset ->
     fst (ODS2.read path length offset w) = Ok []) /\
  (fst (ODS2.get_file_by_path path w) = Ok None ->
   fst (ODS2.read path length offset w) = Ok []).
Proof.
  intros Hal. rewrite (read_aligned path length offset w Hal). split.
  - intros l f Hp Hl Hc. rewrite Hp, Hl. apply read_loop_done.
    unfold clamped_end.
    destruct (Z.ltb_spec (File.size f) (offset + length)); lia.
  - intros Hp. rewrite Hp. reflexivity.
Qed.

Lemma read_nothing_witness :
  1024 mod BLOCK_SIZE = 0 /\
  fst (ODS2.get_file_by_path "/FOO.TXT" (snd Example.mounted)) =
    Ok (Some 4%nat) /\
  fst (ODS2.read "/FOO.TXT" 4096 1024 (snd Example.mounted)) = Ok [].
Proof.
  assert (H0 : 1024 mod BLOCK_SIZE = 0) by reflexivity.
  assert (H1 : fst (ODS2.get_file_by_path "/FOO.TXT" (snd Example.mounted)) =
               Ok (Some 4%nat)) by (vm_compute; reflexivity).
  assert (H2 : nth_error (ODS2.heap (snd Example.mounted)) 4 =
               Some (File.mk (FileID.mk 2 1 0) (FileID.mk 0 1 0) false
                       (VMStoUNIX 0) (VMStoUNIX 0) (Some "FOO.TXT"%string)
                       [File.mkExtent 8 1] 1 512 []))
    by (vm_compute; reflexivity).
  split; [exact H0 |]. split; [exact H1 |].
  apply (proj1 (read_nothing "/FOO.TXT" 4096 1024 (snd Example.mounted) H0)
           4%nat _ H1 H2).
  right. cbn [File.size]. lia.
Defined.

(** Reading in two pieces at the loop's level: going from [offset] to
    [end_offset] is going to a block boundary [mid] in between and then on
    from there. *)
Lemma read_loop_split disk f end_offset : forall (k : nat) offset,
  let mid := offset + BLOCK_SIZE * Z.of_nat k in
  mid <= end_offset ->
  ODS2.read_loop (ODS2.read_fuel offset end_offset) disk f end_offset
    [] 0 offset =
    (a <~ ODS2.read_loop (ODS2.read_fuel offset mid) disk f mid [] 0 offset ;;
     b <~ ODS2.read_loop (ODS2.read_fuel mid end_offset) disk f end_offset
            [] 0 mid ;;
     Ok (a ++ b)).
Proof.
  induction k as [| k IH]; intros offset mid Hmid; subst mid.
  - rewrite Z.mul_0_r, Z.add_0_r in *.
    rewrite (read_loop_done disk f offset) by lia. cbn [rbind app].
    rewrite rbind_ret. reflexivity.
  - assert (Hlt : offset < offset + BLOCK_SIZE * Z.of_nat (S k))
      by (unfold BLOCK_SIZE; lia).
    rewrite (read_fuel_step offset end_offset) by lia.
    rewrite (read_fuel_step offset (offset + BLOCK_SIZE * Z.of_nat (S k)))
      by lia.
    cbn [ODS2.read_loop].
    destruct (Z.ltb_spec offset end_offset); [| lia].
    destruct (Z.ltb_spec offset (offset + BLOCK_SIZE * Z.of_nat (S k)));
      [| lia].
    destruct (File.get_lbn_for_vbn f _) as [lbn |]; [| reflexivity].
    rewrite (setslice_at_end [])
      by (change (len []) with 0; unfold BLOCK_SIZE; lia).
    cbn [app].
    assert (Hs : len (slice disk (lbn * BLOCK_SIZE)
                        (lbn * BLOCK_SIZE + BLOCK_SIZE)) <= 0 + BLOCK_SIZE)
      by (unfold BLOCK_SIZE; pose proof (slice_block_length disk (lbn * 512));
          lia).
    rewrite !(read_loop_acc disk f _ _ (slice disk _ _)) by exact Hs.
    replace (offset + BLOCK_SIZE * Z.of_nat (S k))
      with (offset + BLOCK_SIZE + BLOCK_SIZE * Z.of_nat k) in *
      by (unfold BLOCK_SIZE; lia).
    rewrite (IH (offset + BLOCK_SIZE)) by exact Hmid.
    destruct (ODS2.read_loop _ disk f
                (offset + BLOCK_SIZE + BLOCK_SIZE * Z.of_nat k) [] 0
                (offset + BLOCK_SIZE)) as [a | e |];
      cbn [rbind]; try reflexivity.
    destruct (ODS2.read_loop _ disk f end_offset [] 0
                (offset + BLOCK_SIZE + BLOCK_SIZE * Z.of_nat k)) as [b | e |];
      cbn [rbind]; try reflexivity.
    rewrite app_assoc. reflexivity.
Qed.

(** X10.  Tiling: a read of [n1 + n2] bytes at an aligned offset, [n1] a multiple
    of 512, gives what a read of [n1] bytes followed by a read of [n2] bytes
    at [offset + n1] gives: the same bytes when both return, and an
    exception exactly when one of the two raises. *)
Theorem read_tiling path n1 n2 offset w :
  offset mod BLOCK_SIZE = 0 ->
  n1 mod BLOCK_SIZE = 0 ->
  0 <= n1 -> 0 <= n2 ->
  fst (ODS2.read path (n1 + n2) offset w) =
    (a <~ fst (ODS2.read path n1 offset w) ;;
     b <~ fst (ODS2.read path n2 (offset + n1) w) ;;
     Ok (a ++ b)).
Proof.
  intros Hal Hn1 H1 H2.
  assert (Hal2 : (offset + n1) mod BLOCK_SIZE = 0)
    by (rewrite Z.add_mod, Hal, Hn1 by (unfold BLOCK_SIZE; lia);
        reflexivity).
  rewrite !read_aligned by assumption.
  destruct (fst (ODS2.get_file_by_path path w)) as [[l |] | e |];
    try reflexivity.
  destruct (nth_error (ODS2.heap w) l) as [f |]; [| reflexivity].
  unfold clamped_end.
  replace (offset + n1 + n2) with (offset + (n1 + n2)) by lia.
  destruct (Z.ltb_spec (File.size f) (offset + n1)).
  - (* the first piece already stops at the file's size *)
    destruct (Z.ltb_spec (File.size f) (offset + (n1 + n2))); [| lia].
    rewrite (read_loop_done _ _ (File.size f) _ [] 0 (offset + n1)) by lia.
    destruct (ODS2.read_loop _ _ f (File.size f) [] 0 offset);
      cbn [rbind]; try reflexivity.
    rewrite app_nil_r. reflexivity.
  - assert (Hk : offset + n1 =
                 offset + BLOCK_SIZE * Z.of_nat (Z.to_nat (n1 / BLOCK_SIZE))).
    { unfold BLOCK_SIZE in *.
      pose proof (Z.div_mod n1 512 ltac:(lia)).
      assert (0 <= n1 / 512) by (apply Z.div_pos; lia). lia. }
    set (E := if File.size f <? offset + (n1 + n2)
              then File.size f else offset + (n1 + n2)).
    assert (HE : offset + n1 <= E)
      by (unfold E; destruct (Z.ltb_spec (File.size f) (offset + (n1 + n2)));
          lia).
    rewrite Hk in HE |- *.
    apply (read_loop_split _ f E (Z.to_nat (n1 / BLOCK_SIZE)) offset HE).
Qed.

Lemma read_tiling_witness :
  0 mod BLOCK_SIZE = 0 /\ 512 mod BLOCK_SIZE = 0 /\ 0 <= 512 /\ 0 <= 512 /\
  fst (ODS2.read "/000000.DIR" (512 + 512) 0 (snd Example.mounted)) =
    (a <~ fst (ODS2.read "/000000.DIR" 512 0 (snd Example.mounted)) ;;
     b <~ fst (ODS2.read "/000000.DIR" 512 (0 + 512) (snd Example.mounted)) ;;
     Ok (a ++ b)) /\
  (exists a, fst (ODS2.read "/000000.DIR" 512 0 (snd Example.mounted)) = Ok a
             /\ len a = 512).
Proof.
  assert (Ha : 0 mod BLOCK_SIZE = 0) by reflexivity.
  assert (Hb : 512 mod BLOCK_SIZE = 0) by reflexivity.
  assert (Hc : 0 <= 512) by lia.
  split; [exact Ha |]. split; [exact Hb |]. split; [exact Hc |].
  split; [exact Hc |].
  split; [exact (read_tiling "/000000.DIR" 512 512 0 (snd Example.mounted)
                   Ha Hb Hc Hc) |].
  eexists. split; [vm_compute; reflexivity | vm_compute; reflexivity].
Defined.

(** ** Bootstrap: failure on a short image, and the root's attributes *)

(** X11.  An image of fewer than 1024 bytes has no whole home block: bootstrap
    raises [struct.error], after printing the block count. *)
Theorem bootstrap_short_image image mountpoint w :
  len image < 1024 ->
  fst (ODS2.__init__ image mountpoint w) = Raise StructError.
Proof.
  intros H. unfold ODS2.__init__, ODS2.read_home_block, bind,
    ODS2.set_self, modify, ODS2.say, zoom, print, gets, lift.
  cbn [ODS2.self ODS2.heap ODS2.stdout ODS2.disk ODS2.set_disk
       ODS2.set_mountpoint fst snd].
  unfold unpack_from, BLOCK_SIZE. cbn [Z.ltb Z.compare].
  destruct (Z.ltb_spec (len image - 512) 512); [reflexivity | lia].
Qed.

Lemma bootstrap_short_image_witness :
  len (Example.zeros 1000) < 1024 /\
  fst (ODS2.__init__ (Example.zeros 1000) "/mnt" ODS2.initial) =
    Raise StructError.
Proof.
  assert (H : len (Example.zeros 1000) < 1024) by (vm_compute; reflexivity).
  split; [exact H |].
  exact (bootstrap_short_image _ _ _ H).
Defined.

Lemma bootstrap_mfd image mountpoint w0 w :
  ODS2.__init__ image mountpoint w0 = (Ok tt, w) ->
  exists m fm,
    ODS2.mfd (ODS2.self w) = Some m /\
    nth_error (ODS2.heap w) m = Some fm /\
    File.size fm = 666 /\
    File.name fm = Some "000000.DIR"%string.
Proof.
  unfold ODS2.__init__. intros H.
  apply bind_Ok in H. destruct H as (u1 & w1 & _ & H).
  apply bind_Ok in H. destruct H as (u2 & w2 & _ & H).
  apply bind_Ok in H. destruct H as (u3 & w3 & _ & H).
  apply read_home_block_inv in H.
  destruct H as (m & fm & Hm & Hfm & Hs & Hn & _).
  exists m, fm. auto.
Qed.

(** X12.  Once bootstrap has succeeded, [getattr] on a path without components
    ([/], the empty path, [//]) never raises when [os.lstat] succeeds: it
    describes the MFD, with [st_size] the sentinel 666, no links, and the
    owner and group of the image file. *)
Theorem root_getattr image mountpoint w0 w path uid gid :
  ODS2.__init__ image mountpoint w0 = (Ok tt, w) ->
  ODS2.path_parts path = [] ->
  exists st,
    ODS2.getattr (Ok (uid, gid)) path w = (Ok st, w) /\
    ODS2.st_size st = 666 /\
    ODS2.st_nlink st = 0 /\
    ODS2.st_uid st = uid /\
    ODS2.st_gid st = gid.
Proof.
  intros H Hp. apply bootstrap_mfd in H.
  destruct H as (m & fm & Hm & Hfm & Hs & _).
  unfold ODS2.getattr, ODS2.get_file_by_path, bind, lift, gets.
  rewrite Hp, Hm. cbn [ODS2.walk]. unfold ret, ODS2.deref. rewrite Hfm.
  eexists. split; [reflexivity |]. cbn. auto.
Qed.

Lemma root_getattr_witness :
  ODS2.__init__ Example.image "/mnt" ODS2.initial =
    (Ok tt, snd Example.mounted) /\
  ODS2.path_parts "/" = [] /\
  exists st,
    ODS2.getattr (Ok (1000, 100)) "/" (snd Example.mounted) =
      (Ok st, snd Example.mounted) /\
    ODS2.st_size st = 666 /\
    ODS2.st_nlink st = 0 /\
    ODS2.st_uid st = 1000 /\
    ODS2.st_gid st = 100.
Proof.
  assert (F : fst Example.mounted = Ok tt) by (vm_compute; reflexivity).
  assert (H : ODS2.__init__ Example.image "/mnt" ODS2.initial =
              (Ok tt, snd Example.mounted)).
  { destruct Example.mounted as [r w']. cbn [fst snd] in *.
    rewrite F. reflexivity. }
  assert (Hp : ODS2.path_parts "/" = []) by reflexivity.
  split; [exact H |]. split; [exact Hp |].
  exact (root_getattr _ _ _ _ "/"%string 1000 100 H Hp).
Defined.

(** ** Path resolution composes *)

Lemma walk_app (p q : list string) : forall file w,
  ODS2.walk (p ++ q) file w =
    (d <- ODS2.walk p file ;; ODS2.walk q d) w.
Proof.
  induction p as [| c p IH]; intros file w; cbn [app ODS2.walk].
  - reflexivity.
  - destruct file as [l |]; [| reflexivity].
    unfold bind, ODS2.deref, lift, gets.
    destruct (nth_error (ODS2.heap w) l) as [f |]; [| reflexivity].
    destruct (File.get_record_by_name f c) as [rec |]; [| reflexivity].
    destruct (getitem (DirectoryRecord.entries rec) 0) as [e | x |];
      try reflexivity.
    destruct (getitem (ODS2.files (ODS2.self w)) _) as [file' | x |];
      try reflexivity.
    rewrite IH. reflexivity.
Qed.

Lemma chars_append (a b : string) : chars (a ++ b) = chars a ++ chars b.
Proof.
  unfold chars. induction a as [| c a IH]; cbn; [reflexivity |].
  rewrite IH. reflexivity.
Qed.

Lemma length_chars (s : string) : List.length (chars s) = String.length s.
Proof. unfold chars. induction s as [| c s IH]; cbn; auto. Qed.

Lemma split_chars_app sep (l1 l2 : list ascii) : forall cur,
  split_chars sep cur (l1 ++ sep :: l2) =
    split_chars sep cur l1 ++ split_chars sep [] l2.
Proof.
  induction l1 as [| c l1 IH]; intros cur; cbn [app split_chars].
  - rewrite Ascii.eqb_refl. reflexivity.
  - destruct (Ascii.eqb c sep); cbn [app]; rewrite IH; reflexivity.
Qed.

(** A path component sequence without a leading or trailing [/]. *)
Definition clean (p : string) : bool :=
  negb (startswith "/" p) && negb (endswith "/" p) &&
  (0 <? Z.of_nat (String.length p)).

Lemma clean_parts (p : string) :
  clean p = true -> ODS2.path_parts p = split "/" p.
Proof.
  unfold clean, ODS2.path_parts. intros H.
  apply andb_prop in H. destruct H as [H H3].
  apply andb_prop in H. destruct H as [H1 H2].
  apply negb_true_iff in H1, H2. rewrite H1, H2, H3. reflexivity.
Qed.

Lemma startswith_app c (a b : string) :
  chars a <> [] -> startswith c (a ++ b) = startswith c a.
Proof.
  unfold startswith. rewrite chars_append.
  destruct (chars a); [congruence | reflexivity].
Qed.

Lemma endswith_app c (a b : string) :
  chars b <> [] -> endswith c (a ++ b) = endswith c b.
Proof.
  unfold endswith. rewrite chars_append, rev_app_distr. intros Hb.
  destruct (rev (chars b)) as [| h t] eqn:Er; [| reflexivity].
  apply (f_equal (@List.length ascii)) in Er. rewrite length_rev in Er.
  destruct (chars b); [congruence | discriminate].
Qed.

Lemma clean_nonempty (p : string) : clean p = true -> chars p <> [].
Proof.
  unfold clean. intros H. apply andb_prop in H. destruct H as [_ H].
  rewrite <- length_chars in H. destruct (chars p); [discriminate |].
  discriminate.
Qed.

Lemma clean_join (a b : string) :
  clean a = true -> clean b = true -> clean (a ++ "/" ++ b) = true.
Proof.
  intros Ha Hb.
  pose proof (clean_nonempty a Ha) as Na.
  pose proof (clean_nonempty b Hb) as Nb.
  unfold clean in *.
  apply andb_prop in Ha. destruct Ha as [Ha Ha3].
  apply andb_prop in Ha. destruct Ha as [Ha1 Ha2].
  apply andb_prop in Hb. destruct Hb as [Hb Hb3].
  apply andb_prop in Hb. destruct Hb as [Hb1 Hb2].
  rewrite startswith_app by exact Na. rewrite Ha1.
  rewrite endswith_app
    by (rewrite chars_append; change (chars "/") with ["/"%char];
        discriminate).
  rewrite endswith_app by exact Nb. rewrite Hb2. cbn [andb].
  rewrite <- length_chars in *. rewrite !chars_append, !length_app.
  apply Z.ltb_lt. apply Z.ltb_lt in Ha3. lia.
Qed.

(** X13.  For two paths without leading or trailing [/], resolving [a/b] is
    resolving [a] and walking the components of [b] from the file found:
    same result, same exception. *)
Theorem get_file_by_path_compose (a b : string) (w : ODS2.world) :
  clean a = true -> clean b = true ->
  ODS2.get_file_by_path (a ++ "/" ++ b) w =
    (d <- ODS2.get_file_by_path a ;; ODS2.walk (ODS2.path_parts b) d) w.
Proof.
  intros Ha Hb.
  assert (Hparts : ODS2.path_parts (a ++ "/" ++ b) =
                   ODS2.path_parts a ++ ODS2.path_parts b).
  { rewrite !clean_parts by (assumption || apply clean_join; assumption).
    unfold split. rewrite !chars_append. change (chars "/") with ["/"%char].
    cbn [app]. apply split_chars_app. }
  unfold ODS2.get_file_by_path. rewrite Hparts.
  unfold bind at 1 2 3. unfold gets.
  apply walk_app.
Qed.

Lemma get_file_by_path_compose_witness :
  clean "000000.DIR" = true /\ clean "FOO.TXT" = true /\
  ODS2.get_file_by_path ("000000.DIR" ++ "/" ++ "FOO.TXT")
    (snd Example.mounted) =
    (d <- ODS2.get_file_by_path "000000.DIR" ;;
     ODS2.walk (ODS2.path_parts "FOO.TXT") d) (snd Example.mounted) /\
  fst (ODS2.get_file_by_path "000000.DIR/FOO.TXT" (snd Example.mounted)) =
    Ok (Some 4%nat).
Proof.
  assert (Ha : clean "000000.DIR" = true) by reflexivity.
  assert (Hb : clean "FOO.TXT" = true) by reflexivity.
  split; [exact Ha |]. split; [exact Hb |].
  split; [exact (get_file_by_path_compose _ _ (snd Example.mounted) Ha Hb) |].
  vm_compute. reflexivity.
Defined.

(** ** Looking a name up *)

Lemma find_split {A : Type} (p : A -> bool) (l : list A) (a : A) :
  find p l = Some a ->
  exists before after,
    l = before ++ a :: after /\ p a = true /\
    Forall (fun x => p x = false) before.
Proof.
  induction l as [| x l IH]; cbn [find]; [discriminate |].
  destruct (p x) eqn:Px.
  - intros H. injection H as <-. exists [], l. auto.
  - intros H. destruct (IH H) as (before & after & -> & Pa & Hb).
    exists (x :: before), after. auto.
Qed.

(** X14.  [get_record_by_name] returns the first record whose name is exactly
    [name], so a later record of the same name is never seen; it returns
    [None] exactly when no record has that name. *)
Theorem get_record_by_name_spec (f : File.t) (name : string) :
  (forall r,
     File.get_record_by_name f name = Some r ->
     DirectoryRecord.name r = name /\
     exists before after,
       File.records f = before ++ r :: after /\
       Forall (fun x => DirectoryRecord.name x <> name) before) /\
  (File.get_record_by_name f name = None <->
   Forall (fun x => DirectoryRecord.name x <> name) (File.records f)).
Proof.
  unfold File.get_record_by_name. split.
  - intros r H. apply find_split in H.
    destruct H as (before & after & Hl & Hr & Hb).
    apply String.eqb_eq in Hr. split; [exact Hr |].
    exists before, after. split; [exact Hl |].
    eapply Forall_impl; [| exact Hb].
    intros x Hx. apply String.eqb_neq. exact Hx.
  - split.
    + intros H. apply Forall_forall. intros x Hx.
      apply String.eqb_neq. exact (find_none _ _ H x Hx).
    + intros H. destruct (find _ (File.records f)) as [r |] eqn:E;
        [| reflexivity].
      apply find_some in E. destruct E as [Hin Hr].
      apply String.eqb_eq in Hr.
      rewrite Forall_forall in H. destruct (H r Hin Hr).
Qed.

Lemma get_record_by_name_spec_witness :
  exists f r,
    nth_error (ODS2.heap (snd Example.mounted)) 2 = Some f /\
    File.get_record_by_name f "FOO.TXT" = Some r /\
    DirectoryRecord.name r = "FOO.TXT"%string /\
    (exists before after,
       File.records f = before ++ r :: after /\
       Forall (fun x => DirectoryRecord.name x <> "FOO.TXT"%string) before) /\
    File.get_record_by_name f "NOSUCH.TXT" = None.
Proof.
  eexists. eexists.
  split; [vm_compute; reflexivity |].
  assert (H : File.get_record_by_name
                (File.mk (FileID.mk 1 1 0) (FileID.mk 0 1 0) true
                   (VMStoUNIX 0) (VMStoUNIX 0) (Some "000000.DIR"%string)
                   [File.mkExtent 7 2] 2 1024
                   [DirectoryRecord.mk 24 "000000.DIR"
                      [DirectoryEntry.mk (FileID.mk 1 1 0)];
                    DirectoryRecord.mk 22 "FOO.TXT"
                      [DirectoryEntry.mk (FileID.mk 2 1 0)];
                    DirectoryRecord.mk 24 "EMPTY.DAT"
                      [DirectoryEntry.mk (FileID.mk 3 1 0)]])
                "FOO.TXT" =
              Some (DirectoryRecord.mk 22 "FOO.TXT"
                      [DirectoryEntry.mk (FileID.mk 2 1 0)]))
    by reflexivity.
  split; [exact H |].
  destruct (proj1 (get_record_by_name_spec _ _) _ H) as [Hn Hs].
  split; [exact Hn |]. split; [exact Hs |]. reflexivity.
Defined.

(** ** Resolving a name in the root directory *)

Lemma split_chars_no_sep sep (l : list ascii) : forall cur,
  ~ In sep l ->
  split_chars sep cur l = [string_of_list_ascii (rev cur ++ l)].
Proof.
  induction l as [| c l IH]; intros cur Hn; cbn [split_chars].
  - rewrite app_nil_r. reflexivity.
  - destruct (Ascii.eqb_spec c sep) as [-> | Hne].
    + destruct Hn. left. reflexivity.
    + rewrite IH by (intros Hin; apply Hn; right; exact Hin).
      cbn [rev]. rewrite <- app_assoc. reflexivity.
Qed.

Lemma chars_string (l : list ascii) : chars (string_of_list_ascii l) = l.
Proof. apply list_ascii_of_string_of_list_ascii. Qed.

Lemma string_chars (s : string) : string_of_list_ascii (chars s) = s.
Proof. apply string_of_list_ascii_of_string. Qed.

Lemma path_parts_child (name : string) :
  name <> ""%string -> ~ In "/"%char (chars name) ->
  ODS2.path_parts ("/" ++ name) = [name].
Proof.
  intros Hne Hns. unfold ODS2.path_parts.
  assert (Hc : chars name <> []).
  { intros E. apply Hne. rewrite <- (string_chars name), E. reflexivity. }
  assert (Hd : drop_first ("/" ++ name) = name).
  { unfold drop_first. rewrite chars_append.
    change (chars "/") with ["/"%char]. cbn [app tl]. apply string_chars. }
  change (startswith "/" ("/" ++ name)) with true. cbv iota. rewrite Hd.
  assert (He : endswith "/" name = false).
  { unfold endswith. destruct (rev (chars name)) as [| h t] eqn:Er;
      [reflexivity |].
    destruct (Ascii.eqb_spec h "/"%char) as [-> | _]; [| reflexivity].
    destruct Hns. apply in_rev. rewrite Er. left. reflexivity. }
  rewrite He. rewrite <- length_chars.
  destruct (chars name) as [| c l] eqn:E; [congruence |].
  cbn [List.length]. replace (0 <? Z.of_nat (S (List.length l))) with true
    by (symmetry; apply Z.ltb_lt; lia).
  unfold split. rewrite E. rewrite split_chars_no_sep by exact Hns.
  cbn [rev app]. rewrite <- E. rewrite string_chars. reflexivity.
Qed.

(** X15.  Resolving [/name], for a non-empty name without [/]: when the MFD has a
    record of that name whose first entry carries file number [n], the
    result is the file table's slot at index [n - 1], [None] for an empty
    slot and [IndexError] for an index outside the table. *)
Theorem get_file_by_path_child (w : ODS2.world) (name : string) m d r n :
  name <> ""%string -> ~ In "/"%char (chars name) ->
  ODS2.mfd (ODS2.self w) = Some m ->
  nth_error (ODS2.heap w) m = Some d ->
  File.get_record_by_name d name = Some r ->
  first_file_number r = Some n ->
  ODS2.get_file_by_path ("/" ++ name) w =
    (getitem (ODS2.files (ODS2.self w)) (n - 1), w).
Proof.
  intros Hne Hns Hm Hd Hr Hn.
  unfold ODS2.get_file_by_path. rewrite path_parts_child by assumption.
  unfold bind at 1. unfold gets. rewrite Hm. cbn [ODS2.walk].
  unfold bind, ODS2.deref, lift, gets. rewrite Hd, Hr.
  unfold first_file_number in Hn.
  destruct (DirectoryRecord.entries r) as [| e es]; [discriminate |].
  injection Hn as <-. rewrite getitem_first.
  destruct (getitem (ODS2.files (ODS2.self w)) _); reflexivity.
Qed.

Lemma get_file_by_path_child_witness :
  exists d r,
    "FOO.TXT"%string <> ""%string /\
    ~ In "/"%char (chars "FOO.TXT") /\
    ODS2.mfd (ODS2.self (snd Example.mounted)) = Some 1%nat /\
    nth_error (ODS2.heap (snd Example.mounted)) 1 = Some d /\
    File.get_record_by_name d "FOO.TXT" = Some r /\
    first_file_number r = Some 2 /\
    ODS2.get_file_by_path ("/" ++ "FOO.TXT") (snd Example.mounted) =
      (getitem (ODS2.files (ODS2.self (snd Example.mounted))) (2 - 1),
       snd Example.mounted) /\
    getitem (ODS2.files (ODS2.self (snd Example.mounted))) (2 - 1) =
      Ok (Some 4%nat).
Proof.
  eexists. eexists.
  assert (H1 : "FOO.TXT"%string <> ""%string) by discriminate.
  assert (H2 : ~ In "/"%char (chars "FOO.TXT")).
  { cbn. intros H. repeat (destruct H as [H | H]; [discriminate |]).
    exact H. }
  assert (H3 : ODS2.mfd (ODS2.self (snd Example.mounted)) = Some 1%nat)
    by (vm_compute; reflexivity).
  assert (H4 : nth_error (ODS2.heap (snd Example.mounted)) 1 =
               Some (File.mk (FileID.mk 1 1 0) (FileID.mk 0 1 0) true
                       (VMStoUNIX 0) (VMStoUNIX 0)
                       (Some "000000.DIR"%string)
                       [File.mkExtent 7 2] 2 666
                       [DirectoryRecord.mk 24 "000000.DIR"
                          [DirectoryEntry.mk (FileID.mk 1 1 0)];
                        DirectoryRecord.mk 22 "FOO.TXT"
                          [DirectoryEntry.mk (FileID.mk 2 1 0)];
                        DirectoryRecord.mk 24 "EMPTY.DAT"
                          [DirectoryEntry.mk (FileID.mk 3 1 0)]]))
    by (vm_compute; reflexivity).
  assert (H5 : File.get_record_by_name
                 (File.mk (FileID.mk 1 1 0) (FileID.mk 0 1 0) true
                    (VMStoUNIX 0) (VMStoUNIX 0) (Some "000000.DIR"%string)
                    [File.mkExtent 7 2] 2 666
                    [DirectoryRecord.mk 24 "000000.DIR"
                       [DirectoryEntry.mk (FileID.mk 1 1 0)];
                     DirectoryRecord.mk 22 "FOO.TXT"
                       [DirectoryEntry.mk (FileID.mk 2 1 0)];
                     DirectoryRecord.mk 24 "EMPTY.DAT"
                       [DirectoryEntry.mk (FileID.mk 3 1 0)]])
                 "FOO.TXT" =
               Some (DirectoryRecord.mk 22 "FOO.TXT"
                       [DirectoryEntry.mk (FileID.mk 2 1 0)]))
    by reflexivity.
  assert (H6 : first_file_number
                 (DirectoryRecord.mk 22 "FOO.TXT"
                    [DirectoryEntry.mk (FileID.mk 2 1 0)]) = Some 2)
    by reflexivity.
  split; [exact H1 |]. split; [exact H2 |]. split; [exact H3 |].
  split; [exact H4 |]. split; [exact H5 |]. split; [exact H6 |].
  split; [exact (get_file_by_path_child _ _ _ _ _ _ H1 H2 H3 H4 H5 H6) |].
  vm_compute. reflexivity.
Defined.

(** ** What bootstrap leaves in the volume object *)

(** One iteration of the scan that did not end it: a header [o] was
    decoded, its first object may have become the MFD and its second went
    into the table at the position of [file_number - 1]. *)
Lemma scan_step vbn rest count w c w' :
  ODS2.scan (vbn :: rest) count w = (Ok c, w') ->
  (c = count /\ w' = w) \/
  exists o name p out,
    File.name o = Some name /\
    position (ODS2.files (ODS2.self w))
      (FileID.file_number (File.fid o) - 1) = Some p /\
    ODS2.scan rest (count + 1)
      (ODS2.mkWorld
         (ODS2.set_files
            (if String.eqb name "000000.DIR"
             then ODS2.set_mfd (ODS2.self w)
                    (Some (List.length (ODS2.heap w)))
             else ODS2.self w)
            (list_set (ODS2.files (ODS2.self w)) p
               (Some (S (List.length (ODS2.heap w))))))
         (ODS2.heap w ++ [o; o]) out) = (Ok c, w').
Proof.
  intros H. cbn [ODS2.scan] in H.
  apply bind_Ok in H. destruct H as (s & w1 & Hs & H).
  unfold gets in Hs. injection Hs as <- <-.
  apply bind_Ok in H. destruct H as (idx & w1 & Hd & H).
  apply deref_Ok in Hd. destruct Hd as [_ ->].
  destruct (File.get_lbn_for_vbn idx _) as [lbn |]; [| discriminate].
  apply bind_Ok in H. destruct H as (b & w1 & Hb & H).
  apply lift_Ok in Hb. destruct Hb as [_ ->].
  destruct (u8 b =? 0).
  { apply ret_Ok in H. destruct H as [-> ->]. left. auto. }
  right.
  apply bind_Ok in H. destruct H as (file & w1 & Hf & H).
  apply new_File_Ok in Hf. destruct Hf as (o & out1 & Ho & -> & ->).
  apply bind_Ok in H. destruct H as (o' & w2 & Hd2 & H).
  apply deref_Ok in Hd2. destruct Hd2 as [Hd2 ->].
  cbn [ODS2.heap] in Hd2.
  rewrite nth_error_app2, Nat.sub_diag in Hd2 by lia.
  injection Hd2 as <-.
  destruct (File.name o) as [name |] eqn:En; [| discriminate].
  apply bind_Ok in H. destruct H as (u & w2 & Hset & H).
  assert (Hw2 : w2 = ODS2.mkWorld
                  (if String.eqb name "000000.DIR"
                   then ODS2.set_mfd (ODS2.self w)
                          (Some (List.length (ODS2.heap w)))
                   else ODS2.self w)
                  (ODS2.heap w ++ [o]) out1).
  { destruct (String.eqb name "000000.DIR").
    - unfold ODS2.set_self, modify in Hset. injection Hset as _ <-.
      reflexivity.
    - apply ret_Ok in Hset. destruct Hset as [_ ->]. reflexivity. }
  subst w2. clear Hset.
  apply bind_Ok in H. destruct H as (stored & w3 & Hf2 & H).
  apply new_File_Ok in Hf2. destruct Hf2 as (o2 & out2 & Ho2 & -> & ->).
  cbn [ODS2.self ODS2.heap ODS2.stdout] in *.
  assert (o2 = o) by (eapply init_deterministic; eauto). subst o2.
  apply bind_Ok in H. destruct H as (fs & w3 & Hfs & H).
  unfold gets in Hfs. injection Hfs as <- <-.
  apply bind_Ok in H. destruct H as (fs' & w3 & Hfs' & H).
  apply lift_Ok in Hfs'. destruct Hfs' as [Hfs' ->].
  apply setitem_Ok in Hfs'. destruct Hfs' as (p & Hp & ->).
  apply bind_Ok in H. destruct H as (u' & w3 & Hset & H).
  unfold ODS2.set_self, modify in Hset. injection Hset as _ <-.
  cbn [ODS2.self ODS2.heap ODS2.stdout] in *.
  assert (Hfiles : ODS2.files
                     (if String.eqb name "000000.DIR"
                      then ODS2.set_mfd (ODS2.self w)
                             (Some (List.length (ODS2.heap w)))
                      else ODS2.self w) = ODS2.files (ODS2.self w))
    by (destruct (String.eqb name "000000.DIR"); reflexivity).
  rewrite Hfiles in *.
  rewrite length_app, <- app_assoc in H. cbn [List.length app] in H.
  rewrite Nat.add_1_r in H.
  exists o, name, p, out2. auto.
Qed.

(** What the scan leaves alone: every attribute but [mfd] and [files], the
    size of the table and the objects that were there; an MFD it sets is a
    new object. *)
Definition scan_frame (w w' : ODS2.world) : Prop :=
  ODS2.disk (ODS2.self w') = ODS2.disk (ODS2.self w) /\
  ODS2.mountpoint (ODS2.self w') = ODS2.mountpoint (ODS2.self w) /\
  ODS2.reserved_file_count (ODS2.self w') =
    ODS2.reserved_file_count (ODS2.self w) /\
  ODS2.bitmap_blocks (ODS2.self w') = ODS2.bitmap_blocks (ODS2.self w) /\
  ODS2.index_file (ODS2.self w') = ODS2.index_file (ODS2.self w) /\
  List.length (ODS2.files (ODS2.self w')) =
    List.length (ODS2.files (ODS2.self w)) /\
  (List.length (ODS2.heap w) <= List.length (ODS2.heap w'))%nat /\
  (forall l f, nth_error (ODS2.heap w) l = Some f ->
               nth_error (ODS2.heap w') l = Some f) /\
  (ODS2.mfd (ODS2.self w') = ODS2.mfd (ODS2.self w) \/
   exists m, ODS2.mfd (ODS2.self w') = Some m /\
             (List.length (ODS2.heap w) <= m)%nat).

Lemma scan_frame_ok vbns : forall count w c w',
  ODS2.scan vbns count w = (Ok c, w') -> scan_frame w w'.
Proof.
  induction vbns as [| vbn rest IH]; intros count w c w' H.
  - cbn [ODS2.scan] in H. apply ret_Ok in H. destruct H as [_ ->].
    unfold scan_frame. repeat split; auto.
  - apply scan_step in H. destruct H as [[_ ->] | H].
    { unfold scan_frame. repeat split; auto. }
    destruct H as (o & name & p & out & _ & _ & H).
    apply IH in H. unfold scan_frame in *.
    destruct H as (H1 & H2 & H3 & H4 & H5 & H6 & H7 & H8 & H9).
    cbn [ODS2.self ODS2.heap ODS2.stdout] in *.
    rewrite length_app in H7. cbn [List.length] in H7.
    destruct (String.eqb name "000000.DIR");
      cbn [ODS2.disk ODS2.mountpoint ODS2.reserved_file_count
           ODS2.bitmap_blocks ODS2.index_file ODS2.files ODS2.mfd
           ODS2.set_files ODS2.set_mfd] in *;
      rewrite length_list_set in H6;
      (repeat split; try assumption; try lia;
       [ intros l f Hl; apply H8; pose proof (nth_error_valid _ _ _ Hl);
         rewrite nth_error_app1 by lia; exact Hl
       | ]).
    + right. destruct H9 as [H9 | (m & H9 & Hm)].
      * eexists. split; [exact H9 | lia].
      * exists m. split; [exact H9 |].
        rewrite length_app in Hm. cbn [List.length] in Hm. lia.
    + destruct H9 as [H9 | (m & H9 & Hm)]; [left; exact H9 |].
      right. exists m. split; [exact H9 |].
      rewrite length_app in Hm. cbn [List.length] in Hm. lia.
Qed.

Lemma read_home_block_fields w w' :
  ODS2.read_home_block w = (Ok tt, w') ->
  let hb := firstn 512 (skipn 512 (ODS2.disk (ODS2.self w))) in
  ODS2.disk (ODS2.self w') = ODS2.disk (ODS2.self w) /\
  ODS2.mountpoint (ODS2.self w') = ODS2.mountpoint (ODS2.self w) /\
  ODS2.reserved_file_count (ODS2.self w') = field hb 34 2 /\
  ODS2.bitmap_blocks (ODS2.self w') = field hb 32 2 /\
  exists f0 out out',
    File.__init__ (ODS2.disk (ODS2.self w))
      ((field hb 24 4 + field hb 32 2) * BLOCK_SIZE) out = (Ok f0, out') /\
    nth_error (ODS2.heap w') (ODS2.index_file (ODS2.self w')) =
      Some (ODS2.skip_clusters f0) /\
    len (ODS2.files (ODS2.self w')) =
      File.total_block_count (ODS2.skip_clusters f0).
Proof.
  intros H hb. unfold ODS2.read_home_block in H.
  repeat match goal with
  | H : bind (ODS2.scan _ _) _ _ = _ |- _ => fail 1
  | H : bind (ODS2.new_File _ _) _ _ = _ |- _ =>
      let l := fresh "l" in let s := fresh "w" in let H1 := fresh "Hnew" in
      apply bind_Ok in H; destruct H as (l & s & H1 & H)
  | H : bind (ODS2.update _ _) _ _ = _ |- _ =>
      let u := fresh "u" in let s := fresh "w" in let H1 := fresh "Hupd" in
      apply bind_Ok in H; destruct H as (u & s & H1 & H)
  | H : bind (ODS2.deref _) _ _ = _ |- _ =>
      let u := fresh "idx" in let s := fresh "w" in let H1 := fresh "Hidx" in
      apply bind_Ok in H; destruct H as (u & s & H1 & H);
      apply deref_Ok in H1; destruct H1 as [H1 ->]
  | H : bind (lift (unpack_from _ _ _)) _ _ = _ |- _ =>
      let u := fresh "hb" in let s := fresh "w" in let H1 := fresh "Hhb" in
      apply bind_Ok in H; destruct H as (u & s & H1 & H);
      apply lift_Ok in H1; destruct H1 as [H1 ->]
  | H : bind _ _ _ = (Ok _, _) |- _ =>
      let a := fresh "a" in let s := fresh "w" in
      let H1 := fresh "Hrun" in
      apply bind_Ok in H; destruct H as (a & s & H1 & H);
      first [ apply set_self_Ok in H1 | apply say_Ok in H1
            | apply gets_Ok in H1; destruct H1
            | apply lift_Ok in H1; destruct H1 ]; subst;
      cbn [ODS2.self ODS2.heap ODS2.stdout] in *
  end.
  apply unpack_from_window in Hhb. unfold BLOCK_SIZE in Hhb.
  cbn [Z.ltb Z.compare] in Hhb. change (Z.to_nat 512) with 512%nat in Hhb.
  fold hb in Hhb. subst hb0.
  apply new_File_Ok in Hnew. destruct Hnew as (f0 & out' & Hf0 & -> & ->).
  destruct u. apply update_Ok in Hupd. destruct Hupd as (o & Ho & ->).
  cbn [ODS2.self ODS2.heap ODS2.stdout] in *.
  rewrite nth_error_app2, Nat.sub_diag in Ho by lia. injection Ho as <-.
  assert (Hl : forall x, nth_error
                 (list_set (ODS2.heap w ++ [f0])
                    (List.length (ODS2.heap w)) x)
                 (List.length (ODS2.heap w)) = Some x).
  { intros x. rewrite nth_error_list_set, Nat.eqb_refl, length_app.
    cbn [List.length].
    destruct (Nat.ltb_spec (List.length (ODS2.heap w))
                (List.length (ODS2.heap w) + 1)); [reflexivity | lia]. }
  rewrite Hl in Hidx. injection Hidx as <-.
  apply bind_Ok in H. destruct H as (count & wS & Hscan & H).
  apply scan_frame_ok in Hscan.
  destruct Hscan as (S1 & S2 & S3 & S4 & S5 & S6 & S7 & S8 & S9).
  cbn [ODS2.self ODS2.heap ODS2.stdout ODS2.disk ODS2.mountpoint
       ODS2.reserved_file_count ODS2.bitmap_blocks ODS2.index_file
       ODS2.files ODS2.mfd ODS2.set_files ODS2.set_mfd ODS2.set_index_file
       ODS2.set_bitmap_blocks ODS2.set_reserved_file_count ODS2.set_format
       ODS2.set_owner_name ODS2.set_volume_name ODS2.set_structure_name]
    in *.
  inv_world. cbn [ODS2.self ODS2.heap ODS2.stdout] in H.
  destruct (ODS2.mfd (ODS2.self wS)) as [m |] eqn:Em; [| discriminate].
  apply update_Ok in H. destruct H as (fm & Hfm & ->).
  cbn [ODS2.self ODS2.heap ODS2.stdout].
  rewrite S1, S2, S3, S4, S5.
  repeat split; try reflexivity.
  exists f0, (ODS2.stdout w ++
              [OutStructureName a; OutVolumeName a1; OutOwnerName a3;
               OutFormat a5]), out'.
  split.
  { repeat rewrite <- app_assoc in Hf0. exact Hf0. }
  split.
  - rewrite nth_error_list_set.
    destruct S9 as [S9 | (m' & S9 & Hm')]; [discriminate |].
    injection S9 as <-. rewrite length_list_set, length_app in Hm'.
    cbn [List.length] in Hm'.
    destruct (Nat.eqb_spec (List.length (ODS2.heap w)) m); [lia |].
    apply S8. apply Hl.
  - unfold len. rewrite S6, repeat_length.
    pose proof (init_well_formed _ _ _ _ _ Hf0) as [Hwf _].
    apply skip_clusters_well_formed in Hwf. destruct Hwf as [Hm Ht].
    pose proof (sum_counts_nonneg _ Hm). lia.
Qed.

(** X16.  After bootstrap the volume object holds the image and the mount point
    it was given, the reserved-file count and the bitmap size read from
    bytes 34-35 and 32-33 of the home block (the image's second block), and
    a reference to the index file: the header decoded at block
    [L_IBMAPLBN + W_IBMAPSIZE] with its first three extents dropped, left
    untouched by the scan.  The file table has one slot for each block that
    remains in the index file. *)
Theorem bootstrap_volume image mountpoint w0 w :
  ODS2.__init__ image mountpoint w0 = (Ok tt, w) ->
  let hb := firstn 512 (skipn 512 image) in
  ODS2.disk (ODS2.self w) = image /\
  ODS2.mountpoint (ODS2.self w) = mountpoint /\
  ODS2.reserved_file_count (ODS2.self w) = field hb 34 2 /\
  ODS2.bitmap_blocks (ODS2.self w) = field hb 32 2 /\
  exists f0 out out',
    File.__init__ image
      ((field hb 24 4 + field hb 32 2) * BLOCK_SIZE) out = (Ok f0, out') /\
    nth_error (ODS2.heap w) (ODS2.index_file (ODS2.self w)) =
      Some (ODS2.skip_clusters f0) /\
    len (ODS2.files (ODS2.self w)) =
      File.total_block_count (ODS2.skip_clusters f0).
Proof.
  intros H hb. unfold ODS2.__init__ in H.
  apply bind_Ok in H. destruct H as (u1 & w1 & H1 & H).
  apply set_self_Ok in H1. subst w1.
  apply bind_Ok in H. destruct H as (u2 & w2 & H2 & H).
  apply set_self_Ok in H2. subst w2.
  apply bind_Ok in H. destruct H as (u3 & w3 & H3 & H).
  apply say_Ok in H3. subst w3.
  apply read_home_block_fields in H.
  cbn [ODS2.self ODS2.heap ODS2.stdout ODS2.disk ODS2.mountpoint
       ODS2.set_disk ODS2.set_mountpoint] in H.
  exact H.
Qed.

Lemma bootstrap_volume_witness :
  ODS2.__init__ Example.image "/mnt" ODS2.initial =
    (Ok tt, snd Example.mounted) /\
  ODS2.disk (ODS2.self (snd Example.mounted)) = Example.image /\
  ODS2.mountpoint (ODS2.self (snd Example.mounted)) = "/mnt"%string /\
  ODS2.reserved_file_count (ODS2.self (snd Example.mounted)) = 1 /\
  ODS2.bitmap_blocks (ODS2.self (snd Example.mounted)) = 1 /\
  len (ODS2.files (ODS2.self (snd Example.mounted))) = 4.
Proof.
  assert (F : fst Example.mounted = Ok tt) by (vm_compute; reflexivity).
  assert (H : ODS2.__init__ Example.image "/mnt" ODS2.initial =
              (Ok tt, snd Example.mounted)).
  { destruct Example.mounted as [r w']. cbn [fst snd] in *.
    rewrite F. reflexivity. }
  split; [exact H |].
  destruct (bootstrap_volume _ _ _ _ H) as (H1 & H2 & H3 & H4 & _).
  split; [exact H1 |]. split; [exact H2 |].
  split; [rewrite H3; vm_compute; reflexivity |].
  split; [rewrite H4; vm_compute; reflexivity |].
  vm_compute. reflexivity.
Defined.

(** ** A record name that is not ASCII *)

Lemma slice_middle {A : Type} (pre w rest : list A) :
  slice (pre ++ w ++ rest) (len pre) (len pre + len w) = w.
Proof.
  unfold slice. pose proof (len_nonneg pre). pose proof (len_nonneg w).
  pose proof (len_nonneg rest).
  rewrite !clamp_inside by (rewrite !len_app; lia).
  unfold len. rewrite <- Nat2Z.inj_add, !Nat2Z.id.
  rewrite skipn_app, skipn_all, Nat.sub_diag. cbn [app skipn].
  replace (List.length pre + List.length w - List.length pre)%nat
    with (List.length w) by lia.
  rewrite firstn_app, firstn_all, Nat.sub_diag. cbn [firstn].
  apply app_nil_r.
Qed.

(** X17.  A directory record whose name holds a byte of 128 or more does not
    decode: the constructor raises [UnicodeDecodeError], whatever the rest
    of the record. *)
Theorem record_name_not_ascii (pre rest name : bytes)
  (s0 s1 v0 v1 flags count : byte) :
  u8 count = len name ->
  Exists (fun b => 128 <= u8 b) name ->
  DirectoryRecord.__init__
    (pre ++ [s0; s1; v0; v1; flags; count] ++ name ++ rest) (len pre) =
    Raise UnicodeDecodeError.
Proof.
  intros Hc Hex. unfold DirectoryRecord.__init__.
  change DirectoryRecord.HEADER_SIZE with 6.
  pose proof (unpack_from_middle pre [s0; s1; v0; v1; flags; count]
                (name ++ rest)) as U.
  change (len [s0; s1; v0; v1; flags; count]) with 6 in U.
  rewrite U. cbn [rbind].
  assert (Hn : field [s0; s1; v0; v1; flags; count] 5 1 = len name).
  { unfold field, fieldb. cbn [skipn firstn]. rewrite le_uint_1. exact Hc. }
  rewrite Hn.
  assert (Hs : slice (pre ++ [s0; s1; v0; v1; flags; count] ++ name ++ rest)
                 (len pre + 6) (len pre + 6 + len name) = name).
  { replace (pre ++ [s0; s1; v0; v1; flags; count] ++ name ++ rest)
      with ((pre ++ [s0; s1; v0; v1; flags; count]) ++ name ++ rest)
      by (rewrite <- app_assoc; reflexivity).
    replace (len pre + 6) with (len (pre ++ [s0; s1; v0; v1; flags; count]))
      by (rewrite len_app; reflexivity).
    apply slice_middle. }
  rewrite Hs. unfold decode_ascii.
  assert (Hf : forallb is_ascii name = false).
  { apply not_true_is_false. intros Hall.
    rewrite forallb_forall in Hall. apply Exists_exists in Hex.
    destruct Hex as (b & Hin & Hb). specialize (Hall b Hin).
    unfold is_ascii in Hall. apply Z.ltb_lt in Hall. lia. }
  rewrite Hf. reflexivity.
Qed.

Lemma record_name_not_ascii_witness :
  u8 x03 = len [x41; xe9; x42] /\
  Exists (fun b => 128 <= u8 b) [x41; xe9; x42] /\
  DirectoryRecord.__init__
    ([] ++ [x0e; x00; x01; x00; x00; x03] ++ [x41; xe9; x42] ++
     Example.zeros 9) (len (@nil byte)) = Raise UnicodeDecodeError.
Proof.
  assert (H1 : u8 x03 = len [x41; xe9; x42]) by reflexivity.
  assert (H2 : Exists (fun b => 128 <= u8 b) [x41; xe9; x42]).
  { apply Exists_cons_tl. apply Exists_cons_hd. vm_compute. discriminate. }
  split; [exact H1 |]. split; [exact H2 |].
  exact (record_name_not_ascii [] (Example.zeros 9) _ _ _ _ _ _ _ H1 H2).
Defined.

(** ** C8: a directory with a block of zeros *)

(** A volume whose root directory is allocated three blocks: the first holds
    the records of [000000.DIR] and [FOO.TXT] and the end mark, the other
    two are zeros.  Blocks: boot, home block, bitmap, the index file
    header, the headers of [000000.DIR] (file 1) and [FOO.TXT] (file 2), an
    empty header slot, the directory's three blocks and the block of
    [FOO.TXT]. *)
Definition zero_block_directory_image : bytes :=
  Example.zeros 512 ++
  Example.home_block 2 1 1 ++
  Example.zeros 512 ++
  Example.header 9 0 "INDEXF.SYS;1"
    (Example.pointer1 1 0 ++ Example.pointer1 1 1 ++ Example.pointer1 1 2 ++
     Example.pointer1 4 3) ++
  Example.header 1 8192 "000000.DIR;1" (Example.pointer1 3 7) ++
  Example.header 2 0 "FOO.TXT;1" (Example.pointer1 1 10) ++
  Example.zeros 512 ++
  Example.fit 512 x00
    (Example.dir_record "000000.DIR" 1 ++ Example.dir_record "FOO.TXT" 2 ++
     [xff; xff]) ++
  Example.zeros 512 ++
  Example.zeros 512 ++
  Example.fit 512 "A" [].

(** C8, counterexample.  The volume above mounts, [/] resolves to its root
    directory, whose first two records are those of [000000.DIR] and
    [FOO.TXT]; the claimed listing is [.], [..], [FOO.TXT].  The directory's
    second block, all zeros, was decoded into records without entries, and
    [readdir] raises [IndexError] on the first of them: it yields
    nothing. *)
Lemma readdir_zero_block_counterexample :
  exists l f,
    fst (ODS2.__init__ zero_block_directory_image "/mnt" ODS2.initial) =
      Ok tt /\
    fst (ODS2.get_file_by_path "/"
           (snd (ODS2.__init__ zero_block_directory_image "/mnt"
                   ODS2.initial))) = Ok (Some l) /\
    nth_error
      (ODS2.heap (snd (ODS2.__init__ zero_block_directory_image "/mnt"
                         ODS2.initial))) l = Some f /\
    File.is_directory f = true /\
    List.map DirectoryRecord.name (firstn 2 (File.records f)) =
      ["000000.DIR"; "FOO.TXT"]%string /\
    ("." :: ".." ::
     List.map DirectoryRecord.name
       (filter
          (listed
             (ODS2.reserved_file_count
                (ODS2.self (snd (ODS2.__init__ zero_block_directory_image
                                   "/mnt" ODS2.initial)))))
          (File.records f)))%string = ["."; ".."; "FOO.TXT"]%string /\
    fst (ODS2.readdir "/"
           (snd (ODS2.__init__ zero_block_directory_image "/mnt"
                   ODS2.initial))) = Raise IndexError.
Proof.
  exists 1%nat. eexists.
  split; [vm_compute; reflexivity |].
  split; [vm_compute; reflexivity |].
  split; [vm_compute; reflexivity |].
  split; [reflexivity |].
  split; [vm_compute; reflexivity |].
  split; [vm_compute; reflexivity |].
  vm_compute. reflexivity.
Qed.

(** ** C10: headers without a map area, after bootstrap *)

(** The header of a directory with an identification area and no map
    area. *)
Definition mapless_directory_header (num : Z) (name : string) : bytes :=
  Example.fit 512 x00
    ([Example.byte_of 30; xff; x00; x00] ++ Example.le16 0 ++
     Example.le16 2 ++ Example.fid_bytes num ++ Example.fid_bytes 0 ++
     Example.zeros 32 ++ Example.le32 8192 ++ [x00; x00; x00; x00] ++
     Example.fit 20 " " (Example.text name) ++ Example.zeros 34 ++
     Example.fit 66 " " []).

(** A volume whose [000000.DIR] header has no map area.  Blocks: boot, home
    block, bitmap, the index file header, the header of [000000.DIR]
    (file 1) and two empty header slots. *)
Definition mapless_mfd_image : bytes :=
  Example.zeros 512 ++
  Example.home_block 2 1 1 ++
  Example.zeros 512 ++
  Example.header 9 0 "INDEXF.SYS;1"
    (Example.pointer1 1 0 ++ Example.pointer1 1 1 ++ Example.pointer1 1 2 ++
     Example.pointer1 4 3) ++
  mapless_directory_header 1 "000000.DIR;1" ++
  Example.zeros 512 ++
  Example.zeros 512.

(** C10, counterexample.  The header at block 4 of the volume above has
    [B_MPOFFSET = 0xFF] and decodes to an object with an empty map,
    [total_block_count = 0] and [size = 512].  The volume mounts, that
    object becomes the MFD, bootstrap overwrites its size, and [getattr] on
    [/] reports [st_size = 666], not 512. *)
Lemma mapless_mfd_counterexample :
  exists hw f m st,
    unpack_from 59 mapless_mfd_image 2048 = Ok hw /\
    field hw 1 1 = 255 /\
    File.__init__ mapless_mfd_image 2048 [] = (Ok f, []) /\
    File.map f = [] /\
    File.total_block_count f = 0 /\
    File.size f = 512 /\
    fst (ODS2.__init__ mapless_mfd_image "/mnt" ODS2.initial) = Ok tt /\
    fst (ODS2.get_file_by_path "/"
           (snd (ODS2.__init__ mapless_mfd_image "/mnt" ODS2.initial))) =
      Ok (Some m) /\
    nth_error
      (ODS2.heap (snd (ODS2.__init__ mapless_mfd_image "/mnt"
                         ODS2.initial))) m =
      Some (File.set_size f 666) /\
    fst (ODS2.getattr (Ok (1000, 1000)) "/"
           (snd (ODS2.__init__ mapless_mfd_image "/mnt" ODS2.initial))) =
      Ok st /\
    ODS2.st_size st = 666 /\
    ODS2.st_size st <> 512.
Proof.
  eexists. eexists. eexists. eexists.
  split; [vm_compute; reflexivity |].
  split; [vm_compute; reflexivity |].
  split; [vm_compute; reflexivity |].
  split; [reflexivity |].
  split; [reflexivity |].
  split; [reflexivity |].
  split; [vm_compute; reflexivity |].
  split; [vm_compute; reflexivity |].
  split; [vm_compute; reflexivity |].
  split; [vm_compute; reflexivity |].
  split; [reflexivity | discriminate].
Qed.

(** A path with at least one component resolves, if at all, to an entry of
    the file table. *)
Lemma walk_table parts : forall file w l w',
  parts <> [] ->
  ODS2.walk parts file w = (Ok (Some l), w') ->
  exists i, nth_error (ODS2.files (ODS2.self w)) i = Some (Some l).
Proof.
  induction parts as [| p rest IH]; intros file w l w' Hne H;
    [contradiction |].
  cbn [ODS2.walk] in H.
  destruct file as [l0 |]; [| discriminate].
  apply bind_Ok in H. destruct H as (f & w1 & Hd & H).
  apply deref_Ok in Hd. destruct Hd as [_ ->].
  destruct (File.get_record_by_name f p) as [rec |]; [| discriminate].
  apply bind_Ok in H. destruct H as (e & w1 & He & H).
  apply lift_Ok in He. destruct He as [_ ->].
  apply bind_Ok in H. destruct H as (fs & w1 & Hfs & H).
  apply gets_Ok in Hfs. destruct Hfs as [-> ->].
  apply bind_Ok in H. destruct H as (file & w1 & Hg & H).
  apply lift_Ok in Hg. destruct Hg as [Hg ->].
  destruct rest as [| q rest].
  - cbn [ODS2.walk] in H. apply ret_Ok in H. destruct H as [E _].
    subst file. apply getitem_Ok in Hg. destruct Hg as (i & _ & Hi).
    exists i. exact Hi.
  - eapply IH; [discriminate | exact H].
Qed.

(** Every entry of the file table refers to an object as [File.__init__]
    decodes it from some offset of [image]. *)
Definition table_decoded (image : bytes) (w : ODS2.world) : Prop :=
  forall i l,
    nth_error (ODS2.files (ODS2.self w)) i = Some (Some l) ->
    exists f offset out out',
      nth_error (ODS2.heap w) l = Some f /\
      File.__init__ image offset out = (Ok f, out').

(** One iteration of the scan that did not end it, with the decoding that
    produced the stored object. *)
Lemma scan_step_decoded vbn rest count w c w' :
  ODS2.scan (vbn :: rest) count w = (Ok c, w') ->
  (c = count /\ w' = w) \/
  exists o name p out offset out0,
    File.__init__ (ODS2.disk (ODS2.self w)) offset (ODS2.stdout w) =
      (Ok o, out0) /\
    File.name o = Some name /\
    position (ODS2.files (ODS2.self w))
      (FileID.file_number (File.fid o) - 1) = Some p /\
    ODS2.scan rest (count + 1)
      (ODS2.mkWorld
         (ODS2.set_files
            (if String.eqb name "000000.DIR"
             then ODS2.set_mfd (ODS2.self w)
                    (Some (List.length (ODS2.heap w)))
             else ODS2.self w)
            (list_set (ODS2.files (ODS2.self w)) p
               (Some (S (List.length (ODS2.heap w))))))
         (ODS2.heap w ++ [o; o]) out) = (Ok c, w').
Proof.
  intros H. cbn [ODS2.scan] in H.
  apply bind_Ok in H. destruct H as (s & w1 & Hs & H).
  unfold gets in Hs. injection Hs as <- <-.
  apply bind_Ok in H. destruct H as (idx & w1 & Hd & H).
  apply deref_Ok in Hd. destruct Hd as [_ ->].
  destruct (File.get_lbn_for_vbn idx _) as [lbn |]; [| discriminate].
  apply bind_Ok in H. destruct H as (b & w1 & Hb & H).
  apply lift_Ok in Hb. destruct Hb as [_ ->].
  destruct (u8 b =? 0).
  { apply ret_Ok in H. destruct H as [-> ->]. left. auto. }
  right.
  apply bind_Ok in H. destruct H as (file & w1 & Hf & H).
  apply new_File_Ok in Hf. destruct Hf as (o & out1 & Ho & -> & ->).
  apply bind_Ok in H. destruct H as (o' & w2 & Hd2 & H).
  apply deref_Ok in Hd2. destruct Hd2 as [Hd2 ->].
  cbn [ODS2.heap] in Hd2.
  rewrite nth_error_app2, Nat.sub_diag in Hd2 by lia.
  injection Hd2 as <-.
  destruct (File.name o) as [name |] eqn:En; [| discriminate].
  apply bind_Ok in H. destruct H as (u & w2 & Hset & H).
  assert (Hw2 : w2 = ODS2.mkWorld
                  (if String.eqb name "000000.DIR"
                   then ODS2.set_mfd (ODS2.self w)
                          (Some (List.length (ODS2.heap w)))
                   else ODS2.self w)
                  (ODS2.heap w ++ [o]) out1).
  { destruct (String.eqb name "000000.DIR").
    - unfold ODS2.set_self, modify in Hset. injection Hset as _ <-.
      reflexivity.
    - apply ret_Ok in Hset. destruct Hset as [_ ->]. reflexivity. }
  subst w2. clear Hset.
  apply bind_Ok in H. destruct H as (stored & w3 & Hf2 & H).
  apply new_File_Ok in Hf2. destruct Hf2 as (o2 & out2 & Ho2 & -> & ->).
  cbn [ODS2.self ODS2.heap ODS2.stdout] in *.
  assert (o2 = o) by (eapply init_deterministic; eauto). subst o2.
  apply bind_Ok in H. destruct H as (fs & w3 & Hfs & H).
  unfold gets in Hfs. injection Hfs as <- <-.
  apply bind_Ok in H. destruct H as (fs' & w3 & Hfs' & H).
  apply lift_Ok in Hfs'. destruct Hfs' as [Hfs' ->].
  apply setitem_Ok in Hfs'. destruct Hfs' as (p & Hp & ->).
  apply bind_Ok in H. destruct H as (u' & w3 & Hset & H).
  unfold ODS2.set_self, modify in Hset. injection Hset as _ <-.
  cbn [ODS2.self ODS2.heap ODS2.stdout] in *.
  assert (Hfiles : ODS2.files
                     (if String.eqb name "000000.DIR"
                      then ODS2.set_mfd (ODS2.self w)
                             (Some (List.length (ODS2.heap w)))
                      else ODS2.self w) = ODS2.files (ODS2.self w))
    by (destruct (String.eqb name "000000.DIR"); reflexivity).
  rewrite Hfiles in *.
  rewrite length_app, <- app_assoc in H. cbn [List.length app] in H.
  rewrite Nat.add_1_r in H.
  exists o, name, p, out2, (lbn * BLOCK_SIZE), out1. auto.
Qed.

(** The scan stores decoded headers only, and leaves the stored ones
    alone. *)
Lemma scan_decoded image vbns : forall count w c w',
  ODS2.scan vbns count w = (Ok c, w') ->
  ODS2.disk (ODS2.self w) = image ->
  table_decoded image w -> table_decoded image w'.
Proof.
  induction vbns as [| vbn rest IH]; intros count w c w' H Hd Ht.
  - cbn [ODS2.scan] in H. apply ret_Ok in H. destruct H as [_ ->]. exact Ht.
  - apply scan_step_decoded in H. destruct H as [[_ ->] | H]; [exact Ht |].
    destruct H as (o & name & p & out & offset & out0 & Ho & _ & Hp & H).
    rewrite Hd in Ho.
    pose proof (position_bound _ _ _ Hp) as Hlt.
    eapply IH; [exact H | |].
    + cbn [ODS2.self]. rewrite <- Hd.
      destruct (String.eqb name "000000.DIR"); reflexivity.
    + intros i l Hi. cbn [ODS2.self ODS2.heap] in *.
      assert (Hfs : ODS2.files
                      (ODS2.set_files
                         (if String.eqb name "000000.DIR"
                          then ODS2.set_mfd (ODS2.self w)
                                 (Some (List.length (ODS2.heap w)))
                          else ODS2.self w)
                         (list_set (ODS2.files (ODS2.self w)) p
                            (Some (S (List.length (ODS2.heap w)))))) =
                    list_set (ODS2.files (ODS2.self w)) p
                      (Some (S (List.length (ODS2.heap w)))))
        by reflexivity.
      rewrite Hfs, nth_error_list_set in Hi.
      destruct (Nat.eqb_spec i p) as [-> | Hne].
      * destruct (Nat.ltb_spec p (List.length (ODS2.files (ODS2.self w))));
          [| lia].
        injection Hi as <-. exists o, offset, (ODS2.stdout w), out0.
        split; [| exact Ho].
        rewrite nth_error_app2 by lia.
        replace (S (List.length (ODS2.heap w)) - List.length (ODS2.heap w))%nat
          with 1%nat by lia.
        reflexivity.
      * destruct (Ht i l Hi) as (f & off & o1 & o2 & Hf & Hdec).
        exists f, off, o1, o2. split; [| exact Hdec].
        pose proof (nth_error_valid _ _ _ Hf).
        rewrite nth_error_app1 by lia. exact Hf.
Qed.

(** After [read_home_block] every table entry is a decoded header: the
    overwrite of the MFD's size touches no table entry. *)
Lemma read_home_block_decoded w w' :
  ODS2.read_home_block w = (Ok tt, w') ->
  table_decoded (ODS2.disk (ODS2.self w)) w'.
Proof.
  unfold ODS2.read_home_block. intros H.
  repeat match goal with
  | H : bind (ODS2.scan _ _) _ _ = _ |- _ => fail 1
  | H : bind (ODS2.new_File _ _) _ _ = _ |- _ =>
      let l := fresh "l" in let s := fresh "w" in let H1 := fresh "Hnew" in
      apply bind_Ok in H; destruct H as (l & s & H1 & H)
  | H : bind (ODS2.update _ _) _ _ = _ |- _ =>
      let u := fresh "u" in let s := fresh "w" in let H1 := fresh "Hupd" in
      apply bind_Ok in H; destruct H as (u & s & H1 & H)
  | H : bind _ _ _ = (Ok _, _) |- _ =>
      let a := fresh "a" in let s := fresh "w" in
      let H1 := fresh "Hrun" in
      apply bind_Ok in H; destruct H as (a & s & H1 & H);
      first [ apply set_self_Ok in H1 | apply say_Ok in H1
            | apply gets_Ok in H1; destruct H1
            | apply lift_Ok in H1; destruct H1
            | apply deref_Ok in H1; destruct H1 ]; subst
  end.
  apply new_File_Ok in Hnew. destruct Hnew as (f0 & out0 & _ & _ & En).
  destruct u. apply update_Ok in Hupd. destruct Hupd as (o0 & _ & Eu).
  apply bind_Ok in H. destruct H as (count & wS & Hscan & H).
  match type of Hscan with ODS2.scan _ _ ?wpre = _ =>
    assert (Ht0 : table_ok wpre)
      by (intros i k Hi; cbn [ODS2.self ODS2.files ODS2.set_files] in Hi;
          apply nth_error_In, repeat_spec in Hi; discriminate);
    assert (Hd0 : table_decoded (ODS2.disk (ODS2.self w)) wpre)
      by (intros i k Hi; cbn [ODS2.self ODS2.files ODS2.set_files] in Hi;
          apply nth_error_In, repeat_spec in Hi; discriminate);
    assert (Hm0 : mfd_ok wpre)
      by (intros m Hm;
          cbn [ODS2.self ODS2.mfd ODS2.set_files ODS2.set_mfd] in Hm;
          discriminate);
    assert (Hdisk : ODS2.disk (ODS2.self wpre) = ODS2.disk (ODS2.self w))
      by (cbn [ODS2.self ODS2.disk ODS2.set_files ODS2.set_mfd];
          rewrite Eu; cbn [ODS2.self ODS2.disk ODS2.set_index_file];
          rewrite En; reflexivity)
  end.
  clear En Eu.
  pose proof (scan_inv _ _ _ _ _ Hscan Ht0 Hm0) as [Ht _].
  pose proof (scan_decoded _ _ _ _ _ _ Hscan Hdisk Hd0) as Hd.
  clear Hscan Ht0 Hd0 Hm0 Hdisk.
  inv_world. cbn [ODS2.self ODS2.heap ODS2.stdout] in H.
  destruct (ODS2.mfd (ODS2.self wS)) as [m |] eqn:Em; [| discriminate].
  apply update_Ok in H. destruct H as (fm & Hfm & ->).
  intros i k Hi. cbn [ODS2.self ODS2.heap] in *.
  destruct (Ht i k Hi) as (Hne & _).
  destruct (Hd i k Hi) as (f & off & o1 & o2 & Hf & Hdec).
  exists f, off, o1, o2. split; [| exact Hdec].
  rewrite nth_error_list_set.
  destruct (Nat.eqb_spec k m); [congruence | exact Hf].
Qed.

Lemma bootstrap_table_decoded image mountpoint w0 w :
  ODS2.__init__ image mountpoint w0 = (Ok tt, w) ->
  table_decoded image w.
Proof.
  unfold ODS2.__init__. intros H.
  apply bind_Ok in H. destruct H as (u1 & w1 & H1 & H).
  apply set_self_Ok in H1. subst w1.
  apply bind_Ok in H. destruct H as (u2 & w2 & H2 & H).
  apply set_self_Ok in H2. subst w2.
  apply bind_Ok in H. destruct H as (u3 & w3 & H3 & H).
  apply say_Ok in H3. subst w3.
  apply read_home_block_decoded in H. exact H.
Qed.

(** A decoding that succeeds has read the 59 bytes of the header's
    prefix. *)
Lemma init_prefix disk offset out f out' :
  File.__init__ disk offset out = (Ok f, out') ->
  exists hw, unpack_from 59 disk offset = Ok hw.
Proof.
  unfold File.__init__. intros H.
  apply bind_Ok in H. destruct H as (hw & s & Hw & _).
  apply lift_Ok in Hw. destruct Hw as [Hw _]. exists hw. exact Hw.
Qed.

(** C10, as the code has it.  A header whose [B_MPOFFSET] (the second byte)
    is [0xFF] decodes to an object with an empty map,
    [total_block_count = 0] and [size = 512].  After bootstrap, a path with
    at least one component that resolves to a file resolves to an entry of
    the file table: an object decoded from a header of the image and not
    modified since.  [getattr] reports that object's size, which is 512
    when the header it was decoded from has [B_MPOFFSET = 0xFF].  A path
    without components resolves to the MFD object instead, and [getattr]
    reports the 666 that bootstrap wrote over its size, whatever its
    header. *)
Theorem mapless_header_getattr :
  (forall disk offset hw out f out',
     unpack_from 59 disk offset = Ok hw ->
     field hw 1 1 = 255 ->
     File.__init__ disk offset out = (Ok f, out') ->
     File.map f = [] /\
     File.total_block_count f = 0 /\
     File.size f = 512) /\
  (forall image mountpoint w0 w path l disk_st,
     ODS2.__init__ image mountpoint w0 = (Ok tt, w) ->
     ODS2.path_parts path <> [] ->
     fst (ODS2.get_file_by_path path w) = Ok (Some l) ->
     exists f st,
       nth_error (ODS2.heap w) l = Some f /\
       (exists offset out out',
          File.__init__ image offset out = (Ok f, out')) /\
       ODS2.getattr (Ok disk_st) path w = (Ok st, w) /\
       ODS2.st_size st = File.size f /\
       (forall offset hw out out',
          File.__init__ image offset out = (Ok f, out') ->
          unpack_from 59 image offset = Ok hw ->
          field hw 1 1 = 255 ->
          ODS2.st_size st = 512)) /\
  (forall image mountpoint w0 w path disk_st,
     ODS2.__init__ image mountpoint w0 = (Ok tt, w) ->
     ODS2.path_parts path = [] ->
     exists st,
       ODS2.getattr (Ok disk_st) path w = (Ok st, w) /\
       ODS2.st_size st = 666).
Proof.
  split; [exact mapless_decode |]. split.
  2: { intros image mountpoint w0 w path disk_st Hinit Hparts.
       apply bootstrap_mfd in Hinit.
       destruct Hinit as (m & fm & Hm & Hfm & Hs & _).
       unfold ODS2.getattr, ODS2.get_file_by_path, bind, lift, gets.
       rewrite Hparts, Hm. cbn [ODS2.walk]. unfold ret, ODS2.deref.
       rewrite Hfm. eexists. split; [reflexivity | exact Hs]. }
  intros image mountpoint w0 w path l disk_st Hinit Hparts Hp.
  assert (Hi : exists i,
            nth_error (ODS2.files (ODS2.self w)) i = Some (Some l)).
  { unfold ODS2.get_file_by_path, bind, gets in Hp.
    destruct (ODS2.walk (ODS2.path_parts path) (ODS2.mfd (ODS2.self w)) w)
      as [r w1] eqn:Ew.
    cbn [fst] in Hp. subst r. eapply walk_table; eauto. }
  destruct Hi as (i & Hi).
  destruct (bootstrap_table_decoded _ _ _ _ Hinit i l Hi)
    as (f & offset & out & out' & Hf & Hdec).
  destruct (getattr_size path w l f disk_st Hp Hf) as (st & Hg & Hs).
  exists f, st.
  split; [exact Hf |]. split; [exists offset, out, out'; exact Hdec |].
  split; [exact Hg |]. split; [exact Hs |].
  intros offset1 hw out1 out1' Hdec1 Hhw Hmp. rewrite Hs.
  apply (mapless_decode _ _ _ _ _ _ Hhw Hmp Hdec1).
Qed.

Lemma mapless_header_getattr_witness :
  (unpack_from 59 Example.image 3072 =
     Ok (firstn 59 (skipn 3072 Example.image)) /\
   field (firstn 59 (skipn 3072 Example.image)) 1 1 = 255 /\
   exists f,
     File.__init__ Example.image 3072 [] = (Ok f, []) /\
     File.map f = [] /\
     File.total_block_count f = 0 /\
     File.size f = 512) /\
  (ODS2.__init__ Example.image "/mnt" ODS2.initial =
     (Ok tt, snd Example.mounted) /\
   ODS2.path_parts "/EMPTY.DAT" <> [] /\
   fst (ODS2.get_file_by_path "/EMPTY.DAT" (snd Example.mounted)) =
     Ok (Some 6%nat) /\
   exists f st,
     nth_error (ODS2.heap (snd Example.mounted)) 6 = Some f /\
     File.__init__ Example.image 3072 [] = (Ok f, []) /\
     ODS2.getattr (Ok (1000, 1000)) "/EMPTY.DAT" (snd Example.mounted) =
       (Ok st, snd Example.mounted) /\
     ODS2.st_size st = 512) /\
  (ODS2.path_parts "/" = [] /\
   exists st,
     ODS2.getattr (Ok (1000, 1000)) "/" (snd Example.mounted) =
       (Ok st, snd Example.mounted) /\
     ODS2.st_size st = 666).
Proof.
  assert (F : fst Example.mounted = Ok tt) by (vm_compute; reflexivity).
  assert (H : ODS2.__init__ Example.image "/mnt" ODS2.initial =
              (Ok tt, snd Example.mounted)).
  { destruct Example.mounted as [r w']. cbn [fst snd] in *.
    rewrite F. reflexivity. }
  assert (H1 : unpack_from 59 Example.image 3072 =
               Ok (firstn 59 (skipn 3072 Example.image)))
    by (vm_compute; reflexivity).
  assert (H2 : field (firstn 59 (skipn 3072 Example.image)) 1 1 = 255)
    by (vm_compute; reflexivity).
  assert (H3 : File.__init__ Example.image 3072 [] =
               (Ok (File.mk (FileID.mk 3 1 0) (FileID.mk 0 1 0) false
                      (VMStoUNIX 0) (VMStoUNIX 0) (Some "EMPTY.DAT"%string)
                      [] 0 512 []), []))
    by (vm_compute; reflexivity).
  split; [| split].
  - split; [exact H1 |]. split; [exact H2 |].
    eexists. split; [exact H3 |].
    exact (proj1 mapless_header_getattr _ _ _ _ _ _ H1 H2 H3).
  - assert (Hp : ODS2.path_parts "/EMPTY.DAT" <> [])
      by (vm_compute; discriminate).
    assert (Hr : fst (ODS2.get_file_by_path "/EMPTY.DAT"
                        (snd Example.mounted)) = Ok (Some 6%nat))
      by (vm_compute; reflexivity).
    split; [exact H |]. split; [exact Hp |]. split; [exact Hr |].
    destruct (proj1 (proj2 mapless_header_getattr) _ _ _ _
                "/EMPTY.DAT"%string 6%nat (1000, 1000) H Hp Hr)
      as (f & st & Hf & _ & Hg & _ & Hall).
    assert (H5 : nth_error (ODS2.heap (snd Example.mounted)) 6 =
                 Some (File.mk (FileID.mk 3 1 0) (FileID.mk 0 1 0) false
                        (VMStoUNIX 0) (VMStoUNIX 0)
                        (Some "EMPTY.DAT"%string) [] 0 512 []))
      by (vm_compute; reflexivity).
    assert (Ef : f = File.mk (FileID.mk 3 1 0) (FileID.mk 0 1 0) false
                       (VMStoUNIX 0) (VMStoUNIX 0)
                       (Some "EMPTY.DAT"%string) [] 0 512 [])
      by congruence.
    exists f, st. split; [exact Hf |].
    split; [rewrite Ef; exact H3 |]. split; [exact Hg |].
    apply (Hall 3072 (firstn 59 (skipn 3072 Example.image)) [] []);
      [rewrite Ef; exact H3 | exact H1 | exact H2].
  - assert (Hp : ODS2.path_parts "/" = []) by reflexivity.
    split; [exact Hp |].
    exact (proj2 (proj2 mapless_header_getattr) _ _ _ _ "/"%string
             (1000, 1000) H Hp).
Defined.
